(** * Speed-camera assistant: the tool-calling loop of [gemini_functions.py]

    A shallow embedding of [get_cameras_by_zipcode], [search_cameras_by_street],
    [execute_function_call] and [chat_with_gemini], and the properties of the
    orchestration loop proved on it.

    Python values are the JSON-like values the program handles; dictionaries
    are association lists in insertion order.  The outside world is three
    oracles: the LLM provider ([client.models.generate_content]), the camera
    API ([requests.get]) and the console ([print]), each a function from the
    number of calls made so far and the request to what the call does
    (return or raise).  Statements run in a state-and-exception monad whose
    state holds the local variables the loop mutates ([messages],
    [function_calls_made]), the log of outgoing calls and the text printed.
    A raised exception keeps the state, as Python does with objects mutated
    before the raise.  Exceptions are the subclasses of [Exception]. *)

From Stdlib Require Import String Ascii List ZArith Bool Lia DecimalString.
Import ListNotations.
Open Scope string_scope.

Set Implicit Arguments.

(** ** Python values *)

#[warnings="-register-all"]
Inductive PyVal : Type :=
| PyNone
| PyBool (b : bool)
| PyInt (z : Z)
| PyFloat (literal : string)
| PyStr (s : string)
| PyList (l : list PyVal)
| PyDict (d : list (string * PyVal)).

Definition Dict := list (string * PyVal).

(** [d.get(k)] *)
Fixpoint dict_get (d : Dict) (k : string) : option PyVal :=
  match d with
  | [] => None
  | (k', v) :: d' => if String.eqb k k' then Some v else dict_get d' k
  end.

(** [k in d] *)
Definition dict_has (d : Dict) (k : string) : bool :=
  match dict_get d k with Some _ => true | None => false end.

Definition dict_keys (d : Dict) : list string := map fst d.

(** [needle in hay] on strings *)
Fixpoint contains (hay needle : string) : bool :=
  String.prefix needle hay ||
  match hay with
  | EmptyString => false
  | String _ hay' => contains hay' needle
  end.

(** [s.lower()].  Strings are UTF-8 byte strings; bytes of a non-ASCII
    character are left as they are, which does not change whether the ASCII
    word searched for below occurs. *)
Definition lower_ascii (c : ascii) : ascii :=
  let n := nat_of_ascii c in
  if (65 <=? n)%nat && (n <=? 90)%nat then ascii_of_nat (n + 32) else c.

Fixpoint lower (s : string) : string :=
  match s with
  | EmptyString => EmptyString
  | String c s' => String (lower_ascii c) (lower s')
  end.

(** Number of characters of a UTF-8 string: the bytes that are not
    continuation bytes (10xxxxxx). *)
Fixpoint utf8_length (s : string) : nat :=
  match s with
  | EmptyString => 0
  | String c s' =>
      let n := nat_of_ascii c in
      (if (128 <=? n)%nat && (n <? 192)%nat then 0 else 1) + utf8_length s'
  end.

(** ['=' * n] *)
Fixpoint str_repeat (s : string) (n : nat) : string :=
  match n with
  | O => EmptyString
  | S n' => s ++ str_repeat s n'
  end.

(** ** Exceptions *)

(** The classes the program's [except] clauses tell apart, and the ones the
    interpreter raises in the code modelled. *)
Inductive ExcClass : Type :=
| ClientError          (* google.genai.errors.ClientError *)
| RequestException     (* requests.exceptions.RequestException and subclasses *)
| TypeError
| IndexError
| AttributeError
| OtherException.      (* any other subclass of Exception *)

Record Exc : Type := mkExc { exc_class : ExcClass; exc_str : string }.

Definition is_ClientError (e : Exc) : bool :=
  match exc_class e with ClientError => true | _ => false end.

Definition is_RequestException (e : Exc) : bool :=
  match exc_class e with RequestException => true | _ => false end.

(** ** Conversation data ([google.genai.types]) *)

(** The fields the SDK declares optional and the program subscripts or
    expands are options here: [FunctionCall.args], [Content.parts],
    [Candidate.content] and [GenerateContentResponse.candidates] can be
    [None]. *)
Record FunctionCall : Type := mkFunctionCall {
  fc_name : string;
  fc_args : option Dict
}.

Record FunctionResponse : Type := mkFunctionResponse {
  fr_name : string;
  fr_response : PyVal
}.

Record Part : Type := mkPart {
  part_text : option string;
  part_function_call : option FunctionCall;
  part_function_response : option FunctionResponse
}.

Record Content : Type := mkContent {
  role : string;
  parts : option (list Part)
}.

Record Candidate : Type := mkCandidate {
  content : option Content
}.

(** What [generate_content] returns: the candidates and the [text]
    property. *)
Record GenerateContentResponse : Type := mkResponse {
  candidates : option (list Candidate);
  text : option string
}.

Inductive ProviderReply : Type :=
| ProviderReturns (r : GenerateContentResponse)
| ProviderRaises (e : Exc).

(** ** The camera API ([requests]) *)

(** A piece of an f-string: literal text or a formatted value. *)
Inductive FPart : Type :=
| Lit (s : string)
| Fmt (v : PyVal).

Record HttpRequest : Type := mkGet {
  req_url : list FPart;
  req_params : option Dict;
  req_timeout : Z
}.

(** A [requests.Response], by what its two methods used here do:
    [raise_for_status()] raises or not, [json()] raises or returns. *)
Record HttpResponse : Type := mkHttpResponse {
  raise_for_status : option Exc;
  json : Exc + PyVal
}.

Inductive HttpReply : Type :=
| GetReturns (r : HttpResponse)
| GetRaises (e : Exc).

(** ** Program state *)

Inductive Printed : Type :=
| PrintLine (s : string)
| PrintJson (prefix : string) (v : PyVal).   (* prefix + json.dumps(v, indent=2) *)

Record State : Type := mkState {
  messages : list Content;
  function_calls_made : list PyVal;
  llm_log : list (list Content);    (* contents of each generate_content call *)
  http_log : list HttpRequest;      (* each requests.get *)
  stdout : list Printed
}.

(** ** Statements: state and exceptions *)

Inductive Res (A : Type) : Type :=
| Ret (a : A)
| Raise (e : Exc).
Arguments Raise {A} e.

Definition M (A : Type) : Type := State -> Res A * State.

Definition ret {A} (a : A) : M A := fun s => (Ret a, s).

Definition raise {A} (e : Exc) : M A := fun s => (Raise e, s).

Definition bind {A B} (m : M A) (k : A -> M B) : M B :=
  fun s =>
    match m s with
    | (Ret a, s') => k a s'
    | (Raise e, s') => (Raise e, s')
    end.

Declare Scope py_scope.
Delimit Scope py_scope with py.
Notation "x <- m ;; k" := (bind m (fun x => k))
  (at level 100, m at next level, right associativity) : py_scope.
Notation "m ;; k" := (bind m (fun _ => k))
  (at level 100, right associativity) : py_scope.
Open Scope py_scope.

(** [try: body  except <class> as e: handler]: [handler e] is [None] when
    no clause matches [e], which then propagates. *)
Definition try_except {A} (body : M A) (handler : Exc -> option (M A)) : M A :=
  fun s =>
    match body s with
    | (Ret a, s') => (Ret a, s')
    | (Raise e, s') =>
        match handler e with
        | Some h => h s'
        | None => (Raise e, s')
        end
    end.

(** [print(...)].  The console takes the item or raises (a
    [UnicodeEncodeError] when its encoding lacks a character of the text, an
    [OSError] when it is closed): [write n p] is what it does with the item
    [p] once [n] items have been written.  An item that raises is not
    written. *)
Definition print (write : nat -> Printed -> option Exc) (p : Printed) : M unit :=
  fun s =>
    match write (length (stdout s)) p with
    | None => (Ret tt, mkState (messages s) (function_calls_made s)
                               (llm_log s) (http_log s) (stdout s ++ [p]))
    | Some e => (Raise e, s)
    end.

(** The console that takes every item. *)
Definition accepts : nat -> Printed -> option Exc := fun _ _ => None.

Definition when (b : bool) (m : M unit) : M unit :=
  if b then m else ret tt.

(** [l[0]], for [l] a list or [None] *)
Definition index0 {A} (l : option (list A)) : M A :=
  match l with
  | Some (x :: _) => ret x
  | Some [] => raise (mkExc IndexError "list index out of range")
  | None => raise (mkExc TypeError "'NoneType' object is not subscriptable")
  end.

(** [len(v)] *)
Definition py_len (v : PyVal) : Exc + nat :=
  match v with
  | PyList l => inr (length l)
  | PyDict d => inr (length d)
  | PyStr s => inr (utf8_length s)
  | PyNone => inl (mkExc TypeError "object of type 'NoneType' has no len()")
  | PyBool _ => inl (mkExc TypeError "object of type 'bool' has no len()")
  | PyInt _ => inl (mkExc TypeError "object of type 'int' has no len()")
  | PyFloat _ => inl (mkExc TypeError "object of type 'float' has no len()")
  end.

Definition lift {A} (r : Exc + A) : M A :=
  match r with
  | inr a => ret a
  | inl e => raise e
  end.

(** Decimal text of a natural number, as an f-string formats it. *)
Definition nat_str (n : nat) : string := NilEmpty.string_of_uint (Nat.to_uint n).

Definition nl : string := String (ascii_of_nat 10) EmptyString.

(** ** Calling a function with [**kwargs] *)

(** CPython's rendering of the missing parameter names:
    ['a'], ['a' and 'b'], ['a', 'b', and 'c']. *)
Fixpoint quoted_series (l : list string) : string :=
  match l with
  | [] => EmptyString
  | [a] => "and '" ++ a ++ "'"
  | a :: l' => "'" ++ a ++ "', " ++ quoted_series l'
  end.

Definition quoted_names (l : list string) : string :=
  match l with
  | [] => EmptyString
  | [a] => "'" ++ a ++ "'"
  | [a; b] => "'" ++ a ++ "' and '" ++ b ++ "'"
  | _ => quoted_series l
  end.

Definition mem_str (k : string) (l : list string) : bool :=
  existsb (String.eqb k) l.

(** Binding [**kwargs] to the parameters [params] of [fname] (all required,
    no defaults): the first keyword that is not a parameter is reported;
    otherwise the parameters left without a value are. *)
Definition bind_keywords (fname : string) (params : list string) (kwargs : Dict)
  : Exc + unit :=
  match filter (fun k => negb (mem_str k params)) (dict_keys kwargs) with
  | k :: _ =>
      inl (mkExc TypeError
             (fname ++ "() got an unexpected keyword argument '" ++ k ++ "'"))
  | [] =>
      match filter (fun p => negb (dict_has kwargs p)) params with
      | [] => inr tt
      | missing =>
          inl (mkExc TypeError
                 (fname ++ "() missing " ++ nat_str (length missing)
                  ++ " required positional argument"
                  ++ (if (length missing =? 1)%nat then EmptyString else "s")
                  ++ ": " ++ quoted_names missing))
      end
  end.

(** The keyword expansion of [args], which may be [None], in a call of the
    function [fname] of module [gemini_functions]. *)
Definition expand_keywords (fname : string) (params : list string)
    (args : option Dict) : Exc + unit :=
  match args with
  | Some kwargs => bind_keywords fname params kwargs
  | None =>
      inl (mkExc TypeError
             ("gemini_functions." ++ fname
              ++ "() argument after ** must be a mapping, not NoneType"))
  end.

(** [args.get(k)] for a mapping; nothing for [None]. *)
Definition args_get (args : option Dict) (k : string) : option PyVal :=
  match args with
  | Some kwargs => dict_get kwargs k
  | None => None
  end.

(** The value bound to parameter [p] once the expansion has succeeded. *)
Definition argument (args : option Dict) (p : string) : PyVal :=
  match args_get args p with
  | Some v => v
  | None => PyNone
  end.

(** [dict(args)] *)
Definition dict_of (args : option Dict) : Exc + Dict :=
  match args with
  | Some kwargs => inr kwargs
  | None => inl (mkExc TypeError "'NoneType' object is not iterable")
  end.

(** [args] as a Python value, as [json.dumps] receives it. *)
Definition py_args (args : option Dict) : PyVal :=
  match args with
  | Some kwargs => PyDict kwargs
  | None => PyNone
  end.

(** ** The program *)

Definition SPEED_CAMERA_API_BASE_URL : string :=
  "https://speedcameraapi.onrender.com".

Definition bar : string := str_repeat "=" 60.

(** The functions the registry maps names to. *)
Inductive PyFunction : Type :=
| fn_get_cameras_by_zipcode
| fn_search_cameras_by_street.

Definition available_functions : list (string * PyFunction) :=
  [ ("get_cameras_by_zipcode", fn_get_cameras_by_zipcode);
    ("search_cameras_by_street", fn_search_cameras_by_street) ].

(** [available_functions.get(name)] *)
Fixpoint registry_get (reg : list (string * PyFunction)) (name : string)
  : option PyFunction :=
  match reg with
  | [] => None
  | (n, f) :: reg' => if String.eqb name n then Some f else registry_get reg' name
  end.

Definition fn_name (f : PyFunction) : string :=
  match f with
  | fn_get_cameras_by_zipcode => "get_cameras_by_zipcode"
  | fn_search_cameras_by_street => "search_cameras_by_street"
  end.

Definition fn_params (f : PyFunction) : list string :=
  match f with
  | fn_get_cameras_by_zipcode => ["zipcode"]
  | fn_search_cameras_by_street => ["street"; "zipcode"]
  end.

Definition rate_limit_message : string :=
  "⚠️ Rate limit exceeded! You've hit the Gemini API quota. "
  ++ "The free tier allows 20 requests per day for gemini-2.5-flash. "
  ++ "Please wait a few minutes and try again, or check your usage at: "
  ++ "https://ai.dev/usage?tab=rate-limit".

(** The test of line 263. *)
Definition is_rate_limit (error_msg : string) : bool :=
  contains error_msg "429"
  || contains error_msg "RESOURCE_EXHAUSTED"
  || contains (lower error_msg) "quota".

(** An optional string as a Python value and as an f-string shows it. *)
Definition py_opt_str (o : option string) : PyVal :=
  match o with Some s => PyStr s | None => PyNone end.

Definition fmt_opt_str (o : option string) : string :=
  match o with Some s => s | None => "None" end.

Definition append_message (c : Content) : M unit :=
  fun s => (Ret tt, mkState (messages s ++ [c]) (function_calls_made s)
                            (llm_log s) (http_log s) (stdout s)).

Definition append_call (v : PyVal) : M unit :=
  fun s => (Ret tt, mkState (messages s) (function_calls_made s ++ [v])
                            (llm_log s) (http_log s) (stdout s)).

Definition get_function_calls_made : M (list PyVal) :=
  fun s => (Ret (function_calls_made s), s).

(** The two assignments at the top of [chat_with_gemini]. *)
Definition init_locals (user_message : string) : M unit :=
  fun s => (Ret tt,
            mkState [mkContent "user" (Some [mkPart (Some user_message) None None])]
                    [] (llm_log s) (http_log s) (stdout s)).

Section Program.

(** What the console does with the [n]-th item printed, the provider's
    answer to the [n]-th [generate_content] call, and the camera API's to
    the [n]-th [requests.get]. *)
Variable write : nat -> Printed -> option Exc.
Variable generate_content : nat -> list Content -> ProviderReply.
Variable requests_get : nat -> HttpRequest -> HttpReply.

Definition http_get (req : HttpRequest) : M HttpResponse :=
  fun s =>
    let s' := mkState (messages s) (function_calls_made s)
                      (llm_log s) (http_log s ++ [req]) (stdout s) in
    match requests_get (length (http_log s)) req with
    | GetReturns r => (Ret r, s')
    | GetRaises e => (Raise e, s')
    end.

Definition check_status (response : HttpResponse) : M unit :=
  match raise_for_status response with
  | Some e => raise e
  | None => ret tt
  end.

Definition get_cameras_by_zipcode (zipcode : PyVal) : M PyVal :=
  try_except
    (let url := [Fmt (PyStr SPEED_CAMERA_API_BASE_URL);
                 Lit "/cameras/zipcode/"; Fmt zipcode] in
     response <- http_get (mkGet url None 10) ;;
     check_status response ;;
     cameras <- lift (json response) ;;
     count <- lift (py_len cameras) ;;
     ret (PyDict [ ("success", PyBool true);
                   ("zipcode", zipcode);
                   ("count", PyInt (Z.of_nat count));
                   ("cameras", cameras) ]))
    (fun e =>
       if is_RequestException e then
         Some (ret (PyDict [ ("success", PyBool false);
                             ("error", PyStr (exc_str e));
                             ("zipcode", zipcode) ]))
       else None).

Definition search_cameras_by_street (street zipcode : PyVal) : M PyVal :=
  try_except
    (let url := [Fmt (PyStr SPEED_CAMERA_API_BASE_URL);
                 Lit "/cameras/search"] in
     let params := [("street", street); ("zipcode", zipcode)] in
     response <- http_get (mkGet url (Some params) 10) ;;
     check_status response ;;
     cameras <- lift (json response) ;;
     count <- lift (py_len cameras) ;;
     ret (PyDict [ ("success", PyBool true);
                   ("street", street);
                   ("zipcode", zipcode);
                   ("count", PyInt (Z.of_nat count));
                   ("cameras", cameras) ]))
    (fun e =>
       if is_RequestException e then
         Some (ret (PyDict [ ("success", PyBool false);
                             ("error", PyStr (exc_str e));
                             ("street", street);
                             ("zipcode", zipcode) ]))
       else None).

(** The keyword-expansion call of line 167: [function_to_call] applied to
    the argument mapping. *)
Definition call_with_keywords (f : PyFunction) (kwargs : option Dict) : M PyVal :=
  lift (expand_keywords (fn_name f) (fn_params f) kwargs) ;;
  match f with
  | fn_get_cameras_by_zipcode =>
      get_cameras_by_zipcode (argument kwargs "zipcode")
  | fn_search_cameras_by_street =>
      search_cameras_by_street (argument kwargs "street")
                               (argument kwargs "zipcode")
  end.

Definition execute_function_call (function_call : FunctionCall) (verbose : bool)
  : M PyVal :=
  let function_name := fc_name function_call in
  let function_args := fc_args function_call in
  when verbose
    (print write (PrintLine (nl ++ bar)) ;;
     print write (PrintLine "🔧 FUNCTION CALL DETECTED") ;;
     print write (PrintLine bar) ;;
     print write (PrintLine ("Function: " ++ function_name)) ;;
     print write (PrintJson "Arguments: " (py_args function_args)) ;;
     print write (PrintLine (bar ++ nl))) ;;
  match registry_get available_functions function_name with
  | None =>
      ret (PyDict [("error", PyStr ("Function " ++ function_name ++ " not found"))])
  | Some function_to_call =>
      result <- call_with_keywords function_to_call function_args ;;
      when verbose
        (print write (PrintLine "📊 API RESPONSE:") ;;
         print write (PrintJson EmptyString result) ;;
         print write (PrintLine (nl ++ bar ++ nl))) ;;
      ret result
  end.

(** [client.models.generate_content(model=..., contents=messages, config=...)]
    with the fixed model, tools and temperature. *)
Definition call_model : M GenerateContentResponse :=
  fun s =>
    let s' := mkState (messages s) (function_calls_made s)
                      (llm_log s ++ [messages s]) (http_log s) (stdout s) in
    match generate_content (length (llm_log s)) (messages s) with
    | ProviderReturns r => (Ret r, s')
    | ProviderRaises e => (Raise e, s')
    end.

(** [candidate.content.parts]: an [AttributeError] when [content] is
    [None]. *)
Definition content_of (c : Candidate) : M Content :=
  match content c with
  | Some ct => ret ct
  | None => raise (mkExc AttributeError
                         "'NoneType' object has no attribute 'parts'")
  end.

(** The tool-result turn of lines 234-246. *)
Definition function_response_turn (name : string) (function_result : PyVal)
  : Content :=
  mkContent "user"
    (Some [mkPart None None (Some (mkFunctionResponse name function_result))]).

(** One pass through the body of [while True]: [Some outcome] when the body
    executes [return outcome], [None] when it reaches its end. *)
Definition turn (verbose : bool) : M (option PyVal) :=
  response <- call_model ;;
  candidate <- index0 (candidates response) ;;
  model_content <- content_of candidate ;;
  part <- index0 (parts model_content) ;;
  match part_function_call part with
  | Some function_call =>
      args <- lift (dict_of (fc_args function_call)) ;;
      append_call (PyDict [ ("name", PyStr (fc_name function_call));
                            ("args", PyDict args) ]) ;;
      function_result <- execute_function_call function_call verbose ;;
      append_message model_content ;;
      append_message
        (function_response_turn (fc_name function_call) function_result) ;;
      ret None
  | None =>
      let final_response := text response in
      when verbose
        (print write (PrintLine ("🤖 GEMINI: " ++ fmt_opt_str final_response ++ nl))) ;;
      calls <- get_function_calls_made ;;
      ret (Some (PyDict [ ("response", py_opt_str final_response);
                          ("function_calls", PyList calls) ]))
  end.

(** [while True: ...], at most [fuel] passes; [None] when the passes are
    used up with the loop still running. *)
Fixpoint while_true (fuel : nat) (verbose : bool) : M (option PyVal) :=
  match fuel with
  | O => ret None
  | S fuel' =>
      r <- turn verbose ;;
      match r with
      | Some outcome => ret (Some outcome)
      | None => while_true fuel' verbose
      end
  end.

(** [except errors.ClientError as e] *)
Definition on_client_error (e : Exc) (verbose : bool) : M (option PyVal) :=
  let error_msg := exc_str e in
  if is_rate_limit error_msg then
    let user_friendly_msg := rate_limit_message in
    when verbose
      (print write (PrintLine (nl ++ "❌ " ++ user_friendly_msg ++ nl)) ;;
       print write (PrintLine ("Technical details: " ++ error_msg ++ nl))) ;;
    calls <- get_function_calls_made ;;
    ret (Some (PyDict [ ("error", PyStr user_friendly_msg);
                        ("error_details", PyStr error_msg);
                        ("function_calls", PyList calls) ]))
  else
    when verbose
      (print write (PrintLine (nl ++ "❌ Gemini API Error: " ++ error_msg ++ nl))) ;;
    calls <- get_function_calls_made ;;
    ret (Some (PyDict [ ("error", PyStr ("Gemini API Error: " ++ error_msg));
                        ("function_calls", PyList calls) ])).

(** [except Exception as e] *)
Definition on_exception (e : Exc) (verbose : bool) : M (option PyVal) :=
  let error_msg := exc_str e in
  when verbose
    (print write (PrintLine (nl ++ "❌ Unexpected Error: " ++ error_msg ++ nl))) ;;
  calls <- get_function_calls_made ;;
  ret (Some (PyDict [ ("error", PyStr ("Unexpected error: " ++ error_msg));
                      ("function_calls", PyList calls) ])).

(** The [try] statement of lines 206-300. *)
Definition guarded_loop (fuel : nat) (verbose : bool) : M (option PyVal) :=
  try_except (while_true fuel verbose)
    (fun e =>
       if is_ClientError e then Some (on_client_error e verbose)
       else Some (on_exception e verbose)).

Definition chat_with_gemini (fuel : nat) (user_message : string) (verbose : bool)
  : M (option PyVal) :=
  when verbose (print write (PrintLine ("💬 USER: " ++ user_message ++ nl))) ;;
  init_locals user_message ;;
  guarded_loop fuel verbose.

End Program.

(** ** Observations on a run *)

(** The test of line 218 on a provider reply: the content and the function
    call of [response.candidates[0].content.parts[0]] when the reply is a
    response that has them. *)
Definition tool_request (reply : ProviderReply) : option (Content * FunctionCall) :=
  match reply with
  | ProviderRaises _ => None
  | ProviderReturns response =>
      match candidates response with
      | Some (candidate :: _) =>
          match content candidate with
          | Some model_content =>
              match parts model_content with
              | Some (part :: _) =>
                  match part_function_call part with
                  | Some function_call => Some (model_content, function_call)
                  | None => None
                  end
              | _ => None
              end
          | None => None
          end
      | _ => None
      end
  end.

(** The reply the provider gives to the call made in state [s]. *)
Definition reply_in (generate_content : nat -> list Content -> ProviderReply)
    (s : State) : ProviderReply :=
  generate_content (length (llm_log s)) (messages s).

(** The state in which the [try] statement is entered. *)
Definition start (user_message : string) (verbose : bool) (s : State) : State :=
  mkState [mkContent "user" (Some [mkPart (Some user_message) None None])] []
          (llm_log s) (http_log s)
          (if verbose
           then stdout s ++ [PrintLine ("💬 USER: " ++ user_message ++ nl)]
           else stdout s).

(** The state after [k] passes of the loop body that all reached its end
    (a tool was requested and executed), if the run gets that far. *)
Fixpoint continues (write : nat -> Printed -> option Exc)
    (generate_content : nat -> list Content -> ProviderReply)
    (requests_get : nat -> HttpRequest -> HttpReply)
    (k : nat) (verbose : bool) (s : State) : option State :=
  match k with
  | O => Some s
  | S k' =>
      match turn write generate_content requests_get verbose s with
      | (Ret None, s') =>
          continues write generate_content requests_get k' verbose s'
      | _ => None
      end
  end.

(** The entry of [function_calls_made] for an invocation whose [args] is a
    mapping (lines 222-225). *)
Definition call_record (function_call : FunctionCall) : PyVal :=
  PyDict [ ("name", PyStr (fc_name function_call));
           ("args", py_args (fc_args function_call)) ].

(** The state after the call to the provider of a pass started in [s]. *)
Definition called (s : State) : State :=
  mkState (messages s) (function_calls_made s)
          (llm_log s ++ [messages s]) (http_log s) (stdout s).

(** The state in which [execute_function_call] runs in a pass started in
    [s]: the call to the provider is logged and the invocation recorded. *)
Definition executing (function_call : FunctionCall) (s : State) : State :=
  mkState (messages s) (function_calls_made s ++ [call_record function_call])
          (llm_log s ++ [messages s]) (http_log s) (stdout s).

(** The request a registered function sends for an argument mapping. *)
Definition request_of (f : PyFunction) (kwargs : option Dict) : HttpRequest :=
  match f with
  | fn_get_cameras_by_zipcode =>
      mkGet [Fmt (PyStr SPEED_CAMERA_API_BASE_URL); Lit "/cameras/zipcode/";
             Fmt (argument kwargs "zipcode")] None 10
  | fn_search_cameras_by_street =>
      mkGet [Fmt (PyStr SPEED_CAMERA_API_BASE_URL); Lit "/cameras/search"]
            (Some [("street", argument kwargs "street");
                   ("zipcode", argument kwargs "zipcode")]) 10
  end.

(** The input fields a registered function echoes in its payloads. *)
Definition echo_of (f : PyFunction) (kwargs : option Dict) : Dict :=
  map (fun p => (p, argument kwargs p)) (fn_params f).

(** The three shapes of payload the registry produces. *)
Definition success_payload (echo : Dict) (payload : PyVal) : Prop :=
  exists cameras count,
    py_len cameras = inr count /\
    payload = PyDict (("success", PyBool true) :: echo
                      ++ [("count", PyInt (Z.of_nat count)); ("cameras", cameras)]).

Definition failure_payload (echo : Dict) (payload : PyVal) : Prop :=
  exists error,
    payload = PyDict (("success", PyBool false) :: ("error", PyStr error) :: echo).

Definition not_found_payload (name : string) : PyVal :=
  PyDict [("error", PyStr ("Function " ++ name ++ " not found"))].

(** The field [success] of the payload is [True]. *)
Definition succeeded (payload : PyVal) : bool :=
  match payload with
  | PyDict d =>
      match dict_get d "success" with
      | Some (PyBool true) => true
      | _ => false
      end
  | _ => false
  end.

(** [payload[k]] *)
Definition field (payload : PyVal) (k : string) : option PyVal :=
  match payload with
  | PyDict d => dict_get d k
  | _ => None
  end.

(** A mapping echoes the argument mapping when it holds each of its
    fields. *)
Definition echoes (kwargs : option Dict) (payload : PyVal) : Prop :=
  exists d, payload = PyDict d /\
    forall k v, args_get kwargs k = Some v -> dict_get d k = Some v.

(** A camera API reply the handlers turn into a payload: what it raises is
    a [RequestException], what it returns has a length. *)
Definition handled (reply : HttpReply) : Prop :=
  match reply with
  | GetRaises e => is_RequestException e = true
  | GetReturns r =>
      match raise_for_status r with
      | Some e => is_RequestException e = true
      | None =>
          match json r with
          | inl e => is_RequestException e = true
          | inr cameras => exists count, py_len cameras = inr count
          end
      end
  end.

(** The arguments are a mapping that names each parameter of [f] and
    nothing else. *)
Definition binds_exactly (f : PyFunction) (args : option Dict) : Prop :=
  exists kwargs,
    args = Some kwargs /\ forall k, In k (dict_keys kwargs) <-> In k (fn_params f).

(** What a handler does with the camera API's reply: the body of its [try]
    and its [except RequestException] clause. *)
Definition caught (echo : Dict) (e : Exc) : Res PyVal :=
  if is_RequestException e then
    Ret (PyDict (("success", PyBool false) :: ("error", PyStr (exc_str e)) :: echo))
  else Raise e.

Definition handler_result (echo : Dict) (reply : HttpReply) : Res PyVal :=
  match reply with
  | GetRaises e => caught echo e
  | GetReturns r =>
      match raise_for_status r with
      | Some e => caught echo e
      | None =>
          match json r with
          | inl e => caught echo e
          | inr cameras =>
              match py_len cameras with
              | inl e => caught echo e
              | inr count =>
                  Ret (PyDict (("success", PyBool true) :: echo
                               ++ [("count", PyInt (Z.of_nat count));
                                   ("cameras", cameras)]))
              end
          end
      end
  end.

(** What [execute_function_call] returns or raises when [n] requests have
    been sent to the camera API before it. *)
Definition execute_result (requests_get : nat -> HttpRequest -> HttpReply)
    (function_call : FunctionCall) (n : nat) : Res PyVal :=
  match registry_get available_functions (fc_name function_call) with
  | None => Ret (not_found_payload (fc_name function_call))
  | Some f =>
      match expand_keywords (fn_name f) (fn_params f) (fc_args function_call) with
      | inl e => Raise e
      | inr _ =>
          handler_result (echo_of f (fc_args function_call))
                         (requests_get n (request_of f (fc_args function_call)))
      end
  end.

(** The requests [execute_function_call] sends. *)
Definition execute_requests (function_call : FunctionCall) : list HttpRequest :=
  match registry_get available_functions (fc_name function_call) with
  | None => []
  | Some f =>
      match expand_keywords (fn_name f) (fn_params f) (fc_args function_call) with
      | inl _ => []
      | inr _ => [request_of f (fc_args function_call)]
      end
  end.

(** The two outcomes of [chat_with_gemini]. *)
Definition final_answer (calls : list PyVal) (outcome : PyVal) : Prop :=
  exists final_response,
    outcome = PyDict [ ("response", py_opt_str final_response);
                       ("function_calls", PyList calls) ].

Definition rate_limited_outcome (error_msg : string) (calls : list PyVal) : PyVal :=
  PyDict [ ("error", PyStr rate_limit_message);
           ("error_details", PyStr error_msg);
           ("function_calls", PyList calls) ].

Definition error_outcome (message : string) (calls : list PyVal) : PyVal :=
  PyDict [ ("error", PyStr message); ("function_calls", PyList calls) ].

(** The mapping the [except] clauses of lines 259-300 return for [e]. *)
Definition except_outcome (e : Exc) (calls : list PyVal) : PyVal :=
  if is_ClientError e then
    if is_rate_limit (exc_str e) then rate_limited_outcome (exc_str e) calls
    else error_outcome ("Gemini API Error: " ++ exc_str e) calls
  else error_outcome ("Unexpected error: " ++ exc_str e) calls.

Definition terminal_error (calls : list PyVal) (outcome : PyVal) : Prop :=
  exists message,
    outcome = error_outcome message calls \/
    exists details, outcome = PyDict [ ("error", PyStr message);
                                       ("error_details", PyStr details);
                                       ("function_calls", PyList calls) ].

Definition has_key (outcome : PyVal) (k : string) : bool :=
  match outcome with
  | PyDict d => dict_has d k
  | _ => false
  end.

(** The turn in which a tool is requested: its first part holds a function
    call, of the tool named. *)
Definition requested_tool (c : Content) : option string :=
  match parts c with
  | Some (part :: _) => option_map fc_name (part_function_call part)
  | _ => None
  end.

(** The turn that answers it: a turn of the user whose one part holds
    nothing but a function response, for the tool named. *)
Definition tool_result_for (name : string) (c : Content) : Prop :=
  role c = "user"
  /\ exists part response,
       parts c = Some [part]
       /\ part_text part = None
       /\ part_function_call part = None
       /\ part_function_response part = Some response
       /\ fr_name response = name.

(** A list of turns made of request turns, each followed by its result. *)
Fixpoint exchanges (l : list Content) : Prop :=
  match l with
  | [] => True
  | [_] => False
  | request :: result :: l' =>
      (exists name, requested_tool request = Some name
                    /\ tool_result_for name result)
      /\ exchanges l'
  end.

Definition conversation (user_message : string) (l : list Content) : Prop :=
  exists l', l = mkContent "user" (Some [mkPart (Some user_message) None None])
                 :: l'
             /\ exchanges l'.

(** Every request turn of [l] has its result as the next turn, and the turn
    after that is not one more result. *)
Definition answered_once (l : list Content) : Prop :=
  forall i request name,
    nth_error l i = Some request ->
    requested_tool request = Some name ->
    (exists result,
        nth_error l (S i) = Some result /\ tool_result_for name result)
    /\ (forall c n, nth_error l (S (S i)) = Some c -> ~ tool_result_for n c).


(** Two states that differ at most in what has been printed. *)
Definition same_run (s1 s2 : State) : Prop :=
  messages s1 = messages s2
  /\ function_calls_made s1 = function_calls_made s2
  /\ llm_log s1 = llm_log s2
  /\ http_log s1 = http_log s2.

(** A statement that touches neither the variables of the loop nor the log
    of the calls to the provider. *)
Definition untouched {A} (m : M A) : Prop :=
  forall s,
    messages (snd (m s)) = messages s
    /\ function_calls_made (snd (m s)) = function_calls_made s
    /\ llm_log (snd (m s)) = llm_log s.

(** ** Scenarios *)

Module Scenario.

Definition idle : State := mkState [] [] [] [] [].

Definition requests (function_call : FunctionCall) : ProviderReply :=
  ProviderReturns
    (mkResponse
       (Some [mkCandidate
                (Some (mkContent "model"
                         (Some [mkPart None (Some function_call) None])))])
       None).

Definition says (t : string) : ProviderReply :=
  ProviderReturns
    (mkResponse
       (Some [mkCandidate
                (Some (mkContent "model" (Some [mkPart (Some t) None None])))])
       (Some t)).

Definition zipcode_call : FunctionCall :=
  mkFunctionCall "get_cameras_by_zipcode" (Some [("zipcode", PyStr "10036")]).

Definition street_call : FunctionCall :=
  mkFunctionCall "search_cameras_by_street"
                 (Some [("street", PyStr "Broadway"); ("zipcode", PyStr "10001")]).

(** An invocation without its required parameter. *)
Definition bare_call : FunctionCall :=
  mkFunctionCall "get_cameras_by_zipcode" (Some []).

(** An invocation of a tool that is not registered. *)
Definition unknown_call : FunctionCall :=
  mkFunctionCall "get_weather" (Some [("zipcode", PyStr "10036")]).

Definition camera : PyVal :=
  PyDict [("street", PyStr "Broadway"); ("speed_limit", PyInt 25)].

(** A camera API that answers every request with two cameras. *)
Definition two_cameras (_ : nat) (_ : HttpRequest) : HttpReply :=
  GetReturns (mkHttpResponse None (inr (PyList [camera; camera]))).

(** A camera API that times out. *)
Definition timeout (_ : nat) (_ : HttpRequest) : HttpReply :=
  GetRaises (mkExc RequestException "Read timed out. (read timeout=10)").

(** A model that asks for one tool and then answers. *)
Definition one_tool (n : nat) (_ : list Content) : ProviderReply :=
  match n with
  | O => requests zipcode_call
  | S _ => says "There are 2 cameras in 10036."
  end.

(** A model that requests a tool on every turn. *)
Definition always_requests (_ : nat) (_ : list Content) : ProviderReply :=
  requests zipcode_call.

(** A model that asks for an unregistered tool, then answers. *)
Definition unknown_then_text (n : nat) (_ : list Content) : ProviderReply :=
  match n with
  | O => requests unknown_call
  | S _ => says "I cannot look that up."
  end.

(** A model that omits the required parameter. *)
Definition bare_request (_ : nat) (_ : list Content) : ProviderReply :=
  requests bare_call.

(** A provider out of quota. *)
Definition out_of_quota (_ : nat) (_ : list Content) : ProviderReply :=
  ProviderRaises
    (mkExc ClientError "429 RESOURCE_EXHAUSTED. Quota exceeded for the day.").

End Scenario.

(** ** The web front end ([app.py]) *)

(** The name of a value's type, as an [AttributeError] shows it. *)
Definition type_name (v : PyVal) : string :=
  match v with
  | PyNone => "NoneType"
  | PyBool _ => "bool"
  | PyInt _ => "int"
  | PyFloat _ => "float"
  | PyStr _ => "str"
  | PyList _ => "list"
  | PyDict _ => "dict"
  end.

Definition attribute_error (v : PyVal) (attribute : string) : Exc :=
  mkExc AttributeError
        ("'" ++ type_name v ++ "' object has no attribute '" ++ attribute ++ "'").

(** White space as [str.strip()] sees it, on the bytes of a UTF-8 string:
    U+0009-000D, U+001C-0020; U+0085 and U+00A0 (two bytes); U+1680,
    U+2000-200A, U+2028, U+2029, U+202F, U+205F and U+3000 (three bytes). *)
Definition space1 (a : nat) : bool :=
  ((9 <=? a) && (a <=? 13) || (28 <=? a) && (a <=? 32))%nat.

Definition space2 (a b : nat) : bool :=
  ((a =? 194) && ((b =? 133) || (b =? 160)))%nat.

Definition space3 (a b c : nat) : bool :=
  ((a =? 225) && (b =? 154) && (c =? 128)
   || (a =? 226) && (b =? 128)
      && ((128 <=? c) && (c <=? 138) || (c =? 168) || (c =? 169) || (c =? 175))
   || (a =? 226) && (b =? 129) && (c =? 159)
   || (a =? 227) && (b =? 128) && (c =? 128))%nat.

(** [s.lstrip()] *)
Fixpoint lstrip (s : string) : string :=
  match s with
  | EmptyString => EmptyString
  | String a s1 =>
      if space1 (nat_of_ascii a) then lstrip s1
      else
        match s1 with
        | EmptyString => s
        | String b s2 =>
            if space2 (nat_of_ascii a) (nat_of_ascii b) then lstrip s2
            else
              match s2 with
              | EmptyString => s
              | String c s3 =>
                  if space3 (nat_of_ascii a) (nat_of_ascii b) (nat_of_ascii c)
                  then lstrip s3
                  else s
              end
        end
  end.

Fixpoint reverse (s acc : string) : string :=
  match s with
  | EmptyString => acc
  | String a s' => reverse s' (String a acc)
  end.

(** [lstrip] on the string read from its end: the bytes of a character come
    last byte first. *)
Fixpoint lstrip_reversed (s : string) : string :=
  match s with
  | EmptyString => EmptyString
  | String c s1 =>
      if space1 (nat_of_ascii c) then lstrip_reversed s1
      else
        match s1 with
        | EmptyString => s
        | String b s2 =>
            if space2 (nat_of_ascii b) (nat_of_ascii c) then lstrip_reversed s2
            else
              match s2 with
              | EmptyString => s
              | String a s3 =>
                  if space3 (nat_of_ascii a) (nat_of_ascii b) (nat_of_ascii c)
                  then lstrip_reversed s3
                  else s
              end
        end
  end.

(** [s.strip()] *)
Definition strip (s : string) : string :=
  reverse (lstrip_reversed (reverse (lstrip s) EmptyString)) EmptyString.

(** What a view function returns: [(jsonify(body), status)]. *)
Record Reply : Type := mkReply {
  reply_body : PyVal;
  reply_status : Z
}.

(** [data.get('message', '')] *)
Definition get_message (data : PyVal) : M PyVal :=
  match data with
  | PyDict d =>
      ret (match dict_get d "message" with
           | Some v => v
           | None => PyStr EmptyString
           end)
  | _ => raise (attribute_error data "get")
  end.

(** [v.strip()] and [v.lower()] *)
Definition str_strip (v : PyVal) : M string :=
  match v with
  | PyStr s => ret (strip s)
  | _ => raise (attribute_error v "strip")
  end.

Definition str_lower (v : PyVal) : M string :=
  match v with
  | PyStr s => ret (lower s)
  | _ => raise (attribute_error v "lower")
  end.

Section Web.

Variable write : nat -> Printed -> option Exc.
Variable generate_content : nat -> list Content -> ProviderReply.
Variable requests_get : nat -> HttpRequest -> HttpReply.

(** The view function of [/chat].  [request_json] is what [request.json]
    does: raise, or give the parsed body.  [None] when the passes of the
    loop in [chat_with_gemini] are used up. *)
Definition chat (request_json : Exc + PyVal) (fuel : nat) : M (option Reply) :=
  try_except
    (data <- lift request_json ;;
     message <- get_message data ;;
     user_message <- str_strip message ;;
     match user_message with
     | EmptyString =>
         ret (Some (mkReply (PyDict [("error", PyStr "Message is required")]) 400))
     | _ =>
         result <- chat_with_gemini write generate_content requests_get fuel
                                    user_message false ;;
         match result with
         | None => ret None
         | Some (PyDict d) =>
             match dict_get d "error" with
             | Some error =>
                 error_text <- str_lower error ;;
                 ret (Some (mkReply (PyDict d)
                              (if contains error_text "rate limit"
                               then 429 else 500)))
             | None => ret (Some (mkReply (PyDict d) 200))
             end
         | Some other =>
             (* not reached: [chat_with_gemini] returns a dictionary *)
             raise (mkExc TypeError
                      ("argument of type '" ++ type_name other
                       ++ "' is not iterable"))
         end
     end)
    (fun e =>
       Some (print write (PrintLine ("Error: " ++ exc_str e)) ;;
             ret (Some (mkReply (PyDict [("error", PyStr (exc_str e))]) 500)))).

End Web.

(** The view function of [/health]. *)
Definition health : Reply :=
  mkReply (PyDict [("status", PyStr "healthy")]) 200.

(** The question a request to [/chat] carries: its message, stripped, when
    the body is an object whose message is a string that is not blank. *)
Definition question_of (request_json : Exc + PyVal) : option string :=
  match request_json with
  | inr (PyDict d) =>
      match dict_get d "message" with
      | Some (PyStr m) =>
          match strip m with
          | EmptyString => None
          | user_message => Some user_message
          end
      | _ => None
      end
  | _ => None
  end.

(** The status [/chat] gives to an outcome of [chat_with_gemini]. *)
Definition status_for (outcome : PyVal) : Z :=
  match field outcome "error" with
  | Some (PyStr error) =>
      if contains (lower error) "rate limit" then 429 else 500
  | _ => 200
  end.

(** ** The command-line front end ([gemini_function_calling.py]) *)

(** What a call of [input()] meets: a line typed, the end of the input, or
    an interrupt from the keyboard (taken to come while [input()] waits). *)
Inductive Keyboard : Type :=
| Typed (line : string)
| EndOfInput
| Interrupted.

(** The console: the program state, the number of calls of [input()] made,
    and the prompt of each with the number of items printed before it. *)
Record Console : Type := mkConsole {
  world : State;
  keys_read : nat;
  prompts : list (nat * string)
}.

(** How a statement of the front end ends: normally, with an exception of
    class [Exception], with a [KeyboardInterrupt], or not within the passes
    allowed. *)
Inductive Flow (A : Type) : Type :=
| Done (a : A)
| Fails (e : Exc)
| Interrupts
| Runs.
Arguments Fails {A} e.
Arguments Interrupts {A}.
Arguments Runs {A}.

Definition Cmd (A : Type) : Type := Console -> Flow A * Console.

Definition done {A} (a : A) : Cmd A := fun c => (Done a, c).

Definition then_ {A B} (m : Cmd A) (k : A -> Cmd B) : Cmd B :=
  fun c =>
    match m c with
    | (Done a, c') => k a c'
    | (Fails e, c') => (Fails e, c')
    | (Interrupts, c') => (Interrupts, c')
    | (Runs, c') => (Runs, c')
    end.

Declare Scope console_scope.
Delimit Scope console_scope with console.
Notation "x <- m ;; k" := (then_ m (fun x => k))
  (at level 100, m at next level, right associativity) : console_scope.
Notation "m ;; k" := (then_ m (fun _ => k))
  (at level 100, right associativity) : console_scope.

(** The text of the [EOFError] of [input()]. *)
Definition end_of_file : Exc := mkExc OtherException "EOF when reading a line".

Definition EXAMPLES : list string :=
  [ "Show me all speed cameras in zipcode 10036";
    "Are there any cameras on Broadway in zipcode 10001?";
    "What speed cameras are in the 90212 area code?";
    "Find cameras on Market St in San Francisco's 94103 zipcode" ].

(** [user_input.lower() in ['quit', 'exit', 'q']] *)
Definition asks_to_quit (user_input : string) : bool :=
  mem_str (lower user_input) ["quit"; "exit"; "q"].

(** A key that is no question: a blank line, a line that asks to quit, the
    end of the input, an interrupt. *)
Definition no_question (key : Keyboard) : Prop :=
  match key with
  | Typed line => asks_to_quit (strip line) = true \/ strip line = EmptyString
  | _ => True
  end.

(** How a pass of a [while True] loop ends. *)
Inductive Pass : Type :=
| Break
| Continue.

Section CommandLine.

Variable write : nat -> Printed -> option Exc.
Variable generate_content : nat -> list Content -> ProviderReply.
Variable requests_get : nat -> HttpRequest -> HttpReply.
(** What the [n]-th call of [input()] meets. *)
Variable keyboard : nat -> Keyboard.

Local Open Scope console_scope.

(** [print(s)] *)
Definition say (p : Printed) : Cmd unit :=
  fun c =>
    match print write p (world c) with
    | (Ret _, w) => (Done tt, mkConsole w (keys_read c) (prompts c))
    | (Raise e, w) => (Fails e, mkConsole w (keys_read c) (prompts c))
    end.

(** [input(prompt)] *)
Definition input (prompt : string) : Cmd string :=
  fun c =>
    let c' := mkConsole (world c) (S (keys_read c))
                        (prompts c ++ [(length (stdout (world c)), prompt)]) in
    match keyboard (keys_read c) with
    | Typed line => (Done line, c')
    | EndOfInput => (Fails end_of_file, c')
    | Interrupted => (Interrupts, c')
    end.

(** [chat_with_gemini(user_message, verbose=True)], each of its loops
    allowed [fuel] passes. *)
Definition ask (fuel : nat) (user_message : string) : Cmd PyVal :=
  fun c =>
    match chat_with_gemini write generate_content requests_get fuel
                           user_message true (world c) with
    | (Ret (Some result), w) => (Done result, mkConsole w (keys_read c) (prompts c))
    | (Ret None, w) => (Runs, mkConsole w (keys_read c) (prompts c))
    | (Raise e, w) => (Fails e, mkConsole w (keys_read c) (prompts c))
    end.

(** The body of the [for] loop of [run_predefined_examples], from the
    [i]-th of [total] examples on. *)
Fixpoint examples_from (fuel i total : nat) (examples : list string) : Cmd unit :=
  match examples with
  | [] => done tt
  | example :: rest =>
      say (PrintLine (nl ++ str_repeat "#" 60)) ;;
      say (PrintLine ("EXAMPLE " ++ nat_str i ++ "/" ++ nat_str total)) ;;
      say (PrintLine (str_repeat "#" 60 ++ nl)) ;;
      result <- ask fuel example ;;
      match result with
      | PyDict d =>
          if dict_has d "error" then
            say (PrintLine (nl ++ "⚠️ Stopping examples due to error." ++ nl))
          else
            (if (i <? total)%nat
             then (_ <- input "Press Enter to continue to next example..." ;;
                   done tt)
             else done tt) ;;
            examples_from fuel (S i) total rest
      | other =>
          (* not reached: [chat_with_gemini] returns a dictionary *)
          fun c => (Fails (mkExc TypeError
                             ("argument of type '" ++ type_name other
                              ++ "' is not iterable")), c)
      end
  end.

Definition run_predefined_examples (fuel : nat) : Cmd unit :=
  say (PrintLine (nl ++ bar)) ;;
  say (PrintLine "🚀 RUNNING PREDEFINED EXAMPLES") ;;
  say (PrintLine (bar ++ nl)) ;;
  examples_from fuel 1 (length EXAMPLES) EXAMPLES ;;
  say (PrintLine (nl ++ bar)) ;;
  say (PrintLine "✅ EXAMPLES COMPLETED") ;;
  say (PrintLine (bar ++ nl)).

(** The [try] block of the loop of [run_interactive_mode]. *)
Definition interactive_body (fuel : nat) : Cmd Pass :=
  line <- input "You: " ;;
  let user_input := strip line in
  if asks_to_quit user_input then
    say (PrintLine (nl ++ "👋 Goodbye!")) ;;
    done Break
  else
    match user_input with
    | EmptyString => done Continue
    | _ =>
        _ <- ask fuel user_input ;;
        done Continue
    end.

(** The loop of [run_interactive_mode], with its two [except] clauses, at
    most [passes] times. *)
Fixpoint interactive_loop (fuel passes : nat) : Cmd unit :=
  match passes with
  | O => fun c => (Runs, c)
  | S passes' =>
      fun c =>
        match interactive_body fuel c with
        | (Done Break, c') => (Done tt, c')
        | (Done Continue, c') => interactive_loop fuel passes' c'
        | (Interrupts, c') =>
            say (PrintLine (nl ++ nl ++ "👋 Goodbye!")) c'
        | (Fails e, c') =>
            (say (PrintLine (nl ++ "❌ Unexpected Error: " ++ exc_str e ++ nl)) ;;
             interactive_loop fuel passes') c'
        | (Runs, c') => (Runs, c')
        end
  end.

Definition run_interactive_mode (fuel : nat) : Cmd unit :=
  say (PrintLine (nl ++ bar)) ;;
  say (PrintLine "💬 INTERACTIVE MODE") ;;
  say (PrintLine bar) ;;
  say (PrintLine "Ask questions about speed cameras!") ;;
  say (PrintLine ("Type 'quit', 'exit', or 'q' to stop" ++ nl)) ;;
  say (PrintLine "Example questions:") ;;
  say (PrintLine "  - Show me cameras in zipcode 10036") ;;
  say (PrintLine "  - Are there cameras on 5th Ave in 10036?") ;;
  say (PrintLine "  - What's the speed limit on Broadway in 10001?") ;;
  say (PrintLine (bar ++ nl)) ;;
  interactive_loop fuel fuel.

(** The loop of [main], at most [passes] times. *)
Fixpoint main_loop (fuel passes : nat) : Cmd unit :=
  match passes with
  | O => fun c => (Runs, c)
  | S passes' =>
      say (PrintLine (nl ++ "Choose an option:")) ;;
      say (PrintLine "1. Run predefined examples") ;;
      say (PrintLine "2. Interactive mode") ;;
      say (PrintLine "3. Exit") ;;
      line <- input (nl ++ "Enter choice (1-3): ") ;;
      let choice := strip line in
      if String.eqb choice "1" then
        run_predefined_examples fuel ;; main_loop fuel passes'
      else if String.eqb choice "2" then
        run_interactive_mode fuel ;; main_loop fuel passes'
      else if String.eqb choice "3" then
        say (PrintLine (nl ++ "👋 Goodbye!"))
      else
        say (PrintLine "❌ Invalid choice. Please enter 1, 2, or 3.") ;;
        main_loop fuel passes'
  end.

Definition main (fuel : nat) : Cmd unit :=
  say (PrintLine (nl ++ bar)) ;;
  say (PrintLine "🎯 GEMINI FUNCTION CALLING DEMO - CLI") ;;
  say (PrintLine "Speed Camera API Integration") ;;
  say (PrintLine bar) ;;
  main_loop fuel fuel.

End CommandLine.

(** ** The tool declarations *)

(** A parameter of a declaration: its name, type and description. *)
Record ParameterSchema : Type := mkParameter {
  param_name : string;
  param_type : string;
  param_description : string
}.

(** A [types.FunctionDeclaration]: the parameters are an [OBJECT] with the
    [properties] and the [required] names given. *)
Record FunctionDeclaration : Type := mkDeclaration {
  decl_name : string;
  decl_description : string;
  decl_properties : list ParameterSchema;
  decl_required : list string
}.

(** The [function_declarations] of [get_cameras_tool]. *)
Definition get_cameras_tool : list FunctionDeclaration :=
  [ mkDeclaration
      "get_cameras_by_zipcode"
      "Get all speed cameras in a specific zipcode. Use this when the user asks about cameras in a particular area or zipcode."
      [ mkParameter "zipcode" "STRING"
                    "5-digit US zipcode (e.g., '10036', '90212')" ]
      ["zipcode"];
    mkDeclaration
      "search_cameras_by_street"
      "Search for speed cameras by street name within a specific zipcode. Use this when the user asks about cameras on a particular street. IMPORTANT: Always use standard street abbreviations: Ave (not Avenue), St (not Street), Blvd (not Boulevard), Dr (not Drive), Rd (not Road), Ln (not Lane), Ct (not Court), Pl (not Place)."
      [ mkParameter "street" "STRING"
                    "Street name to search for using standard abbreviations (e.g., '5th Ave' not '5th Avenue', 'Broadway', 'Market St' not 'Market Street', 'Wilshire Blvd' not 'Wilshire Boulevard')";
        mkParameter "zipcode" "STRING" "5-digit US zipcode where to search" ]
      ["street"; "zipcode"] ].

(** ** More scenarios *)

Module Cases.

Import Scenario.

(** A reply whose first part is text and whose second part is a function
    call. *)
Definition text_then_call : GenerateContentResponse :=
  mkResponse
    (Some [mkCandidate
             (Some (mkContent "model"
                      (Some [mkPart (Some "Let me look.") None None;
                             mkPart None (Some zipcode_call) None])))])
    (Some "Let me look.").

Definition talks_first (_ : nat) (_ : list Content) : ProviderReply :=
  ProviderReturns text_then_call.

(** A reply without candidates. *)
Definition blocked (_ : nat) (_ : list Content) : ProviderReply :=
  ProviderReturns (mkResponse (Some []) None).

(** A reply whose [candidates] is [None], and one whose content has
    [parts = None]. *)
Definition no_candidates (_ : nat) (_ : list Content) : ProviderReply :=
  ProviderReturns (mkResponse None None).

Definition no_parts (_ : nat) (_ : list Content) : ProviderReply :=
  ProviderReturns
    (mkResponse (Some [mkCandidate (Some (mkContent "model" None))]) None).

(** Invocations whose [args] is [None], of a registered tool and of one
    that is not, and the models that request them. *)
Definition no_args_call : FunctionCall :=
  mkFunctionCall "get_cameras_by_zipcode" None.

Definition unknown_no_args_call : FunctionCall :=
  mkFunctionCall "get_weather" None.

Definition forgets_args (_ : nat) (_ : list Content) : ProviderReply :=
  requests no_args_call.

Definition unknown_without_args (n : nat) (_ : list Content) : ProviderReply :=
  match n with
  | O => requests unknown_no_args_call
  | S _ => says "I cannot look that up."
  end.

(** A [ClientError] without any of the markers of line 263. *)
Definition bad_request : Exc :=
  mkExc ClientError "400 INVALID_ARGUMENT. Request contains an invalid argument.".

Definition refuses (_ : nat) (_ : list Content) : ProviderReply :=
  ProviderRaises bad_request.

(** A console whose encoding (cp1252) lacks the pictographs the tracing
    starts its lines with: printing such a line raises the
    [UnicodeEncodeError] for the pictograph. *)
Definition cannot_encode (character position : string) : Exc :=
  mkExc OtherException
        ("'charmap' codec can't encode character '" ++ character
         ++ "' in position " ++ position ++ ": character maps to <undefined>").

Definition cp1252_console (_ : nat) (p : Printed) : option Exc :=
  match p with
  | PrintLine line =>
      if String.prefix "💬" line then Some (cannot_encode "\U0001f4ac" "0")
      else if String.prefix "🔧" line then Some (cannot_encode "\U0001f527" "0")
      else if String.prefix "📊" line then Some (cannot_encode "\U0001f4ca" "0")
      else if String.prefix "🤖" line then Some (cannot_encode "\U0001f916" "0")
      else if String.prefix (nl ++ "❌") line then Some (cannot_encode "\u274c" "1")
      else None
  | PrintJson _ _ => None
  end.

(** A provider failing with an error that is no [ClientError]. *)
Definition server_error : Exc :=
  mkExc OtherException "503 UNAVAILABLE. The model is overloaded; quota 429.".

Definition unavailable (_ : nat) (_ : list Content) : ProviderReply :=
  ProviderRaises server_error.

(** A [ClientError] that the test of line 263 does not take for a rate
    limit, and whose text speaks of one. *)
Definition throttled : Exc :=
  mkExc ClientError "400 Rate limit reached for this model.".

Definition throttling (_ : nat) (_ : list Content) : ProviderReply :=
  ProviderRaises throttled.

(** A camera API that answers with the body [null]. *)
Definition null_body (_ : nat) (_ : HttpRequest) : HttpReply :=
  GetReturns (mkHttpResponse None (inr PyNone)).

Definition question : string := "Show me all speed cameras in zipcode 10036".

(** The body of a request to [/chat], the message padded with spaces, and
    one whose message is blank. *)
Definition padded_request : Dict :=
  [("message", PyStr "  Show me all speed cameras in zipcode 10036  ")].

Definition blank_request : Dict := [("message", PyStr "   ")].

Definition console : Console := mkConsole idle 0 [].

(** Keyboards: at the end of the input; a blank line and then a request to
    quit; a question and then a request to quit. *)
Definition no_keys (_ : nat) : Keyboard := EndOfInput.

Definition blank_then_quit (n : nat) : Keyboard :=
  match n with
  | O => Typed "   "
  | S _ => Typed " Quit "
  end.

Definition question_then_quit (n : nat) : Keyboard :=
  match n with
  | O => Typed " Show me all speed cameras in zipcode 10036 "
  | S _ => Typed "q"
  end.

End Cases.

(** * Properties *)

Unset Implicit Arguments.

#[local] Arguments registry_get : simpl never.
#[local] Arguments String.append : simpl never.

(** ** Strings *)

Lemma prefix_lower (p s : string) :
  String.prefix p s = true -> String.prefix (lower p) (lower s) = true.
Proof.
  revert p. induction s as [|b s IH]; intros [|a p]; simpl; auto; try discriminate.
  destruct (ascii_dec a b) as [->|]; [|discriminate].
  intros H. destruct (ascii_dec (lower_ascii b) (lower_ascii b)); [auto|congruence].
Qed.

Lemma contains_lower (s p : string) :
  contains s p = true -> contains (lower s) (lower p) = true.
Proof.
  induction s as [|c s IH]; simpl; rewrite !orb_true_iff.
  - intros [H|H]; [|discriminate]. left.
    apply (prefix_lower p EmptyString H).
  - intros [H|H]; [left|right; auto].
    apply (prefix_lower p (String c s) H).
Qed.

(** A provider message carrying one of the three markers passes the test of
    line 263. *)
Lemma marker_is_rate_limit (error_msg : string) :
  contains error_msg "429" = true
  \/ contains error_msg "RESOURCE_EXHAUSTED" = true
  \/ contains error_msg "quota" = true ->
  is_rate_limit error_msg = true.
Proof.
  unfold is_rate_limit. intros [H|[H|H]].
  - rewrite H. reflexivity.
  - rewrite H. apply orb_true_iff. left. apply orb_true_r.
  - apply orb_true_iff. right. apply (contains_lower error_msg "quota" H).
Qed.

(** The test passes when one of its three disjuncts holds and fails when
    none does. *)
Lemma is_rate_limit_true (error_msg : string) :
  is_rate_limit error_msg = true <->
  contains error_msg "429" = true
  \/ contains error_msg "RESOURCE_EXHAUSTED" = true
  \/ contains (lower error_msg) "quota" = true.
Proof. unfold is_rate_limit. rewrite !orb_true_iff. tauto. Qed.

Lemma is_rate_limit_false (error_msg : string) :
  is_rate_limit error_msg = false <->
  contains error_msg "429" = false
  /\ contains error_msg "RESOURCE_EXHAUSTED" = false
  /\ contains (lower error_msg) "quota" = false.
Proof. unfold is_rate_limit. rewrite !orb_false_iff. tauto. Qed.

(** ** Keyword binding *)

Lemma dict_has_In (d : Dict) (k : string) :
  dict_has d k = true <-> In k (dict_keys d).
Proof.
  unfold dict_has. induction d as [|[k' v] d IH]; simpl.
  - split; [discriminate|tauto].
  - destruct (String.eqb_spec k k') as [->|N].
    + split; auto.
    + rewrite IH. split; [auto|]. intros [E|H]; [congruence|auto].
Qed.

Lemma mem_str_In (k : string) (l : list string) :
  mem_str k l = true <-> In k l.
Proof.
  unfold mem_str. rewrite existsb_exists. split.
  - intros [x [H E]]. apply String.eqb_eq in E. congruence.
  - intros H. exists k. split; [auto|apply String.eqb_refl].
Qed.

Lemma filter_nil {A} (f : A -> bool) (l : list A) :
  filter f l = [] <-> forall x, In x l -> f x = false.
Proof.
  induction l as [|a l IH]; simpl.
  - split; [intros _ x []|auto].
  - destruct (f a) eqn:E.
    + split; [discriminate|]. intros H. rewrite (H a) in E; [discriminate|auto].
    + rewrite IH. split.
      * intros H x [<-|I]; auto.
      * intros H x I. auto.
Qed.

Lemma bind_keywords_ok (f : PyFunction) (kwargs : Dict) :
  bind_keywords (fn_name f) (fn_params f) kwargs = inr tt
  <-> (forall k, In k (dict_keys kwargs) <-> In k (fn_params f)).
Proof.
  unfold bind_keywords.
  destruct (filter (fun k => negb (mem_str k (fn_params f))) (dict_keys kwargs))
    as [|k0 ks] eqn:U.
  - rewrite filter_nil in U.
    destruct (filter (fun p => negb (dict_has kwargs p)) (fn_params f))
      as [|p0 ps] eqn:Mi.
    + rewrite filter_nil in Mi. split; [intros _|auto].
      intros k. split; intros H.
      * apply mem_str_In. specialize (U k H). now apply negb_false_iff in U.
      * apply dict_has_In. specialize (Mi k H). now apply negb_false_iff in Mi.
    + split; [discriminate|]. intros H. exfalso.
      assert (I : In p0 (filter (fun p => negb (dict_has kwargs p)) (fn_params f)))
        by (rewrite Mi; left; reflexivity).
      apply filter_In in I. destruct I as [I N].
      apply H, dict_has_In in I. rewrite I in N. discriminate.
  - split; [discriminate|]. intros H. exfalso.
    assert (I : In k0 (filter (fun k => negb (mem_str k (fn_params f)))
                              (dict_keys kwargs)))
      by (rewrite U; left; reflexivity).
    apply filter_In in I. destruct I as [I N].
    apply H, mem_str_In in I. rewrite I in N. discriminate.
Qed.

Lemma bind_keywords_raises (fname : string) (params : list string)
      (kwargs : Dict) (e : Exc) :
  bind_keywords fname params kwargs = inl e -> exc_class e = TypeError.
Proof.
  unfold bind_keywords.
  destruct (filter _ (dict_keys kwargs)); [|intros [= <-]; reflexivity].
  destruct (filter _ params); [discriminate|intros [= <-]; reflexivity].
Qed.

(** The expansion succeeds exactly on a mapping that names the parameters:
    [None] is no mapping. *)
Lemma expand_keywords_ok (f : PyFunction) (args : option Dict) :
  expand_keywords (fn_name f) (fn_params f) args = inr tt <-> binds_exactly f args.
Proof.
  unfold binds_exactly. destruct args as [kwargs|]; simpl.
  - rewrite bind_keywords_ok. split.
    + intros H. exists kwargs. auto.
    + intros (d & [= <-] & H). exact H.
  - split; [discriminate|]. intros (d & E & _). discriminate.
Qed.

Lemma expand_keywords_raises (fname : string) (params : list string)
      (args : option Dict) (e : Exc) :
  expand_keywords fname params args = inl e -> exc_class e = TypeError.
Proof.
  destruct args as [kwargs|]; simpl.
  - apply bind_keywords_raises.
  - intros [= <-]. reflexivity.
Qed.

Lemma binds_argument (f : PyFunction) (args : option Dict) (p : string) :
  binds_exactly f args -> In p (fn_params f) ->
  args_get args p = Some (argument args p).
Proof.
  intros (kwargs & -> & B) I. apply B, dict_has_In in I.
  unfold dict_has, argument in *. simpl.
  destruct (dict_get kwargs p); [reflexivity|discriminate].
Qed.

(** ** What a statement leaves untouched *)

Lemma untouched_ret {A} (a : A) : untouched (ret a).
Proof. intros s. simpl. auto. Qed.

Lemma untouched_raise {A} (e : Exc) : untouched (@raise A e).
Proof. intros s. simpl. auto. Qed.

Lemma untouched_lift {A} (r : Exc + A) : untouched (lift r).
Proof. destruct r; intros s; simpl; auto. Qed.

Lemma untouched_bind {A B} (m : M A) (k : A -> M B) :
  untouched m -> (forall a, untouched (k a)) -> untouched (bind m k).
Proof.
  intros Hm Hk s. unfold bind. specialize (Hm s).
  destruct (m s) as [[a|e] s1]; simpl in *; [|exact Hm].
  destruct (Hk a s1) as (K1 & K2 & K3). destruct Hm as (M1 & M2 & M3).
  rewrite K1, K2, K3. auto.
Qed.

Lemma untouched_try_except {A} (body : M A) (handler : Exc -> option (M A)) :
  untouched body -> (forall e h, handler e = Some h -> untouched h) ->
  untouched (try_except body handler).
Proof.
  intros Hb Hh s. unfold try_except. specialize (Hb s).
  destruct (body s) as [[a|e] s1]; simpl in *; [exact Hb|].
  destruct (handler e) as [h|] eqn:E; [|exact Hb].
  destruct (Hh e h E s1) as (K1 & K2 & K3). destruct Hb as (M1 & M2 & M3).
  rewrite K1, K2, K3. auto.
Qed.

Lemma untouched_print (write : nat -> Printed -> option Exc) (p : Printed) :
  untouched (print write p).
Proof. intros s. unfold print. destruct (write _ _); simpl; auto. Qed.

Lemma untouched_when (b : bool) (m : M unit) :
  untouched m -> untouched (when b m).
Proof. destruct b; [auto|intros _; apply untouched_ret]. Qed.

Lemma untouched_http_get (requests_get : nat -> HttpRequest -> HttpReply)
      (req : HttpRequest) :
  untouched (http_get requests_get req).
Proof. intros s. unfold http_get. destruct (requests_get _ _); simpl; auto. Qed.

Lemma untouched_check_status (response : HttpResponse) :
  untouched (check_status response).
Proof.
  unfold check_status.
  destruct (raise_for_status response);
    [apply untouched_raise|apply untouched_ret].
Qed.

Create HintDb untouched.
#[local] Hint Resolve untouched_ret untouched_raise untouched_lift
  untouched_print untouched_when untouched_http_get untouched_check_status
  : untouched.

Ltac untouched_steps :=
  repeat (apply untouched_bind; [auto with untouched|intros ?]);
  auto with untouched.

Lemma untouched_handler {A} (e : Exc) (h : M A) (m : M A) :
  untouched m ->
  (if is_RequestException e then Some m else None) = Some h -> untouched h.
Proof. destruct (is_RequestException e); [intros H [= <-]; exact H|discriminate]. Qed.

(** ** The registry *)

Section Registry.

Variable write : nat -> Printed -> option Exc.
Variable requests_get : nat -> HttpRequest -> HttpReply.

Lemma get_cameras_by_zipcode_run (zipcode : PyVal) (s : State) :
  get_cameras_by_zipcode requests_get zipcode s =
  (handler_result [("zipcode", zipcode)]
     (requests_get (length (http_log s))
        (mkGet [Fmt (PyStr SPEED_CAMERA_API_BASE_URL); Lit "/cameras/zipcode/";
                Fmt zipcode] None 10)),
   mkState (messages s) (function_calls_made s) (llm_log s)
     (http_log s ++ [mkGet [Fmt (PyStr SPEED_CAMERA_API_BASE_URL);
                            Lit "/cameras/zipcode/"; Fmt zipcode] None 10])
     (stdout s)).
Proof.
  unfold get_cameras_by_zipcode, try_except, bind, http_get, check_status,
    handler_result, caught, lift, ret, raise.
  destruct (requests_get _ _) as [r|e]; simpl.
  - destruct (raise_for_status r) as [e|]; simpl.
    + destruct (is_RequestException e); reflexivity.
    + destruct (json r) as [e|cameras]; simpl.
      * destruct (is_RequestException e); reflexivity.
      * destruct (py_len cameras) as [e|count]; simpl; [|reflexivity].
        destruct (is_RequestException e); reflexivity.
  - destruct (is_RequestException e); reflexivity.
Qed.

Lemma search_cameras_by_street_run (street zipcode : PyVal) (s : State) :
  search_cameras_by_street requests_get street zipcode s =
  (handler_result [("street", street); ("zipcode", zipcode)]
     (requests_get (length (http_log s))
        (mkGet [Fmt (PyStr SPEED_CAMERA_API_BASE_URL); Lit "/cameras/search"]
               (Some [("street", street); ("zipcode", zipcode)]) 10)),
   mkState (messages s) (function_calls_made s) (llm_log s)
     (http_log s ++ [mkGet [Fmt (PyStr SPEED_CAMERA_API_BASE_URL);
                            Lit "/cameras/search"]
                           (Some [("street", street); ("zipcode", zipcode)]) 10])
     (stdout s)).
Proof.
  unfold search_cameras_by_street, try_except, bind, http_get, check_status,
    handler_result, caught, lift, ret, raise.
  destruct (requests_get _ _) as [r|e]; simpl.
  - destruct (raise_for_status r) as [e|]; simpl.
    + destruct (is_RequestException e); reflexivity.
    + destruct (json r) as [e|cameras]; simpl.
      * destruct (is_RequestException e); reflexivity.
      * destruct (py_len cameras) as [e|count]; simpl; [|reflexivity].
        destruct (is_RequestException e); reflexivity.
  - destruct (is_RequestException e); reflexivity.
Qed.

Lemma call_with_keywords_run (f : PyFunction) (kwargs : option Dict) (s : State) :
  call_with_keywords requests_get f kwargs s =
  match expand_keywords (fn_name f) (fn_params f) kwargs with
  | inl e => (Raise e, s)
  | inr _ =>
      (handler_result (echo_of f kwargs)
         (requests_get (length (http_log s)) (request_of f kwargs)),
       mkState (messages s) (function_calls_made s) (llm_log s)
               (http_log s ++ [request_of f kwargs]) (stdout s))
  end.
Proof.
  unfold call_with_keywords, bind, lift.
  destruct (expand_keywords (fn_name f) (fn_params f) kwargs) as [e|u];
    [reflexivity|].
  destruct f; simpl.
  - apply get_cameras_by_zipcode_run.
  - apply search_cameras_by_street_run.
Qed.

(** What [execute_function_call] returns or raises when the console takes
    what is printed. *)
Lemma execute_function_call_fst (function_call : FunctionCall) (verbose : bool)
      (s : State) :
  fst (execute_function_call accepts requests_get function_call verbose s) =
  execute_result requests_get function_call (length (http_log s)).
Proof.
  unfold execute_function_call, execute_result, bind.
  destruct verbose; simpl;
    (destruct (registry_get available_functions (fc_name function_call)) as [f|];
     [|reflexivity]);
    rewrite call_with_keywords_run; simpl;
    (destruct (expand_keywords (fn_name f) (fn_params f) (fc_args function_call));
     [reflexivity|]);
    destruct (handler_result _ _); reflexivity.
Qed.

(** What it leaves of the state: the loop's variables and the provider log
    untouched, its requests logged, and nothing printed unless verbose. *)
Lemma execute_function_call_snd (function_call : FunctionCall) (verbose : bool)
      (s : State) :
  let s' := snd (execute_function_call accepts requests_get function_call
                   verbose s) in
  messages s' = messages s
  /\ function_calls_made s' = function_calls_made s
  /\ llm_log s' = llm_log s
  /\ http_log s' = (http_log s ++ execute_requests function_call)%list
  /\ (verbose = false -> stdout s' = stdout s).
Proof.
  intros s'. subst s'.
  unfold execute_function_call, execute_requests, bind.
  destruct verbose; simpl;
    (destruct (registry_get available_functions (fc_name function_call)) as [f|];
     [|simpl; rewrite app_nil_r; repeat split; auto; discriminate]);
    rewrite call_with_keywords_run; simpl;
    (destruct (expand_keywords (fn_name f) (fn_params f) (fc_args function_call));
     [simpl; rewrite app_nil_r; repeat split; auto; discriminate|]);
    destruct (handler_result _ _); simpl; repeat split; auto; discriminate.
Qed.

(** Without tracing the console is not used. *)
Lemma execute_function_call_quiet (function_call : FunctionCall) (s : State) :
  execute_function_call write requests_get function_call false s
  = execute_function_call accepts requests_get function_call false s.
Proof. reflexivity. Qed.

Lemma get_cameras_by_zipcode_untouched (zipcode : PyVal) :
  untouched (get_cameras_by_zipcode requests_get zipcode).
Proof.
  unfold get_cameras_by_zipcode. apply untouched_try_except.
  - cbv zeta. untouched_steps.
  - intros e h. apply untouched_handler. apply untouched_ret.
Qed.

Lemma search_cameras_by_street_untouched (street zipcode : PyVal) :
  untouched (search_cameras_by_street requests_get street zipcode).
Proof.
  unfold search_cameras_by_street. apply untouched_try_except.
  - cbv zeta. untouched_steps.
  - intros e h. apply untouched_handler. apply untouched_ret.
Qed.

(** Whatever the console does, [execute_function_call] touches neither the
    conversation, nor the record of invocations, nor the provider log. *)
Lemma execute_function_call_untouched (function_call : FunctionCall)
      (verbose : bool) :
  untouched (execute_function_call write requests_get function_call verbose).
Proof.
  unfold execute_function_call. cbv zeta.
  apply untouched_bind; [apply untouched_when; untouched_steps|intros _].
  destruct (registry_get available_functions (fc_name function_call)) as [f|];
    [|apply untouched_ret].
  apply untouched_bind.
  - unfold call_with_keywords. apply untouched_bind; [auto with untouched|].
    intros _. destruct f.
    + apply get_cameras_by_zipcode_untouched.
    + apply search_cameras_by_street_untouched.
  - intros result.
    apply untouched_bind; [apply untouched_when; untouched_steps|intros _].
    apply untouched_ret.
Qed.

End Registry.

(** ** The shape of the conversation *)

Lemma tool_request_requested (reply : ProviderReply) (model_content : Content)
      (function_call : FunctionCall) :
  tool_request reply = Some (model_content, function_call) ->
  requested_tool model_content = Some (fc_name function_call).
Proof.
  unfold tool_request, requested_tool.
  destruct reply as [response|e]; [|discriminate].
  destruct (candidates response) as [[|candidate cs]|]; try discriminate.
  destruct (content candidate) as [c|]; [|discriminate].
  destruct (parts c) as [[|part ps]|] eqn:P; try discriminate.
  destruct (part_function_call part) as [fc|] eqn:F; [|discriminate].
  intros [= <- <-]. rewrite P, F. reflexivity.
Qed.

(** The turn of lines 234-246 is a result turn for the tool it names, and
    no request turn. *)
Lemma function_response_turn_result (name : string) (function_result : PyVal) :
  tool_result_for name (function_response_turn name function_result).
Proof.
  split; [reflexivity|].
  exists (mkPart None None (Some (mkFunctionResponse name function_result))),
         (mkFunctionResponse name function_result).
  repeat split.
Qed.

Lemma tool_result_not_request (name : string) (c : Content) :
  tool_result_for name c -> requested_tool c = None.
Proof.
  intros (_ & part & response & P & _ & F & _).
  unfold requested_tool. rewrite P, F. reflexivity.
Qed.

Lemma exchanges_app (l2 : list Content) :
  exchanges l2 ->
  forall n l, length l <= n -> exchanges l -> exchanges (l ++ l2).
Proof.
  intros H2. induction n as [|n IH]; intros l Hn Hl.
  - destruct l; [exact H2|simpl in Hn; lia].
  - destruct l as [|a [|b l]]; [exact H2|contradiction|].
    destruct Hl as [Hab Hl]. simpl. split; [exact Hab|].
    apply IH; [simpl in Hn; lia|exact Hl].
Qed.

Lemma conversation_extend (user_message : string) (l : list Content)
      (model_content : Content) (name : string) (function_result : PyVal) :
  conversation user_message l ->
  requested_tool model_content = Some name ->
  conversation user_message
    (l ++ [model_content; function_response_turn name function_result]).
Proof.
  intros (l' & -> & E) R.
  exists (l' ++ [model_content;
                 function_response_turn name function_result])%list.
  split; [reflexivity|].
  apply (exchanges_app _) with (n := length l'); auto.
  simpl. split; [|exact I]. exists name. split; [exact R|].
  apply function_response_turn_result.
Qed.

Lemma exchanges_answered :
  forall n l, length l <= n -> exchanges l -> answered_once l.
Proof.
  induction n as [|n IH]; intros l Hn Hl i request name Hi Hr.
  - destruct l; [destruct i; discriminate|simpl in Hn; lia].
  - destruct l as [|a [|b l]]; [destruct i; discriminate|contradiction|].
    destruct Hl as [(na & Ha & Hb) Hl].
    destruct i as [|[|i]].
    + injection Hi as <-. rewrite Ha in Hr. injection Hr as <-.
      split; [exists b; split; [reflexivity|exact Hb]|].
      intros c m Hc Hm. simpl in Hc.
      destruct l as [|x [|y l]]; [discriminate|contradiction|].
      destruct Hl as [(nx & Hx & _) _]. injection Hc as <-.
      rewrite (tool_result_not_request m x Hm) in Hx. discriminate.
    + injection Hi as <-.
      rewrite (tool_result_not_request na b Hb) in Hr. discriminate.
    + simpl in Hi. simpl.
      apply (IH l) with (i := i) (request := request); auto.
      simpl in Hn. lia.
Qed.

Lemma conversation_answered (user_message : string) (l : list Content) :
  conversation user_message l -> answered_once l.
Proof.
  intros (l' & -> & E) i request name Hi Hr.
  destruct i as [|i].
  - injection Hi as <-. discriminate.
  - simpl in Hi.
    destruct (exchanges_answered (length l') l' (le_n _) E i request name Hi Hr)
      as [A B].
    split; [exact A|exact B].
Qed.

Lemma except_outcome_terminal (e : Exc) (calls : list PyVal) :
  terminal_error calls (except_outcome e calls)
  /\ has_key (except_outcome e calls) "error" = true
  /\ has_key (except_outcome e calls) "response" = false
  /\ has_key (except_outcome e calls) "function_calls" = true.
Proof.
  unfold except_outcome, terminal_error.
  destruct (is_ClientError e); [destruct (is_rate_limit (exc_str e))|];
    (split; [eexists; unfold rate_limited_outcome; eauto|auto]).
Qed.

(** ** One pass of the loop, whatever the console does *)

Section Loop.

Variable write : nat -> Printed -> option Exc.
Variable llm : nat -> list Content -> ProviderReply.
Variable api : nat -> HttpRequest -> HttpReply.

(** A pass in which the model requests a tool with an argument mapping. *)
Lemma turn_request (verbose : bool) (s : State) (model_content : Content)
      (function_call : FunctionCall) (kwargs : Dict) :
  tool_request (reply_in llm s) = Some (model_content, function_call) ->
  fc_args function_call = Some kwargs ->
  turn write llm api verbose s =
  match execute_function_call write api function_call verbose
          (executing function_call s) with
  | (Ret function_result, s') =>
      (Ret None,
       mkState ((messages s' ++ [model_content])
                ++ [function_response_turn (fc_name function_call) function_result])
               (function_calls_made s') (llm_log s') (http_log s') (stdout s'))
  | (Raise e, s') => (Raise e, s')
  end.
Proof.
  unfold reply_in, tool_request, turn, bind, call_model, executing, call_record.
  destruct (llm _ _) as [response|e]; [|discriminate].
  destruct (candidates response) as [[|candidate cs]|]; try discriminate. simpl.
  unfold content_of.
  destruct (content candidate) as [ct|]; [|discriminate]. simpl.
  destruct (parts ct) as [[|part ps]|]; try discriminate. simpl.
  destruct (part_function_call part) as [fc|]; [|discriminate].
  intros [= -> ->] A. rewrite A. simpl.
  destruct (execute_function_call _ _ _ _ _) as [[payload|e] s'];
    reflexivity.
Qed.

(** A pass in which the model requests a tool without arguments: the copy
    of the arguments raises before the invocation is recorded, and before
    [execute_function_call] is called. *)
Lemma turn_unrecorded (verbose : bool) (s : State) (model_content : Content)
      (function_call : FunctionCall) :
  tool_request (reply_in llm s) = Some (model_content, function_call) ->
  fc_args function_call = None ->
  turn write llm api verbose s =
  (Raise (mkExc TypeError "'NoneType' object is not iterable"), called s).
Proof.
  unfold reply_in, tool_request, turn, bind, call_model, called.
  destruct (llm _ _) as [response|e]; [|discriminate].
  destruct (candidates response) as [[|candidate cs]|]; try discriminate. simpl.
  unfold content_of.
  destruct (content candidate) as [ct|]; [|discriminate]. simpl.
  destruct (parts ct) as [[|part ps]|]; try discriminate. simpl.
  destruct (part_function_call part) as [fc|]; [|discriminate].
  intros [= -> ->] A. rewrite A. reflexivity.
Qed.

Local Ltac stopped :=
  simpl; unfold ret, raise; do 2 eexists;
  split; [reflexivity|split; [try discriminate; auto|simpl; eauto]].

(** A pass in which it does not: the pass returns the final answer or
    raises, and leaves the loop's variables as they were. *)
Lemma turn_stop (verbose : bool) (s : State) :
  tool_request (reply_in llm s) = None ->
  exists r out,
    turn write llm api verbose s =
    (r, mkState (messages s) (function_calls_made s)
                (llm_log s ++ [messages s]) (http_log s) out)
    /\ (verbose = false -> out = stdout s)
    /\ match r with
       | Ret None => False
       | Ret (Some outcome) => final_answer (function_calls_made s) outcome
       | Raise _ => True
       end.
Proof.
  unfold reply_in, tool_request, turn, bind, call_model, final_answer.
  destruct (llm _ _) as [response|e]; [|stopped].
  destruct (candidates response) as [[|candidate cs]|]; simpl;
    [stopped| |stopped].
  unfold content_of.
  destruct (content candidate) as [ct|]; simpl; [|stopped].
  destruct (parts ct) as [[|part ps]|]; simpl; [stopped| |stopped].
  destruct (part_function_call part) as [fc|]; [discriminate|].
  intros _. destruct verbose; [|stopped].
  unfold when, print. simpl. destruct (write _ _); stopped.
Qed.

(** The final answer of a pass is built from the text of the reply. *)
Lemma turn_answer (verbose : bool) (s : State)
      (response : GenerateContentResponse) (outcome : PyVal) (s' : State) :
  reply_in llm s = ProviderReturns response ->
  turn write llm api verbose s = (Ret (Some outcome), s') ->
  outcome = PyDict [ ("response", py_opt_str (text response));
                     ("function_calls", PyList (function_calls_made s)) ].
Proof.
  unfold reply_in, turn, bind, call_model. intros ->.
  destruct (candidates response) as [[|candidate cs]|]; simpl;
    try discriminate.
  unfold content_of.
  destruct (content candidate) as [ct|]; simpl; [|discriminate].
  destruct (parts ct) as [[|part ps]|]; simpl; try discriminate.
  destruct (part_function_call part) as [fc|].
  - destruct (fc_args fc) as [kwargs|]; simpl; [|discriminate].
    destruct (execute_function_call _ _ _ _ _) as [[payload|e] t];
      discriminate.
  - destruct verbose; simpl.
    + unfold print. simpl. destruct (write _ _); [discriminate|].
      intros [= <- _]. reflexivity.
    + intros [= <- _]. reflexivity.
Qed.

(** What a pass does to the state, by how it ends. *)
Lemma turn_spec (verbose : bool) (s : State) :
  forall r s', turn write llm api verbose s = (r, s') ->
  llm_log s' = (llm_log s ++ [messages s])%list
  /\ (verbose = false -> stdout s' = stdout s)
  /\ match r with
     | Ret None =>
         exists model_content function_call function_result,
           tool_request (reply_in llm s) = Some (model_content, function_call)
           /\ fst (execute_function_call write api function_call verbose
                     (executing function_call s)) = Ret function_result
           /\ messages s' =
              (messages s ++ [model_content;
                              function_response_turn (fc_name function_call)
                                                     function_result])%list
           /\ function_calls_made s' =
              (function_calls_made s ++ [call_record function_call])%list
           /\ fc_args function_call <> None
     | Ret (Some outcome) =>
         tool_request (reply_in llm s) = None
         /\ messages s' = messages s
         /\ function_calls_made s' = function_calls_made s
         /\ http_log s' = http_log s
         /\ final_answer (function_calls_made s) outcome
     | Raise e =>
         messages s' = messages s
         /\ (function_calls_made s' = function_calls_made s
             \/ exists model_content function_call,
                  tool_request (reply_in llm s) = Some (model_content, function_call)
                  /\ fst (execute_function_call write api function_call verbose
                            (executing function_call s)) = Raise e
                  /\ function_calls_made s' =
                     (function_calls_made s ++ [call_record function_call])%list)
     end.
Proof.
  intros r s' T.
  destruct (tool_request (reply_in llm s)) as [[ct fc]|] eqn:Q.
  - destruct (fc_args fc) as [kwargs|] eqn:A.
    + rewrite (turn_request verbose s ct fc kwargs Q A) in T.
      pose proof (execute_function_call_untouched write api fc verbose
                    (executing fc s)) as (Hm & Hc & Hl).
      assert (Ho : verbose = false ->
                   stdout (snd (execute_function_call write api fc verbose
                                  (executing fc s))) = stdout s).
      { intros ->. rewrite execute_function_call_quiet.
        apply (execute_function_call_snd api fc false (executing fc s)).
        reflexivity. }
      destruct (execute_function_call write api fc verbose (executing fc s))
        as [[payload|e] s1] eqn:X; simpl in *; injection T as <- <-; simpl.
      * split; [auto|]. split; [auto|].
        exists ct, fc, payload. rewrite ?Hm, ?Hc, <- ?app_assoc, ?X.
        repeat split; auto. congruence.
      * split; [auto|]. split; [auto|]. split; [auto|].
        right. exists ct, fc. rewrite ?X. auto.
    + rewrite (turn_unrecorded verbose s ct fc Q A) in T.
      injection T as <- <-. simpl. auto.
  - destruct (turn_stop verbose s Q) as (r0 & out & E & Ho & Hr).
    rewrite E in T. injection T as <- <-. simpl.
    split; [auto|]. split; [auto|].
    destruct r0 as [[outcome|]|e]; auto; tauto.
Qed.

Lemma turn_raises (verbose : bool) (s : State) (e : Exc) :
  reply_in llm s = ProviderRaises e ->
  turn write llm api verbose s = (Raise e, called s).
Proof.
  unfold reply_in, turn, bind, call_model. intros ->. reflexivity.
Qed.

(** Without tracing the console is not used. *)
Lemma turn_quiet (s : State) :
  turn write llm api false s = turn accepts llm api false s.
Proof. reflexivity. Qed.


(** ** The loop *)

Lemma while_true_S (fuel : nat) (verbose : bool) (s : State) :
  while_true write llm api (S fuel) verbose s =
  match turn write llm api verbose s with
  | (Ret None, s') => while_true write llm api fuel verbose s'
  | (Ret (Some outcome), s') => (Ret (Some outcome), s')
  | (Raise e, s') => (Raise e, s')
  end.
Proof.
  simpl. unfold bind.
  destruct (turn write llm api verbose s) as [[[outcome|]|e] s']; reflexivity.
Qed.

(** A property of the state every pass keeps holds when the loop stops. *)
Lemma while_true_invariant (P : State -> Prop) (verbose : bool) :
  (forall s r s', P s -> turn write llm api verbose s = (r, s') -> P s') ->
  forall fuel s r s',
    P s -> while_true write llm api fuel verbose s = (r, s') -> P s'.
Proof.
  intros step. induction fuel as [|fuel IH]; intros s r s' Hs W.
  - injection W as <- <-. exact Hs.
  - rewrite while_true_S in W.
    destruct (turn write llm api verbose s) as [[[outcome|]|e] s1] eqn:T;
      try (injection W as <- <-; eapply step; eauto).
    eapply IH; [|exact W]. eapply step; eauto.
Qed.

(** The loop returns nothing but a final answer, built from the calls
    recorded when it stops. *)
Lemma while_true_answer (verbose : bool) :
  forall fuel s outcome s',
    while_true write llm api fuel verbose s = (Ret (Some outcome), s') ->
    final_answer (function_calls_made s') outcome.
Proof.
  induction fuel as [|fuel IH]; intros s outcome s' W.
  - discriminate.
  - rewrite while_true_S in W.
    destruct (turn write llm api verbose s) as [[[o|]|e] s1] eqn:T.
    + injection W as <- <-.
      destruct (turn_spec verbose s _ _ T) as (_ & _ & _ & _ & C & _ & F).
      rewrite C. exact F.
    + eapply IH; eauto.
    + discriminate.
Qed.

(** Passes that end with the tool executed are passes of the loop. *)
Lemma continues_while_true (verbose : bool) (n : nat) :
  forall k s s1,
    continues write llm api k verbose s = Some s1 ->
    while_true write llm api (k + n) verbose s
    = while_true write llm api n verbose s1.
Proof.
  induction k as [|k IH]; intros s s1 C.
  - injection C as <-. reflexivity.
  - simpl plus. rewrite while_true_S. simpl in C.
    destruct (turn write llm api verbose s) as [[[o|]|e] s2]; try discriminate.
    apply IH, C.
Qed.

(** The loop ends with the first pass that does not execute a tool. *)
Lemma while_true_ends (verbose : bool) (k n : nat) (s s1 : State)
      (r : Res (option PyVal)) (t : State) :
  continues write llm api k verbose s = Some s1 ->
  turn write llm api verbose s1 = (r, t) ->
  r <> Ret None ->
  while_true write llm api (k + S n) verbose s = (r, t).
Proof.
  intros C T N. rewrite (continues_while_true verbose (S n) k s s1 C).
  rewrite while_true_S, T. destruct r as [[o|]|e]; congruence.
Qed.

Lemma continues_log_length (verbose : bool) :
  forall n s s1,
    continues write llm api n verbose s = Some s1 ->
    length (llm_log s1) = length (llm_log s) + n.
Proof.
  induction n as [|n IH]; intros s s1 C.
  - injection C as <-. lia.
  - simpl in C.
    destruct (turn write llm api verbose s) as [[[o|]|e] s'] eqn:T;
      try discriminate.
    destruct (turn_spec verbose s _ _ T) as (L & _).
    rewrite (IH s' s1 C), L, length_app. simpl. lia.
Qed.

(** Without tracing nothing is printed. *)
Lemma while_true_quiet :
  forall fuel s r s',
    while_true write llm api fuel false s = (r, s') -> stdout s' = stdout s.
Proof.
  intros fuel s r s' W.
  apply (while_true_invariant (fun t => stdout t = stdout s) false)
    with (fuel := fuel) (s := s) (r := r); auto.
  intros t r1 t' Ht T.
  destruct (turn_spec false t _ _ T) as (_ & Q & _). rewrite Q; auto.
Qed.

Lemma while_true_silent :
  forall fuel s,
    while_true write llm api fuel false s = while_true accepts llm api fuel false s.
Proof.
  induction fuel as [|fuel IH]; intros s; [reflexivity|].
  simpl. unfold bind. rewrite turn_quiet.
  destruct (turn accepts llm api false s) as [[[o|]|e] s1]; auto.
Qed.

(** ** The [except] clauses and the [try] statement *)

(** An [except] clause returns its mapping, unless a print of its tracing
    raises; it changes nothing but what is printed. *)
Lemma except_clause (e : Exc) (verbose : bool) (s : State) :
  forall r s',
    (if is_ClientError e then on_client_error write e verbose
     else on_exception write e verbose) s = (r, s') ->
    same_run s' s
    /\ (verbose = false -> stdout s' = stdout s)
    /\ (r = Ret (Some (except_outcome e (function_calls_made s)))
        \/ (verbose = true /\ exists e' n p, write n p = Some e' /\ r = Raise e')).
Proof.
  intros r s'. unfold except_outcome, on_client_error, on_exception.
  destruct (is_ClientError e); [destruct (is_rate_limit (exc_str e))|];
    (destruct verbose;
     [|intros [= <- <-]; unfold same_run; auto 8]);
    unfold bind, when, print, ret, get_function_calls_made; simpl;
    repeat match goal with
           | |- context [write ?n ?p] =>
               let W := fresh "W" in
               destruct (write n p) as [?e|] eqn:W; simpl
           end;
    intros [= <- <-]; unfold same_run; simpl;
    (split; [auto|]); (split; [discriminate|]);
    solve [left; reflexivity | right; split; [reflexivity|]; eauto].
Qed.

Lemma guarded_loop_cases (fuel : nat) (verbose : bool) (s : State) :
  forall r s', guarded_loop write llm api fuel verbose s = (r, s') ->
  exists r0 s0,
    while_true write llm api fuel verbose s = (r0, s0)
    /\ same_run s' s0
    /\ (verbose = false -> stdout s' = stdout s0)
    /\ (r = match r0 with
            | Ret o => Ret o
            | Raise e => Ret (Some (except_outcome e (function_calls_made s0)))
            end
        \/ (verbose = true
            /\ exists e e' n p,
                 r0 = Raise e /\ write n p = Some e' /\ r = Raise e')).
Proof.
  intros r s'. unfold guarded_loop, try_except.
  destruct (while_true write llm api fuel verbose s) as [[o|e] s0].
  - intros [= <- <-]. exists (Ret o), s0. unfold same_run. auto 8.
  - intros E. exists (Raise e), s0. split; [reflexivity|].
    assert (E' : (if is_ClientError e then on_client_error write e verbose
                  else on_exception write e verbose) s0 = (r, s'))
      by (destruct (is_ClientError e); exact E).
    destruct (except_clause e verbose s0 r s' E') as (Sr & Ho & [->|(V & R)]).
    + auto.
    + split; [exact Sr|]. split; [exact Ho|]. right. split; [exact V|].
      destruct R as (e' & n & p & W & ->). exists e, e', n, p. auto.
Qed.

Lemma guarded_loop_continue (verbose : bool) (fuel : nat) (s s' : State) :
  turn write llm api verbose s = (Ret None, s') ->
  guarded_loop write llm api (S fuel) verbose s
  = guarded_loop write llm api fuel verbose s'.
Proof.
  intros T. unfold guarded_loop, try_except. rewrite while_true_S, T.
  reflexivity.
Qed.

Lemma guarded_loop_silent (fuel : nat) (s : State) :
  guarded_loop write llm api fuel false s = guarded_loop accepts llm api fuel false s.
Proof.
  unfold guarded_loop, try_except. rewrite while_true_silent.
  destruct (while_true accepts llm api fuel false s) as [[o|e] s0];
    [reflexivity|].
  destruct (is_ClientError e); reflexivity.
Qed.

(** ** The call *)

(** The first print is outside the [try] statement: if it raises, the call
    raises, and nothing else has happened. *)
Lemma chat_with_gemini_cases (fuel : nat) (user_message : string)
      (verbose : bool) (s : State) :
  (verbose = true
   /\ exists e,
        write (length (stdout s)) (PrintLine ("💬 USER: " ++ user_message ++ nl))
        = Some e
        /\ chat_with_gemini write llm api fuel user_message verbose s
           = (Raise e, s))
  \/ chat_with_gemini write llm api fuel user_message verbose s
     = guarded_loop write llm api fuel verbose (start user_message verbose s).
Proof.
  unfold chat_with_gemini, bind, when, print.
  destruct verbose; [|right; reflexivity].
  destruct (write _ _) as [e|] eqn:W; [|right; reflexivity].
  left. split; [reflexivity|]. exists e. auto.
Qed.

Lemma chat_with_gemini_silent (fuel : nat) (user_message : string) (s : State) :
  chat_with_gemini write llm api fuel user_message false s
  = chat_with_gemini accepts llm api fuel user_message false s.
Proof.
  unfold chat_with_gemini, bind, when, init_locals, ret.
  apply guarded_loop_silent.
Qed.

End Loop.

(** ** A console that takes what is printed *)

Section Accepted.

Variable llm : nat -> list Content -> ProviderReply.
Variable api : nat -> HttpRequest -> HttpReply.

Lemma guarded_loop_spec (fuel : nat) (verbose : bool) (s : State) :
  forall r s', guarded_loop accepts llm api fuel verbose s = (r, s') ->
  exists r0 s0,
    while_true accepts llm api fuel verbose s = (r0, s0)
    /\ messages s' = messages s0
    /\ function_calls_made s' = function_calls_made s0
    /\ llm_log s' = llm_log s0
    /\ http_log s' = http_log s0
    /\ (verbose = false -> stdout s' = stdout s0)
    /\ r = match r0 with
           | Ret o => Ret o
           | Raise e => Ret (Some (except_outcome e (function_calls_made s0)))
           end.
Proof.
  intros r s' G.
  destruct (guarded_loop_cases accepts llm api fuel verbose s r s' G)
    as (r0 & s0 & W & (Hm & Hc & Hl & Hh) & Ho
        & [R|(_ & e & e' & n & p & _ & B & _)]).
  - exists r0, s0. auto 10.
  - discriminate B.
Qed.

Lemma chat_with_gemini_run (fuel : nat) (user_message : string)
      (verbose : bool) (s : State) :
  chat_with_gemini accepts llm api fuel user_message verbose s =
  guarded_loop accepts llm api fuel verbose (start user_message verbose s).
Proof. destruct verbose; reflexivity. Qed.

Lemma continues_chat (user_message : string) (verbose : bool) (n k : nat)
      (s s1 : State) :
  continues accepts llm api k verbose (start user_message verbose s) = Some s1 ->
  chat_with_gemini accepts llm api (k + n) user_message verbose s =
  guarded_loop accepts llm api n verbose s1.
Proof.
  intros C. rewrite chat_with_gemini_run. unfold guarded_loop, try_except.
  rewrite (continues_while_true accepts llm api verbose n k _ _ C). reflexivity.
Qed.

(** The outcome when the pass started in [s] raises [e]. *)
Lemma guarded_loop_raise (verbose : bool) (fuel : nat) (s s' : State) (e : Exc) :
  turn accepts llm api verbose s = (Raise e, s') ->
  fst (guarded_loop accepts llm api (S fuel) verbose s) =
  Ret (Some (except_outcome e (function_calls_made s'))).
Proof.
  intros T.
  destruct (guarded_loop accepts llm api (S fuel) verbose s) as [r t] eqn:G.
  destruct (guarded_loop_spec (S fuel) verbose s _ _ G)
    as (r0 & s0 & W & _ & _ & _ & _ & _ & ->).
  rewrite while_true_S, T in W. injection W as <- <-. reflexivity.
Qed.

(** The outcome when the pass started in [s] returns. *)
Lemma guarded_loop_return (verbose : bool) (fuel : nat) (s s' : State)
      (outcome : PyVal) :
  turn accepts llm api verbose s = (Ret (Some outcome), s') ->
  guarded_loop accepts llm api (S fuel) verbose s = (Ret (Some outcome), s').
Proof.
  intros T. unfold guarded_loop, try_except. rewrite while_true_S, T.
  reflexivity.
Qed.

(** What [chat_with_gemini] gives back: nothing yet, a final answer, or the
    mapping of an [except] clause. *)
Lemma chat_with_gemini_result (fuel : nat) (user_message : string)
      (verbose : bool) (s : State) :
  forall r s',
    chat_with_gemini accepts llm api fuel user_message verbose s = (r, s') ->
    r = Ret None
    \/ (exists final_response,
           r = Ret (Some (PyDict [ ("response", py_opt_str final_response);
                                   ("function_calls",
                                    PyList (function_calls_made s')) ])))
    \/ (exists e, r = Ret (Some (except_outcome e (function_calls_made s')))).
Proof.
  intros r s' G. rewrite chat_with_gemini_run in G.
  destruct (guarded_loop_spec fuel verbose _ _ _ G)
    as (r0 & s0 & W & _ & Hc & _ & _ & _ & ->).
  rewrite Hc. destruct r0 as [[o|]|e]; [|auto|eauto].
  destruct (while_true_answer accepts llm api verbose fuel _ _ _ W) as (t & ->).
  eauto.
Qed.

(** The call ends with the first pass that does not execute a tool: what it
    gives back does not depend on the passes still allowed. *)
Lemma chat_with_gemini_ends (user_message : string) (verbose : bool)
      (s : State) (k : nat) (s1 : State) (r : Res (option PyVal)) (t : State) :
  continues accepts llm api k verbose (start user_message verbose s) = Some s1 ->
  turn accepts llm api verbose s1 = (r, t) ->
  r <> Ret None ->
  exists outcome s',
    (forall fuel, k < fuel ->
       chat_with_gemini accepts llm api fuel user_message verbose s
       = (Ret (Some outcome), s'))
    /\ llm_log s' = (llm_log s1 ++ [messages s1])%list
    /\ function_calls_made s' = function_calls_made t
    /\ match r with
       | Ret o => o = Some outcome
       | Raise e => outcome = except_outcome e (function_calls_made t)
       end.
Proof.
  intros C T N.
  destruct (guarded_loop accepts llm api 1 verbose s1) as [r1 s'] eqn:G.
  assert (A : forall fuel, k < fuel ->
            chat_with_gemini accepts llm api fuel user_message verbose s
            = (r1, s')).
  { intros fuel Hk. replace fuel with (k + S (fuel - S k)) by lia.
    rewrite (continues_chat user_message verbose _ k s s1 C).
    rewrite <- G. unfold guarded_loop, try_except. rewrite !while_true_S, T.
    destruct r as [[o|]|e]; [reflexivity|congruence|reflexivity]. }
  destruct (guarded_loop_spec 1 verbose s1 _ _ G)
    as (r0 & s0 & W & _ & Hc & Hl & _ & _ & ->).
  rewrite while_true_S, T in W.
  destruct (turn_spec accepts llm api verbose s1 _ _ T) as (L & _).
  destruct r as [[o|]|e]; [|congruence|]; injection W as <- <-.
  - exists o, s'. rewrite Hl, Hc. auto.
  - exists (except_outcome e (function_calls_made t)), s'. rewrite Hl, Hc. auto.
Qed.

(** ** Tracing *)

Lemma execute_function_call_verbose (function_call : FunctionCall)
      (v1 v2 : bool) (s1 s2 : State) :
  same_run s1 s2 ->
  fst (execute_function_call accepts api function_call v1 s1) =
  fst (execute_function_call accepts api function_call v2 s2)
  /\ same_run (snd (execute_function_call accepts api function_call v1 s1))
              (snd (execute_function_call accepts api function_call v2 s2)).
Proof.
  intros (Hm & Hc & Hl & Hh).
  rewrite !execute_function_call_fst, Hh. split; [reflexivity|].
  destruct (execute_function_call_snd api function_call v1 s1)
    as (A1 & A2 & A3 & A4 & _).
  destruct (execute_function_call_snd api function_call v2 s2)
    as (B1 & B2 & B3 & B4 & _).
  unfold same_run. rewrite A1, A2, A3, A4, B1, B2, B3, B4, Hm, Hc, Hl, Hh. auto.
Qed.

Local Ltac agree := intros _; simpl; unfold same_run; simpl; auto.

Lemma turn_verbose (v1 v2 : bool) (s1 s2 : State) :
  same_run s1 s2 ->
  fst (turn accepts llm api v1 s1) = fst (turn accepts llm api v2 s2)
  /\ same_run (snd (turn accepts llm api v1 s1)) (snd (turn accepts llm api v2 s2)).
Proof.
  intros S. pose proof S as (Hm & Hc & Hl & Hh).
  assert (R : reply_in llm s1 = reply_in llm s2)
    by (unfold reply_in; rewrite Hm, Hl; reflexivity).
  destruct (tool_request (reply_in llm s1)) as [[ct fc]|] eqn:Q.
  - destruct (fc_args fc) as [kwargs|] eqn:A.
    + rewrite (turn_request accepts llm api v1 s1 ct fc kwargs Q A).
      rewrite R in Q. rewrite (turn_request accepts llm api v2 s2 ct fc kwargs Q A).
      assert (S' : same_run (executing fc s1) (executing fc s2))
        by (unfold same_run, executing; simpl; rewrite Hm, Hc, Hl, Hh; auto).
      destruct (execute_function_call_verbose fc v1 v2 _ _ S') as (F & G).
      destruct (execute_function_call accepts api fc v1 (executing fc s1))
        as [r1 t1].
      destruct (execute_function_call accepts api fc v2 (executing fc s2))
        as [r2 t2].
      simpl in F, G. subst r2. destruct G as (Gm & Gc & Gl & Gh).
      destruct r1 as [payload|e]; simpl; unfold same_run; simpl;
        rewrite ?Gm; auto.
    + rewrite (turn_unrecorded accepts llm api v1 s1 ct fc Q A).
      rewrite R in Q. rewrite (turn_unrecorded accepts llm api v2 s2 ct fc Q A).
      unfold same_run, called. simpl. rewrite Hm, Hc, Hl, Hh. auto.
  - clear R. revert Q. destruct s1, s2. unfold same_run in S. simpl in *.
    destruct S as (-> & -> & -> & ->).
    unfold reply_in, tool_request, turn, bind, call_model; simpl.
    destruct (llm _ _) as [response|e]; [|agree].
    destruct (candidates response) as [[|candidate cs]|]; simpl;
      [agree| |agree].
    unfold content_of.
    destruct (content candidate) as [c|]; simpl; [|agree].
    destruct (parts c) as [[|part ps]|]; simpl; [agree| |agree].
    destruct (part_function_call part); [discriminate|].
    destruct v1, v2; agree.
Qed.

Lemma while_true_verbose (v1 v2 : bool) :
  forall fuel s1 s2,
    same_run s1 s2 ->
    fst (while_true accepts llm api fuel v1 s1)
    = fst (while_true accepts llm api fuel v2 s2)
    /\ same_run (snd (while_true accepts llm api fuel v1 s1))
                (snd (while_true accepts llm api fuel v2 s2)).
Proof.
  induction fuel as [|fuel IH]; intros s1 s2 S.
  - simpl. auto.
  - rewrite !while_true_S.
    destruct (turn_verbose v1 v2 s1 s2 S) as (F & G).
    destruct (turn accepts llm api v1 s1) as [r1 t1].
    destruct (turn accepts llm api v2 s2) as [r2 t2].
    simpl in F, G. subst r2.
    destruct r1 as [[o|]|e]; simpl; auto.
Qed.

Lemma guarded_loop_verbose (v1 v2 : bool) (fuel : nat) (s1 s2 : State) :
  same_run s1 s2 ->
  fst (guarded_loop accepts llm api fuel v1 s1)
  = fst (guarded_loop accepts llm api fuel v2 s2)
  /\ same_run (snd (guarded_loop accepts llm api fuel v1 s1))
              (snd (guarded_loop accepts llm api fuel v2 s2)).
Proof.
  intros S. destruct (while_true_verbose v1 v2 fuel s1 s2 S) as (F & G).
  destruct (guarded_loop accepts llm api fuel v1 s1) as [r1 t1] eqn:E1.
  destruct (guarded_loop accepts llm api fuel v2 s2) as [r2 t2] eqn:E2.
  destruct (guarded_loop_spec fuel v1 s1 _ _ E1)
    as (a1 & u1 & W1 & A1 & A2 & A3 & A4 & _ & ->).
  destruct (guarded_loop_spec fuel v2 s2 _ _ E2)
    as (a2 & u2 & W2 & B1 & B2 & B3 & B4 & _ & ->).
  rewrite W1, W2 in F, G. simpl in F, G. subst a2.
  destruct G as (Gm & Gc & Gl & Gh). simpl. unfold same_run. simpl.
  rewrite A1, A2, A3, A4, B1, B2, B3, B4, Gc. auto.
Qed.

End Accepted.

(** ** What the loop keeps *)

Section Invariants.

Variable write : nat -> Printed -> option Exc.
Variable llm : nat -> list Content -> ProviderReply.
Variable api : nat -> HttpRequest -> HttpReply.

(** Every conversation sent to the provider, and the one the [try]
    statement is left with, is the user's turn followed by pairs of a
    request turn and its result turn. *)
Lemma guarded_loop_conversation (fuel : nat) (user_message : string)
      (verbose : bool) (s : State) :
  let s' := snd (guarded_loop write llm api fuel verbose
                   (start user_message verbose s)) in
  conversation user_message (messages s')
  /\ exists sent,
       llm_log s' = (llm_log s ++ sent)%list
       /\ Forall (fun l => conversation user_message l /\ answered_once l) sent.
Proof.
  intros s'. subst s'.
  set (P := fun t : State =>
              conversation user_message (messages t)
              /\ exists sent,
                   llm_log t = (llm_log s ++ sent)%list
                   /\ Forall (fun l => conversation user_message l
                                       /\ answered_once l) sent).
  assert (P0 : P (start user_message verbose s)).
  { split.
    - exists []. split; [reflexivity|exact I].
    - exists []. simpl. rewrite app_nil_r. auto. }
  assert (step : forall t r t',
             P t -> turn write llm api verbose t = (r, t') -> P t').
  { intros t r t' (C & sent & L & F) T.
    destruct (turn_spec write llm api verbose t _ _ T) as (L' & _ & R).
    assert (M : conversation user_message (messages t')).
    { destruct r as [[o|]|e].
      - destruct R as (_ & -> & _). exact C.
      - destruct R as (ct & fc & payload & Q & _ & -> & _).
        apply conversation_extend; [exact C|].
        apply (tool_request_requested _ _ _ Q).
      - destruct R as (-> & _). exact C. }
    split; [exact M|].
    exists (sent ++ [messages t])%list. rewrite L', L, app_assoc.
    split; [reflexivity|].
    apply Forall_app. split; [exact F|].
    constructor; [|constructor].
    split; [exact C|apply (conversation_answered user_message _ C)]. }
  destruct (guarded_loop write llm api fuel verbose (start user_message verbose s))
    as [r s'] eqn:G.
  destruct (guarded_loop_cases write llm api fuel verbose _ _ _ G)
    as (r0 & s0 & W & (Hm & _ & Hl & _) & _).
  destruct (while_true_invariant write llm api P verbose step fuel _ _ _ P0 W)
    as (C & sent & L & F).
  simpl. rewrite Hm, Hl. split; [exact C|]. exists sent. auto.
Qed.



End Invariants.

(** ** The claims *)

Section Claims.

Variable write : nat -> Printed -> option Exc.
Variable llm : nat -> list Content -> ProviderReply.
Variable api : nat -> HttpRequest -> HttpReply.

(** C1, as the code has it.  Whatever the provider and the camera API do,
    [chat_with_gemini] raises nothing but what a print of its tracing
    raises, the first print, which is outside the [try] statement, or a
    print of an [except] clause answering an exception of the loop: nothing
    without tracing, and nothing on a console that takes what is printed.
    What it returns is a final answer or a terminal error,
    never both, built from the tool invocations recorded; the final answer
    holds the text of the reply that ended the loop.  With passes enough the
    call ends as soon as the reply the provider gives is not a tool
    request: it returns, unless a print raised. *)
Theorem chat_with_gemini_outcome (fuel : nat) (user_message : string)
        (verbose : bool) (s : State) :
  (forall e,
      fst (chat_with_gemini write llm api fuel user_message verbose s) = Raise e ->
      verbose = true
      /\ (write (length (stdout s)) (PrintLine ("💬 USER: " ++ user_message ++ nl))
          = Some e
          \/ exists e0 s0 n p,
               while_true write llm api fuel verbose (start user_message verbose s)
               = (Raise e0, s0)
               /\ write n p = Some e))
  /\ (forall e,
        fst (chat_with_gemini write llm api fuel user_message false s) <> Raise e)
  /\ (forall e,
        fst (chat_with_gemini accepts llm api fuel user_message verbose s)
        <> Raise e)
  /\ (forall outcome,
        fst (chat_with_gemini write llm api fuel user_message verbose s)
        = Ret (Some outcome) ->
        let calls :=
          function_calls_made
            (snd (chat_with_gemini write llm api fuel user_message verbose s)) in
        (final_answer calls outcome \/ terminal_error calls outcome)
        /\ has_key outcome "response" = negb (has_key outcome "error")
        /\ has_key outcome "function_calls" = true)
  /\ (forall k s1,
        k < fuel ->
        continues write llm api k verbose (start user_message verbose s) = Some s1 ->
        tool_request (reply_in llm s1) = None ->
        (exists outcome,
            fst (chat_with_gemini write llm api fuel user_message verbose s)
            = Ret (Some outcome))
        \/ (verbose = true
            /\ exists e n p,
                 write n p = Some e
                 /\ fst (chat_with_gemini write llm api fuel user_message verbose s)
                    = Raise e))
  /\ (forall k s1 response outcome,
        k < fuel ->
        continues write llm api k verbose (start user_message verbose s) = Some s1 ->
        reply_in llm s1 = ProviderReturns response ->
        tool_request (reply_in llm s1) = None ->
        fst (chat_with_gemini write llm api fuel user_message verbose s)
        = Ret (Some outcome) ->
        has_key outcome "response" = true ->
        outcome = PyDict [ ("response", py_opt_str (text response));
                           ("function_calls", PyList (function_calls_made s1)) ]).
Proof.
  assert (Raises : forall v e,
             fst (chat_with_gemini write llm api fuel user_message v s) = Raise e ->
             v = true
             /\ (write (length (stdout s))
                       (PrintLine ("💬 USER: " ++ user_message ++ nl)) = Some e
                 \/ exists e0 s0 n p,
                      while_true write llm api fuel v (start user_message v s)
                      = (Raise e0, s0)
                      /\ write n p = Some e)).
  { intros v e.
    destruct (chat_with_gemini_cases write llm api fuel user_message v s)
      as [(V & e0 & W & ->) | ->].
    - intros [= <-]. auto.
    - destruct (guarded_loop write llm api fuel v (start user_message v s))
        as [r s'] eqn:G.
      destruct (guarded_loop_cases write llm api fuel v _ _ _ G)
        as (r0 & s0 & W0 & _ & _ & [-> | (V & e0 & e' & n & p & -> & W & ->)]).
      + destruct r0; discriminate.
      + intros [= <-]. split; [exact V|]. right. exists e0, s0, n, p. auto. }
  assert (Ends : forall k s1,
             k < fuel ->
             continues write llm api k verbose (start user_message verbose s)
             = Some s1 ->
             tool_request (reply_in llm s1) = None ->
             exists r t,
               turn write llm api verbose s1 = (r, t)
               /\ r <> Ret None
               /\ while_true write llm api fuel verbose
                    (start user_message verbose s) = (r, t)).
  { intros k s1 Hk C Q.
    destruct (turn_stop write llm api verbose s1 Q) as (r & out & T & _ & N).
    exists r, (mkState (messages s1) (function_calls_made s1)
                       (llm_log s1 ++ [messages s1]) (http_log s1) out).
    assert (N' : r <> Ret None) by (intros ->; exact N).
    split; [exact T|]. split; [exact N'|].
    replace fuel with (k + S (fuel - S k)) by lia.
    apply (while_true_ends write llm api verbose k _ _ s1 r _ C T N'). }
  split; [exact (Raises verbose)|]. split; [|split; [|split; [|split]]].
  - intros e H. destruct (Raises false e H) as [V _]. discriminate.
  - intros e H.
    destruct (chat_with_gemini accepts llm api fuel user_message verbose s)
      as [r s'] eqn:G.
    destruct (chat_with_gemini_result llm api fuel _ _ _ _ _ G)
      as [-> | [(t & ->) | (x & ->)]]; discriminate.
  - intros outcome.
    destruct (chat_with_gemini_cases write llm api fuel user_message verbose s)
      as [(V & e0 & W & ->) | ->]; [discriminate|].
    destruct (guarded_loop write llm api fuel verbose (start user_message verbose s))
      as [r s'] eqn:G.
    destruct (guarded_loop_cases write llm api fuel verbose _ _ _ G)
      as (r0 & s0 & W & (_ & Hc & _) & _ & [-> | (V & e0 & e' & n & p & _ & _ & ->)]);
      [|discriminate].
    simpl. intros E. rewrite Hc. destruct r0 as [[o|]|e]; try discriminate.
    + injection E as ->.
      destruct (while_true_answer write llm api verbose fuel _ _ _ W) as (t & ->).
      split; [left; exists t; reflexivity|split; reflexivity].
    + injection E as <-.
      destruct (except_outcome_terminal e (function_calls_made s0))
        as (T & K1 & K2 & K3).
      rewrite K1, K2, K3. auto.
  - intros k s1 Hk C Q.
    destruct (chat_with_gemini_cases write llm api fuel user_message verbose s)
      as [(V & e0 & W & ->) | ->]; [right; split; [exact V|]; eauto|].
    destruct (Ends k s1 Hk C Q) as (r1 & t & _ & N & W).
    destruct (guarded_loop write llm api fuel verbose (start user_message verbose s))
      as [r s'] eqn:G.
    destruct (guarded_loop_cases write llm api fuel verbose _ _ _ G)
      as (r0 & s0 & W0 & _ & _ & [-> | (V & e0 & e' & n & p & _ & Wr & ->)]).
    + rewrite W in W0. injection W0 as <- <-. left. simpl.
      destruct r1 as [[o|]|e]; [eauto|congruence|eauto].
    + right. split; [exact V|]. exists e', n, p. auto.
  - intros k s1 response outcome Hk C R Q.
    destruct (chat_with_gemini_cases write llm api fuel user_message verbose s)
      as [(V & e0 & W & ->) | ->]; [discriminate|].
    destruct (Ends k s1 Hk C Q) as (r1 & t & T & N & W).
    destruct (guarded_loop write llm api fuel verbose (start user_message verbose s))
      as [r s'] eqn:G.
    destruct (guarded_loop_cases write llm api fuel verbose _ _ _ G)
      as (r0 & s0 & W0 & _ & _ & [-> | (V & e0 & e' & n & p & _ & Wr & ->)]);
      [|discriminate].
    rewrite W in W0. injection W0 as <- <-. simpl.
    destruct r1 as [[o|]|e]; [|congruence|].
    + intros [= ->] _. apply (turn_answer write llm api verbose s1 response _ t R T).
    + intros [= <-] K.
      destruct (except_outcome_terminal e (function_calls_made t))
        as (_ & _ & Kr & _).
      rewrite Kr in K. discriminate.
Qed.

(** C2.  Every conversation sent to the provider during a call, whatever
    the console does, and the one the call ends with, is the user's turn
    followed by pairs of a request turn and a result turn: each request
    turn has as the next turn a turn of the user whose one part is a
    function response, named after the tool requested, and the turn after
    is not a second result.  A pass in which a tool is executed appends the
    two turns, the result carrying what [execute_function_call] returned,
    and the next call to the provider sends the conversation so extended. *)
Theorem request_turn_answered (fuel : nat) (user_message : string)
        (verbose : bool) (s : State) :
  (exists sent,
      llm_log (snd (chat_with_gemini write llm api fuel user_message verbose s))
      = (llm_log s ++ sent)%list
      /\ Forall (fun l => conversation user_message l /\ answered_once l) sent)
  /\ conversation user_message
       (messages (snd (chat_with_gemini accepts llm api fuel user_message
                         verbose s)))
  /\ answered_once
       (messages (snd (chat_with_gemini accepts llm api fuel user_message
                         verbose s)))
  /\ (forall t model_content function_call t',
        tool_request (reply_in llm t) = Some (model_content, function_call) ->
        turn write llm api verbose t = (Ret None, t') ->
        exists function_result,
          fst (execute_function_call write api function_call verbose
                 (executing function_call t)) = Ret function_result
          /\ requested_tool model_content = Some (fc_name function_call)
          /\ messages t'
             = (messages t
                ++ [model_content;
                    mkContent "user"
                      (Some [mkPart None None
                               (Some (mkFunctionResponse
                                        (fc_name function_call)
                                        function_result))])])%list
          /\ llm_log t' = (llm_log t ++ [messages t])%list
          /\ llm_log (snd (turn write llm api verbose t'))
             = (llm_log t ++ [messages t; messages t'])%list).
Proof.
  split; [|split; [|split]].
  - destruct (chat_with_gemini_cases write llm api fuel user_message verbose s)
      as [(V & e0 & W & ->) | ->].
    + exists []. simpl. rewrite app_nil_r. auto.
    + apply (guarded_loop_conversation write llm api fuel user_message verbose s).
  - rewrite chat_with_gemini_run.
    apply (guarded_loop_conversation accepts llm api fuel user_message verbose s).
  - rewrite chat_with_gemini_run.
    apply (conversation_answered user_message).
    apply (guarded_loop_conversation accepts llm api fuel user_message verbose s).
  - intros t ct fc t' Q T.
    destruct (turn_spec write llm api verbose t _ _ T)
      as (L & _ & ct' & fc' & payload & Q' & X & M & _).
    rewrite Q in Q'. injection Q' as <- <-.
    exists payload. split; [exact X|].
    split; [apply (tool_request_requested _ _ _ Q)|].
    split; [exact M|]. split; [exact L|].
    destruct (turn write llm api verbose t') as [r2 t2] eqn:T2.
    destruct (turn_spec write llm api verbose t' _ _ T2) as (L2 & _).
    simpl. rewrite L2, L, <- app_assoc. reflexivity.
Qed.

(** C7.  When the provider raises a [ClientError] in a pass reached after
    [k] tool passes, the call returns a terminal error with the invocations
    recorded so far.  It is the rate-limit mapping, with its own message
    and an [error_details] field, when the error's text holds 429 or
    RESOURCE_EXHAUSTED, or holds quota in any case of its letters; it is the
    generic provider-error mapping when the text holds none of them.  The
    two mappings are never equal.  On the first pass the list of invocations
    is empty. *)
Theorem rate_limit_outcome (user_message : string) (verbose : bool)
        (s : State) (k : nat) (s1 : State) (e : Exc) :
  continues accepts llm api k verbose (start user_message verbose s) = Some s1 ->
  reply_in llm s1 = ProviderRaises e ->
  is_ClientError e = true ->
  forall fuel, k < fuel ->
    (contains (exc_str e) "429" = true
     \/ contains (exc_str e) "RESOURCE_EXHAUSTED" = true
     \/ contains (exc_str e) "quota" = true
     \/ contains (lower (exc_str e)) "quota" = true ->
     fst (chat_with_gemini accepts llm api fuel user_message verbose s)
     = Ret (Some (PyDict [ ("error", PyStr rate_limit_message);
                           ("error_details", PyStr (exc_str e));
                           ("function_calls",
                            PyList (function_calls_made s1)) ])))
    /\ (contains (exc_str e) "429" = false ->
        contains (exc_str e) "RESOURCE_EXHAUSTED" = false ->
        contains (lower (exc_str e)) "quota" = false ->
        fst (chat_with_gemini accepts llm api fuel user_message verbose s)
        = Ret (Some (PyDict [ ("error",
                               PyStr ("Gemini API Error: " ++ exc_str e));
                              ("function_calls",
                               PyList (function_calls_made s1)) ])))
    /\ (k = 0 -> function_calls_made s1 = [])
    /\ (forall message details calls message' calls',
          PyDict [ ("error", PyStr message);
                   ("error_details", PyStr details);
                   ("function_calls", PyList calls) ]
          <> PyDict [ ("error", PyStr message');
                      ("function_calls", PyList calls') ]).
Proof.
  intros C R Ce fuel Hk.
  assert (F : fst (chat_with_gemini accepts llm api fuel user_message verbose s)
              = Ret (Some (except_outcome e (function_calls_made s1)))).
  { replace fuel with (k + S (fuel - S k)) by lia.
    rewrite (continues_chat llm api user_message verbose _ k s s1 C).
    rewrite (guarded_loop_raise llm api verbose _ s1 _ e
               (turn_raises accepts llm api verbose s1 e R)).
    reflexivity. }
  rewrite F. unfold except_outcome. rewrite Ce.
  split; [|split; [|split]].
  - intros Mk.
    assert (L : is_rate_limit (exc_str e) = true).
    { apply is_rate_limit_true.
      destruct Mk as [H|[H|[H|H]]]; auto.
      right. right. apply (contains_lower (exc_str e) "quota" H). }
    rewrite L. reflexivity.
  - intros H1 H2 H3.
    rewrite (proj2 (is_rate_limit_false (exc_str e)) (conj H1 (conj H2 H3))).
    reflexivity.
  - intros ->. injection C as <-. reflexivity.
  - intros m d c m' c'. discriminate.
Qed.

(** C8, as the code has it.  The loop has no turn cap: it ends with the
    first pass in which the reply the provider gives is not a tool request,
    or which raises.  If that is the pass after [k] tool passes, the call
    returns the same outcome for every number of passes above [k], after
    [k + 1] calls to the provider.  While every pass executes a tool the
    call has returned nothing; so a model that requests a tool in every
    reply, with tools that execute, keeps it running for ever. *)
Theorem chat_with_gemini_stops (user_message : string) (verbose : bool)
        (s : State) :
  (forall k s1,
      continues accepts llm api k verbose (start user_message verbose s) = Some s1 ->
      tool_request (reply_in llm s1) = None ->
      exists outcome s',
        (forall fuel, k < fuel ->
           chat_with_gemini accepts llm api fuel user_message verbose s
           = (Ret (Some outcome), s'))
        /\ length (llm_log s') = length (llm_log s) + k + 1)
  /\ (forall k s1 e t,
        continues accepts llm api k verbose (start user_message verbose s)
        = Some s1 ->
        turn accepts llm api verbose s1 = (Raise e, t) ->
        exists s',
          (forall fuel, k < fuel ->
             chat_with_gemini accepts llm api fuel user_message verbose s
             = (Ret (Some (except_outcome e (function_calls_made t))), s'))
          /\ length (llm_log s') = length (llm_log s) + k + 1)
  /\ (forall n s1,
        continues accepts llm api n verbose (start user_message verbose s)
        = Some s1 ->
        fst (chat_with_gemini accepts llm api n user_message verbose s) = Ret None
        /\ length (llm_log s1) = length (llm_log s) + n)
  /\ ((forall t, exists t', turn accepts llm api verbose t = (Ret None, t')) ->
      forall fuel,
        fst (chat_with_gemini accepts llm api fuel user_message verbose s)
        = Ret None).
Proof.
  assert (Len : forall k s1,
             continues accepts llm api k verbose (start user_message verbose s)
             = Some s1 ->
             length (llm_log s1 ++ [messages s1]) = length (llm_log s) + k + 1).
  { intros k s1 C. rewrite length_app.
    rewrite (continues_log_length accepts llm api verbose k _ _ C). reflexivity. }
  split; [|split; [|split]].
  - intros k s1 C Q.
    destruct (turn_stop accepts llm api verbose s1 Q) as (r & out & T & _ & N).
    assert (N' : r <> Ret None) by (intros ->; exact N).
    destruct (chat_with_gemini_ends llm api user_message verbose s k s1 r _ C T N')
      as (outcome & s' & A & L & _).
    exists outcome, s'. split; [exact A|]. rewrite L. apply (Len k s1 C).
  - intros k s1 e t C T.
    destruct (chat_with_gemini_ends llm api user_message verbose s k s1 _ _ C T
                ltac:(discriminate))
      as (outcome & s' & A & L & _ & ->).
    exists s'. split; [exact A|]. rewrite L. apply (Len k s1 C).
  - intros n s1 C. split.
    + rewrite chat_with_gemini_run. unfold guarded_loop, try_except.
      replace n with (n + 0) by lia.
      rewrite (continues_while_true accepts llm api verbose 0 n _ _ C).
      reflexivity.
    + rewrite (continues_log_length accepts llm api verbose n _ _ C).
      reflexivity.
  - intros H fuel. rewrite chat_with_gemini_run. unfold guarded_loop, try_except.
    assert (W : forall n t, fst (while_true accepts llm api n verbose t) = Ret None).
    { induction n as [|n IH]; intros t; [reflexivity|].
      rewrite while_true_S. destruct (H t) as (t' & ->). apply IH. }
    specialize (W fuel (start user_message verbose s)).
    destruct (while_true accepts llm api fuel verbose (start user_message verbose s))
      as [r0 s0].
    simpl in W. subst r0. reflexivity.
Qed.

(** C9, as the code has it.  On a console that takes what is printed, a
    call returns the same result with and without tracing, makes the same
    calls to the provider and the same requests to the camera API, and
    leaves the same conversation and the same record of invocations; so
    does [execute_function_call].  Without tracing nothing is printed and
    the console is not used.  A print that raises does change the call: the
    first print is outside the [try] statement, and what it raises leaves
    [chat_with_gemini] before the provider is called. *)
Theorem verbose_only_prints (fuel : nat) (user_message : string) (s : State) :
  (fst (chat_with_gemini accepts llm api fuel user_message true s)
   = fst (chat_with_gemini accepts llm api fuel user_message false s)
   /\ same_run (snd (chat_with_gemini accepts llm api fuel user_message true s))
               (snd (chat_with_gemini accepts llm api fuel user_message false s)))
  /\ (forall function_call,
        fst (execute_function_call accepts api function_call true s)
        = fst (execute_function_call accepts api function_call false s)
        /\ same_run (snd (execute_function_call accepts api function_call true s))
                    (snd (execute_function_call accepts api function_call false s)))
  /\ (chat_with_gemini write llm api fuel user_message false s
      = chat_with_gemini accepts llm api fuel user_message false s
      /\ stdout (snd (chat_with_gemini write llm api fuel user_message false s))
         = stdout s)
  /\ (forall function_call,
        execute_function_call write api function_call false s
        = execute_function_call accepts api function_call false s
        /\ stdout (snd (execute_function_call write api function_call false s))
           = stdout s)
  /\ (forall e,
        write (length (stdout s)) (PrintLine ("💬 USER: " ++ user_message ++ nl))
        = Some e ->
        chat_with_gemini write llm api fuel user_message true s = (Raise e, s)).
Proof.
  split; [|split; [|split; [|split]]].
  - rewrite !chat_with_gemini_run.
    assert (S0 : same_run (start user_message true s)
                          (start user_message false s))
      by (unfold same_run; simpl; auto).
    apply (guarded_loop_verbose llm api true false fuel _ _ S0).
  - intros fc.
    assert (S0 : same_run s s) by (unfold same_run; auto).
    apply (execute_function_call_verbose api fc true false s s S0).
  - split; [apply chat_with_gemini_silent|].
    rewrite chat_with_gemini_silent, chat_with_gemini_run.
    destruct (guarded_loop accepts llm api fuel false (start user_message false s))
      as [r s'] eqn:E.
    destruct (guarded_loop_spec llm api fuel false _ _ _ E)
      as (r0 & s0 & W & _ & _ & _ & _ & Ho & _).
    simpl. rewrite (Ho eq_refl).
    apply (while_true_quiet accepts llm api fuel _ _ _ W).
  - intros fc. split; [apply execute_function_call_quiet|].
    rewrite execute_function_call_quiet.
    destruct (execute_function_call_snd api fc false s) as (_ & _ & _ & _ & Ho).
    apply Ho. reflexivity.
  - intros e W.
    destruct (chat_with_gemini_cases write llm api fuel user_message true s)
      as [(_ & e0 & W0 & E)|E].
    + rewrite W in W0. injection W0 as <-. exact E.
    + unfold chat_with_gemini, bind, when, print. rewrite W. reflexivity.
Qed.

End Claims.

(** ** The registry's payloads *)

Lemma handler_result_shape (echo : Dict) (reply : HttpReply) (payload : PyVal) :
  handler_result echo reply = Ret payload ->
  success_payload echo payload \/ failure_payload echo payload.
Proof.
  assert (C : forall e, caught echo e = Ret payload -> failure_payload echo payload).
  { intros e. unfold caught. destruct (is_RequestException e); [|discriminate].
    intros [= <-]. exists (exc_str e). reflexivity. }
  unfold handler_result.
  destruct reply as [r|e]; [|right; eapply C; eauto].
  destruct (raise_for_status r) as [e|]; [right; eapply C; eauto|].
  destruct (json r) as [e|cameras]; [right; eapply C; eauto|].
  destruct (py_len cameras) as [e|count] eqn:L; [right; eapply C; eauto|].
  intros [= <-]. left. exists cameras, count. auto.
Qed.

(** A successful payload is the one built from the API's JSON body. *)
Lemma handler_result_success (echo : Dict) (reply : HttpReply) (payload : PyVal) :
  handler_result echo reply = Ret payload ->
  succeeded payload = true ->
  exists r cameras count,
    reply = GetReturns r
    /\ raise_for_status r = None
    /\ json r = inr cameras
    /\ py_len cameras = inr count
    /\ payload = PyDict (("success", PyBool true) :: echo
                         ++ [("count", PyInt (Z.of_nat count));
                             ("cameras", cameras)]).
Proof.
  assert (C : forall e, caught echo e = Ret payload -> succeeded payload = false).
  { intros e. unfold caught. destruct (is_RequestException e); [|discriminate].
    intros [= <-]. reflexivity. }
  unfold handler_result.
  destruct reply as [r|e]; [|intros H S; rewrite (C e H) in S; discriminate].
  destruct (raise_for_status r) as [e|] eqn:St;
    [intros H S; rewrite (C e H) in S; discriminate|].
  destruct (json r) as [e|cameras] eqn:J;
    [intros H S; rewrite (C e H) in S; discriminate|].
  destruct (py_len cameras) as [e|count] eqn:L;
    [intros H S; rewrite (C e H) in S; discriminate|].
  intros [= <-] _. exists r, cameras, count. repeat split; auto.
Qed.

Lemma handled_result (echo : Dict) (reply : HttpReply) :
  handled reply -> exists payload, handler_result echo reply = Ret payload.
Proof.
  unfold handled, handler_result, caught.
  destruct reply as [r|e]; [|intros ->; eauto].
  destruct (raise_for_status r) as [e|]; [intros ->; eauto|].
  destruct (json r) as [e|cameras]; [intros ->; eauto|].
  intros [count ->]. eauto.
Qed.

Lemma dict_get_In (d : Dict) (k : string) (v : PyVal) :
  dict_get d k = Some v -> In k (dict_keys d).
Proof.
  intros H. apply dict_has_In. unfold dict_has. rewrite H. reflexivity.
Qed.

(** The payloads of a registered function hold every field of an argument
    mapping that binds its parameters. *)
Lemma payload_echoes (f : PyFunction) (args : option Dict) (payload : PyVal) :
  binds_exactly f args ->
  success_payload (echo_of f args) payload
  \/ failure_payload (echo_of f args) payload ->
  echoes args payload.
Proof.
  intros B Sh.
  assert (A : forall k v, args_get args k = Some v ->
                In k (fn_params f) /\ argument args k = v).
  { intros k v H. split.
    - destruct B as (kwargs & -> & B). apply B, (dict_get_In _ _ _ H).
    - unfold argument. rewrite H. reflexivity. }
  destruct Sh as [(cameras & count & _ & ->)|(error & ->)];
    eexists; (split; [reflexivity|]); intros k v H;
    destruct (A k v H) as [I <-]; destruct f; simpl in I;
    repeat (destruct I as [<-|I]; [reflexivity|]); contradiction.
Qed.

Section RegistryClaims.

Variable api : nat -> HttpRequest -> HttpReply.

(** C3, as the code has it.  [execute_function_call] returns a payload
    when the tool is not registered, and when the argument mapping binds
    exactly the parameters of the registered function and the camera API
    fails with a [RequestException] or returns a body that has a length.
    Arguments that do not bind the parameters (a mapping that omits one or
    names another, or no mapping at all) make the call of the function
    raise a [TypeError], which [execute_function_call] lets through. *)
Theorem execute_function_call_payload (function_call : FunctionCall)
        (verbose : bool) (s : State) :
  (registry_get available_functions (fc_name function_call) = None ->
   fst (execute_function_call accepts api function_call verbose s)
   = Ret (not_found_payload (fc_name function_call)))
  /\ (forall f,
        registry_get available_functions (fc_name function_call) = Some f ->
        (binds_exactly f (fc_args function_call) ->
         handled (api (length (http_log s))
                      (request_of f (fc_args function_call))) ->
         exists payload,
           fst (execute_function_call accepts api function_call verbose s)
           = Ret payload
           /\ (success_payload (echo_of f (fc_args function_call)) payload
               \/ failure_payload (echo_of f (fc_args function_call)) payload))
        /\ (binds_exactly f (fc_args function_call) ->
            forall e,
              api (length (http_log s)) (request_of f (fc_args function_call))
              = GetRaises e ->
              is_RequestException e = true ->
              fst (execute_function_call accepts api function_call verbose s)
              = Ret (PyDict (("success", PyBool false)
                             :: ("error", PyStr (exc_str e))
                             :: echo_of f (fc_args function_call))))
        /\ (~ binds_exactly f (fc_args function_call) ->
            exists e,
              fst (execute_function_call accepts api function_call verbose s)
              = Raise e
              /\ exc_class e = TypeError)).
Proof.
  rewrite execute_function_call_fst. unfold execute_result.
  split; [intros ->; reflexivity|].
  intros f ->. split; [|split].
  - intros B H. apply expand_keywords_ok in B. rewrite B.
    destruct (handled_result (echo_of f (fc_args function_call)) _ H)
      as [payload E].
    exists payload. split; [exact E|]. apply (handler_result_shape _ _ _ E).
  - intros B e G R. apply expand_keywords_ok in B. rewrite B, G.
    unfold handler_result, caught. rewrite R. reflexivity.
  - intros N.
    destruct (expand_keywords (fn_name f) (fn_params f) (fc_args function_call))
      as [e|[]] eqn:B.
    + exists e. split; [reflexivity|]. apply (expand_keywords_raises _ _ _ _ B).
    + apply expand_keywords_ok in B. contradiction.
Qed.

(** C5.  A payload with [success] true is the mapping built from the
    body the camera API returned: it holds that body under [cameras], its
    length under [count], and the arguments the function was called with. *)
Theorem success_payload_count :
  (forall zipcode s payload,
      fst (get_cameras_by_zipcode api zipcode s) = Ret payload ->
      succeeded payload = true ->
      exists cameras count,
        py_len cameras = inr count
        /\ payload = PyDict [ ("success", PyBool true);
                              ("zipcode", zipcode);
                              ("count", PyInt (Z.of_nat count));
                              ("cameras", cameras) ])
  /\ (forall street zipcode s payload,
        fst (search_cameras_by_street api street zipcode s) = Ret payload ->
        succeeded payload = true ->
        exists cameras count,
          py_len cameras = inr count
          /\ payload = PyDict [ ("success", PyBool true);
                                ("street", street);
                                ("zipcode", zipcode);
                                ("count", PyInt (Z.of_nat count));
                                ("cameras", cameras) ])
  /\ (forall function_call verbose s payload,
        fst (execute_function_call accepts api function_call verbose s)
        = Ret payload ->
        succeeded payload = true ->
        exists f r cameras count,
          registry_get available_functions (fc_name function_call) = Some f
          /\ api (length (http_log s)) (request_of f (fc_args function_call))
             = GetReturns r
          /\ json r = inr cameras
          /\ py_len cameras = inr count
          /\ field payload "success" = Some (PyBool true)
          /\ field payload "cameras" = Some cameras
          /\ field payload "count" = Some (PyInt (Z.of_nat count))
          /\ (forall p, In p (fn_params f) ->
                        field payload p = args_get (fc_args function_call) p
                        /\ field payload p <> None))
  /\ (forall l, py_len (PyList l) = inr (length l)).
Proof.
  split; [|split; [|split]].
  - intros zipcode s payload. rewrite get_cameras_by_zipcode_run. simpl.
    intros H S.
    destruct (handler_result_success _ _ _ H S)
      as (r & cameras & count & _ & _ & _ & L & ->).
    exists cameras, count. auto.
  - intros street zipcode s payload. rewrite search_cameras_by_street_run. simpl.
    intros H S.
    destruct (handler_result_success _ _ _ H S)
      as (r & cameras & count & _ & _ & _ & L & ->).
    exists cameras, count. auto.
  - intros fc verbose s payload. rewrite execute_function_call_fst.
    unfold execute_result.
    destruct (registry_get available_functions (fc_name fc)) as [f|];
      [|intros [= <-]; discriminate].
    destruct (expand_keywords (fn_name f) (fn_params f) (fc_args fc))
      as [e|[]] eqn:B; [discriminate|].
    apply expand_keywords_ok in B. intros H S.
    destruct (handler_result_success _ _ _ H S)
      as (r & cameras & count & E & _ & J & L & ->).
    exists f, r, cameras, count.
    split; [reflexivity|]. split; [exact E|]. split; [exact J|].
    split; [exact L|].
    assert (A : forall p, In p (fn_params f) ->
                  args_get (fc_args fc) p = Some (argument (fc_args fc) p))
      by (intros p I; apply (binds_argument f _ p B I)).
    destruct f; simpl; do 3 (split; [reflexivity|]);
      intros p I; simpl in I;
      repeat (destruct I as [<-|I];
              [rewrite A by (simpl; auto); simpl; split;
               [reflexivity|discriminate]|]);
      contradiction.
  - reflexivity.
Qed.

(** C6, as the code has it.  A payload [execute_function_call] returns is
    the success or the failure payload of a registered function, which
    holds every field of the argument mapping, or, for a tool that is not
    registered, the mapping with the single field [error]. *)
Theorem execute_function_call_structured (function_call : FunctionCall)
        (verbose : bool) (s : State) (payload : PyVal) :
  fst (execute_function_call accepts api function_call verbose s) = Ret payload ->
  (exists f,
      registry_get available_functions (fc_name function_call) = Some f
      /\ binds_exactly f (fc_args function_call)
      /\ (success_payload (echo_of f (fc_args function_call)) payload
          \/ failure_payload (echo_of f (fc_args function_call)) payload)
      /\ echoes (fc_args function_call) payload)
  \/ (registry_get available_functions (fc_name function_call) = None
      /\ payload
         = PyDict [("error",
                    PyStr ("Function " ++ fc_name function_call ++ " not found"))]).
Proof.
  rewrite execute_function_call_fst. unfold execute_result.
  destruct (registry_get available_functions (fc_name function_call)) as [f|];
    [|intros [= <-]; right; auto].
  destruct (expand_keywords (fn_name f) (fn_params f) (fc_args function_call))
    as [e|[]] eqn:B; [discriminate|].
  apply expand_keywords_ok in B. intros H. left. exists f.
  pose proof (handler_result_shape _ _ _ H) as Sh.
  split; [reflexivity|]. split; [exact B|]. split; [exact Sh|].
  apply (payload_echoes f _ _ B Sh).
Qed.

End RegistryClaims.

(** ** The claims on the scenarios *)

Module Checks.
Import Scenario Cases.

(** The examples of the command-line front end, against a camera API that
    answers and one that times out: the time-out is reported to the model
    and the call still ends with its answer. *)
Example zipcode_question :
  fst (chat_with_gemini accepts one_tool two_cameras 2
         "Show me all speed cameras in zipcode 10036" false idle)
  = Ret (Some (PyDict
                 [ ("response", PyStr "There are 2 cameras in 10036.");
                   ("function_calls",
                    PyList [PyDict [ ("name", PyStr "get_cameras_by_zipcode");
                                     ("args",
                                      PyDict [("zipcode", PyStr "10036")]) ]]) ])).
Proof. reflexivity. Qed.

Example timeout_is_reported :
  fst (chat_with_gemini accepts one_tool timeout 2
         "Show me all speed cameras in zipcode 10036" false idle)
  = Ret (Some (PyDict
                 [ ("response", PyStr "There are 2 cameras in 10036.");
                   ("function_calls",
                    PyList [PyDict [ ("name", PyStr "get_cameras_by_zipcode");
                                     ("args",
                                      PyDict [("zipcode", PyStr "10036")]) ]]) ]))
  /\ fst (execute_function_call accepts timeout zipcode_call false idle)
     = Ret (PyDict [ ("success", PyBool false);
                     ("error", PyStr "Read timed out. (read timeout=10)");
                     ("zipcode", PyStr "10036") ]).
Proof. split; reflexivity. Qed.

(** C1 fails with tracing on a console that cannot encode the pictograph
    of the first line printed: the [UnicodeEncodeError] of that print, which
    is outside the [try] statement, leaves [chat_with_gemini]. *)
Lemma chat_with_gemini_raises :
  fst (chat_with_gemini cp1252_console one_tool two_cameras 2 question true idle)
  = Raise (mkExc OtherException
             "'charmap' codec can't encode character '\U0001f4ac' in position 0: character maps to <undefined>").
Proof. reflexivity. Qed.

Lemma chat_with_gemini_outcome_witness :
  (exists outcome,
      fst (chat_with_gemini accepts talks_first two_cameras 1 question true idle)
      = Ret (Some outcome))
  \/ (true = true
      /\ exists e n p,
           accepts n p = Some e
           /\ fst (chat_with_gemini accepts talks_first two_cameras 1 question
                     true idle)
              = Raise e).
Proof.
  apply (proj1 (proj2 (proj2 (proj2 (proj2
           (chat_with_gemini_outcome accepts talks_first two_cameras 1
              question true idle)))))
           0 (start question true idle)).
  - lia.
  - reflexivity.
  - reflexivity.
Defined.

(** C4.  An invocation of an unregistered tool is reported to the model and
    the loop goes on when the invocation carries an argument mapping: the
    call ends with the model's answer.  It is not when the arguments are
    [None]: the invocation passes the test of line 218 and
    [execute_function_call] would return the payload naming the tool, but
    the copy of the arguments of line 224 raises first, and the call ends
    with a terminal error after one call to the provider. *)
Lemma unknown_tool_without_args_ends_the_call :
  fst (chat_with_gemini accepts unknown_then_text two_cameras 5 question false idle)
  = Ret (Some (PyDict
                 [ ("response", PyStr "I cannot look that up.");
                   ("function_calls",
                    PyList [PyDict [ ("name", PyStr "get_weather");
                                     ("args",
                                      PyDict [("zipcode", PyStr "10036")]) ]]) ]))
  /\ tool_request (unknown_without_args 0 (messages (start question false idle)))
     = Some (mkContent "model" (Some [mkPart None (Some unknown_no_args_call) None]),
             unknown_no_args_call)
  /\ fst (execute_function_call accepts two_cameras unknown_no_args_call false idle)
     = Ret (PyDict [("error", PyStr "Function get_weather not found")])
  /\ fst (chat_with_gemini accepts unknown_without_args two_cameras 5 question
            false idle)
     = Ret (Some (PyDict
                    [ ("error",
                       PyStr "Unexpected error: 'NoneType' object is not iterable");
                      ("function_calls", PyList []) ]))
  /\ length (llm_log (snd (chat_with_gemini accepts unknown_without_args
                             two_cameras 5 question false idle)))
     = 1.
Proof. repeat split. Qed.

(** C3 fails on an invocation without the required parameter: the
    [TypeError] of the call leaves [execute_function_call]. *)
Lemma execute_function_call_raises :
  fst (execute_function_call accepts two_cameras bare_call false idle)
  = Raise (mkExc TypeError
             "get_cameras_by_zipcode() missing 1 required positional argument: 'zipcode'").
Proof. reflexivity. Qed.

Lemma execute_function_call_payload_witness :
  exists payload,
    fst (execute_function_call accepts timeout street_call false idle) = Ret payload
    /\ (success_payload (echo_of fn_search_cameras_by_street
                                 (fc_args street_call)) payload
        \/ failure_payload (echo_of fn_search_cameras_by_street
                                    (fc_args street_call)) payload).
Proof.
  apply (proj1 (proj2 (execute_function_call_payload timeout street_call
                         false idle)
                      fn_search_cameras_by_street eq_refl)).
  - eexists. split; [reflexivity|]. intros k. simpl. tauto.
  - reflexivity.
Defined.

Lemma success_payload_count_witness :
  exists cameras count,
    py_len cameras = inr count
    /\ PyDict [ ("success", PyBool true);
                ("zipcode", PyStr "10036");
                ("count", PyInt 2);
                ("cameras", PyList [camera; camera]) ]
       = PyDict [ ("success", PyBool true);
                  ("zipcode", PyStr "10036");
                  ("count", PyInt (Z.of_nat count));
                  ("cameras", cameras) ].
Proof.
  apply (proj1 (success_payload_count two_cameras) (PyStr "10036") idle
               (PyDict [ ("success", PyBool true);
                         ("zipcode", PyStr "10036");
                         ("count", PyInt 2);
                         ("cameras", PyList [camera; camera]) ])).
  - reflexivity.
  - reflexivity.
Defined.

(** C6 fails on the payload for an unregistered tool: it holds the error
    and none of the invocation's fields. *)
Lemma not_found_payload_has_no_echo :
  fst (execute_function_call accepts two_cameras unknown_call false idle)
  = Ret (PyDict [("error", PyStr "Function get_weather not found")])
  /\ ~ echoes (fc_args unknown_call)
              (PyDict [("error", PyStr "Function get_weather not found")]).
Proof.
  split; [reflexivity|].
  intros (d & E & H). injection E as <-.
  specialize (H "zipcode" (PyStr "10036") eq_refl). discriminate.
Qed.

Lemma execute_function_call_structured_witness :
  (exists f,
      registry_get available_functions (fc_name zipcode_call) = Some f
      /\ binds_exactly f (fc_args zipcode_call)
      /\ (success_payload (echo_of f (fc_args zipcode_call))
            (PyDict [ ("success", PyBool true);
                      ("zipcode", PyStr "10036");
                      ("count", PyInt 2);
                      ("cameras", PyList [camera; camera]) ])
          \/ failure_payload (echo_of f (fc_args zipcode_call))
               (PyDict [ ("success", PyBool true);
                         ("zipcode", PyStr "10036");
                         ("count", PyInt 2);
                         ("cameras", PyList [camera; camera]) ]))
      /\ echoes (fc_args zipcode_call)
           (PyDict [ ("success", PyBool true);
                     ("zipcode", PyStr "10036");
                     ("count", PyInt 2);
                     ("cameras", PyList [camera; camera]) ]))
  \/ (registry_get available_functions (fc_name zipcode_call) = None
      /\ PyDict [ ("success", PyBool true);
                  ("zipcode", PyStr "10036");
                  ("count", PyInt 2);
                  ("cameras", PyList [camera; camera]) ]
         = PyDict [("error",
                    PyStr ("Function " ++ fc_name zipcode_call ++ " not found"))]).
Proof.
  apply (execute_function_call_structured two_cameras zipcode_call true idle).
  reflexivity.
Defined.

(** C7 on a provider out of quota, and on one that refuses the request
    with a text that holds none of the markers. *)
Lemma rate_limit_outcome_witness :
  fst (chat_with_gemini accepts out_of_quota two_cameras 1 question false idle)
  = Ret (Some (PyDict
                 [ ("error", PyStr rate_limit_message);
                   ("error_details",
                    PyStr "429 RESOURCE_EXHAUSTED. Quota exceeded for the day.");
                   ("function_calls", PyList []) ]))
  /\ fst (chat_with_gemini accepts refuses two_cameras 1 question false idle)
     = Ret (Some (PyDict
                    [ ("error",
                       PyStr ("Gemini API Error: "
                              ++ "400 INVALID_ARGUMENT. Request contains an invalid argument."));
                      ("function_calls", PyList []) ])).
Proof.
  split.
  - apply (proj1 (rate_limit_outcome out_of_quota two_cameras question
                    false idle 0 (start question false idle)
                    (mkExc ClientError
                       "429 RESOURCE_EXHAUSTED. Quota exceeded for the day.")
                    eq_refl eq_refl eq_refl 1 (le_n 1))).
    left. reflexivity.
  - apply (proj1 (proj2 (rate_limit_outcome refuses two_cameras question
                           false idle 0 (start question false idle) bad_request
                           eq_refl eq_refl eq_refl 1 (le_n 1))));
      reflexivity.
Defined.

(** A model that requests a tool on every turn keeps the loop running. *)
Lemma always_requests_continues :
  forall fuel s,
    fst (while_true accepts always_requests two_cameras fuel false s) = Ret None.
Proof.
  induction fuel as [|fuel IH]; intros s; [reflexivity|].
  rewrite while_true_S.
  rewrite (turn_request accepts always_requests two_cameras false s
             (mkContent "model" (Some [mkPart None (Some zipcode_call) None]))
             zipcode_call [("zipcode", PyStr "10036")] eq_refl eq_refl).
  pose proof (execute_function_call_fst two_cameras zipcode_call false
                (executing zipcode_call s)) as F.
  destruct (execute_function_call accepts two_cameras zipcode_call false
              (executing zipcode_call s)) as [r t].
  simpl in F. subst r. apply IH.
Qed.

(** C8 fails: with such a model no number of passes makes the call
    return. *)
Lemma always_requests_never_returns :
  ~ exists fuel outcome,
      fst (chat_with_gemini accepts always_requests two_cameras fuel
             "Show me all speed cameras in zipcode 10036" false idle)
      = Ret (Some outcome).
Proof.
  intros (fuel & outcome & E).
  rewrite chat_with_gemini_run in E.
  destruct (guarded_loop accepts always_requests two_cameras fuel false
              (start "Show me all speed cameras in zipcode 10036" false idle))
    as [r s'] eqn:G.
  destruct (guarded_loop_spec always_requests two_cameras fuel false _ _ _ G)
    as (r0 & s0 & W & _ & _ & _ & _ & _ & ->).
  pose proof (always_requests_continues fuel
                (start "Show me all speed cameras in zipcode 10036" false idle))
    as N.
  rewrite W in N. simpl in N, E. subst r0. discriminate.
Qed.

Lemma chat_with_gemini_stops_witness :
  exists outcome s',
    (forall fuel, 0 < fuel ->
       chat_with_gemini accepts talks_first two_cameras fuel question false idle
       = (Ret (Some outcome), s'))
    /\ length (llm_log s') = length (llm_log idle) + 0 + 1.
Proof.
  apply (proj1 (chat_with_gemini_stops talks_first two_cameras question false idle)
               0 (start question false idle) eq_refl eq_refl).
Defined.

(** C10.  An invocation whose execution raises is in the list of
    invocations of the terminal error when it carries an argument mapping,
    be it empty.  It is not when its arguments are [None]: the invocation
    passes the test of line 218, the copy of the arguments of line 224
    raises before the entry is appended, and the list of the terminal error
    does not hold it. *)
Lemma invocation_without_args_is_not_recorded :
  fst (chat_with_gemini accepts bare_request two_cameras 1 question false idle)
  = Ret (Some (PyDict
                 [ ("error",
                    PyStr ("Unexpected error: "
                           ++ "get_cameras_by_zipcode() missing 1 required positional argument: 'zipcode'"));
                   ("function_calls",
                    PyList [PyDict [ ("name", PyStr "get_cameras_by_zipcode");
                                     ("args", PyDict []) ]]) ]))
  /\ tool_request (forgets_args 0 (messages (start question false idle)))
     = Some (mkContent "model" (Some [mkPart None (Some no_args_call) None]),
             no_args_call)
  /\ fst (chat_with_gemini accepts forgets_args two_cameras 1 question false idle)
     = Ret (Some (PyDict
                    [ ("error",
                       PyStr "Unexpected error: 'NoneType' object is not iterable");
                      ("function_calls", PyList []) ])).
Proof. repeat split. Qed.

(** C9 fails on the same console: with tracing the call raises before the
    provider is called; without, it returns the answer. *)
Lemma tracing_changes_the_call :
  chat_with_gemini cp1252_console one_tool two_cameras 2 question true idle
  = (Raise (mkExc OtherException
              "'charmap' codec can't encode character '\U0001f4ac' in position 0: character maps to <undefined>"),
     idle)
  /\ fst (chat_with_gemini cp1252_console one_tool two_cameras 2 question false idle)
     = Ret (Some (PyDict
                    [ ("response", PyStr "There are 2 cameras in 10036.");
                      ("function_calls",
                       PyList [PyDict [ ("name", PyStr "get_cameras_by_zipcode");
                                        ("args",
                                         PyDict [("zipcode", PyStr "10036")]) ]]) ])).
Proof. split; reflexivity. Qed.

End Checks.

(** * Further properties *)

(** ** Requests, calls and turns *)

Section Counting.

Variable llm : nat -> list Content -> ProviderReply.
Variable api : nat -> HttpRequest -> HttpReply.

Lemma execute_requests_bound (function_call : FunctionCall) :
  length (execute_requests function_call) <= 1
  /\ Forall (fun request => req_timeout request = 10%Z)
            (execute_requests function_call).
Proof.
  unfold execute_requests.
  destruct (registry_get available_functions (fc_name function_call)) as [f|];
    [|simpl; auto].
  destruct (expand_keywords (fn_name f) (fn_params f) (fc_args function_call));
    [simpl; auto|].
  split; [simpl; lia|]. constructor; [destruct f; reflexivity|constructor].
Qed.

(** X1.  [execute_function_call] sends one request, with the ten-second
    time-out, when the tool is registered and the argument mapping binds its
    parameters, whatever the camera API then answers; it sends none when the
    tool is not registered or the arguments do not bind. *)
Theorem execute_function_call_requests (function_call : FunctionCall)
        (verbose : bool) (s : State) :
  let s' := snd (execute_function_call accepts api function_call verbose s) in
  (registry_get available_functions (fc_name function_call) = None ->
   http_log s' = http_log s)
  /\ (forall f,
        registry_get available_functions (fc_name function_call) = Some f ->
        (binds_exactly f (fc_args function_call) ->
         http_log s' = (http_log s ++ [request_of f (fc_args function_call)])%list
         /\ req_timeout (request_of f (fc_args function_call)) = 10%Z)
        /\ (~ binds_exactly f (fc_args function_call) ->
            http_log s' = http_log s)).
Proof.
  intros s'. subst s'.
  destruct (execute_function_call_snd api function_call verbose s)
    as (_ & _ & _ & H & _).
  rewrite H. unfold execute_requests.
  split; [intros ->; apply app_nil_r|].
  intros f ->. split.
  - intros B. apply expand_keywords_ok in B. rewrite B.
    split; [reflexivity|destruct f; reflexivity].
  - intros N.
    destruct (expand_keywords (fn_name f) (fn_params f) (fc_args function_call))
      as [e|[]] eqn:B; [apply app_nil_r|].
    apply expand_keywords_ok in B. contradiction.
Qed.

(** What one pass adds to the logs, the record and the conversation. *)
Lemma turn_counts (verbose : bool) (s : State) :
  forall r s', turn accepts llm api verbose s = (r, s') ->
  length (llm_log s') = length (llm_log s) + 1
  /\ match r with
     | Ret None =>
         length (function_calls_made s') = length (function_calls_made s) + 1
         /\ length (messages s') = length (messages s) + 2
         /\ length (http_log s') <= length (http_log s) + 1
         /\ length (http_log s) <= length (http_log s')
     | Ret (Some _) =>
         length (function_calls_made s') = length (function_calls_made s)
         /\ length (messages s') = length (messages s)
         /\ length (http_log s') = length (http_log s)
     | Raise _ =>
         length (messages s') = length (messages s)
         /\ length (function_calls_made s) <= length (function_calls_made s')
         /\ length (function_calls_made s') <= length (function_calls_made s) + 1
         /\ length (http_log s) <= length (http_log s')
         /\ length (http_log s') + length (function_calls_made s)
            <= length (http_log s) + length (function_calls_made s')
     end.
Proof.
  intros r s' T.
  destruct (turn_spec accepts llm api verbose s _ _ T) as (L & _ & _).
  split; [rewrite L, length_app; reflexivity|].
  destruct (tool_request (reply_in llm s)) as [[ct fc]|] eqn:Q.
  - destruct (fc_args fc) as [kwargs|] eqn:A.
    + rewrite (turn_request accepts llm api verbose s ct fc kwargs Q A) in T.
      pose proof (execute_function_call_snd api fc verbose (executing fc s))
        as (Hm & Hc & _ & Hh & _).
      destruct (execute_requests_bound fc) as [B _].
      destruct (execute_function_call accepts api fc verbose (executing fc s))
        as [[payload|e] t]; simpl in *; injection T as <- <-; simpl;
        rewrite ?Hm, ?Hc, ?Hh, ?length_app; simpl; lia.
    + rewrite (turn_unrecorded accepts llm api verbose s ct fc Q A) in T.
      injection T as <- <-. simpl. lia.
  - destruct (turn_stop accepts llm api verbose s Q) as (r0 & out & E & _ & R).
    rewrite E in T. injection T as <- <-. simpl.
    destruct r0 as [[o|]|e]; [lia|contradiction|lia].
Qed.

(** The counts when the loop is left, from a state in which every pass so
    far executed a tool. *)
Lemma while_true_counts (verbose : bool) :
  forall fuel s r s',
    while_true accepts llm api fuel verbose s = (r, s') ->
    length (llm_log s') <= length (llm_log s) + fuel
    /\ length (llm_log s) <= length (llm_log s')
    /\ length (http_log s) <= length (http_log s')
    /\ length (function_calls_made s) <= length (function_calls_made s')
    /\ length (http_log s') + length (function_calls_made s)
       <= length (http_log s) + length (function_calls_made s')
    /\ length (function_calls_made s') + length (llm_log s)
       <= length (function_calls_made s) + length (llm_log s')
    /\ length (llm_log s') + length (function_calls_made s)
       <= length (llm_log s) + length (function_calls_made s') + 1
    /\ match r with
       | Ret None =>
           length (llm_log s') = length (llm_log s) + fuel
           /\ length (function_calls_made s')
              = length (function_calls_made s) + fuel
           /\ length (messages s') = length (messages s) + 2 * fuel
       | Ret (Some _) =>
           length (llm_log s') + length (function_calls_made s)
           = length (llm_log s) + length (function_calls_made s') + 1
           /\ length (messages s') + 2 * length (function_calls_made s)
              = length (messages s) + 2 * length (function_calls_made s')
       | Raise _ => True
       end.
Proof.
  induction fuel as [|fuel IH]; intros s r s' W.
  - injection W as <- <-. repeat split; lia.
  - rewrite while_true_S in W.
    destruct (turn accepts llm api verbose s) as [r1 s1] eqn:T.
    destruct (turn_counts verbose s _ _ T) as (L & C).
    destruct r1 as [[o|]|e].
    + injection W as <- <-. repeat split; lia.
    + destruct (IH s1 r s' W) as (A1 & A2 & A3 & A4 & A5 & A6 & A7 & A8).
      repeat split; try lia. destruct r as [[o|]|e]; [lia|lia|exact I].
    + injection W as <- <-. repeat split; lia.
Qed.

(** X2.  A call makes at most one provider call per pass; it executes at most
    one tool per provider call and sends at most one request per tool; every
    provider call but perhaps the last led to a tool.  A final answer after
    [n] invocations took [n + 1] provider calls and leaves [1 + 2 n] turns. *)
Theorem calls_and_turns (fuel : nat) (user_message : string) (verbose : bool)
        (s : State) :
  let r := fst (chat_with_gemini accepts llm api fuel user_message verbose s) in
  let s' := snd (chat_with_gemini accepts llm api fuel user_message verbose s) in
  let provider_calls := length (llm_log s') - length (llm_log s) in
  let requests := length (http_log s') - length (http_log s) in
  let invocations := length (function_calls_made s') in
  length (llm_log s) <= length (llm_log s')
  /\ length (http_log s) <= length (http_log s')
  /\ provider_calls <= fuel
  /\ requests <= invocations
  /\ invocations <= provider_calls
  /\ provider_calls <= invocations + 1
  /\ (forall outcome,
        r = Ret (Some outcome) -> has_key outcome "response" = true ->
        provider_calls = invocations + 1
        /\ length (messages s') = 1 + 2 * invocations).
Proof.
  intros r s' p h c. subst r s' p h c. rewrite chat_with_gemini_run.
  destruct (guarded_loop accepts llm api fuel verbose (start user_message verbose s))
    as [r s'] eqn:G.
  destruct (guarded_loop_spec llm api fuel verbose _ _ _ G)
    as (r0 & s0 & W & Hm & Hc & Hl & Hh & _ & ->).
  destruct (while_true_counts verbose fuel _ _ _ W)
    as (A1 & A2 & A3 & A4 & A5 & A6 & A7 & A8).
  simpl in *. rewrite Hm, Hc, Hl, Hh.
  do 6 (split; [lia|]).
  intros outcome E K. destruct r0 as [[o|]|e]; try discriminate.
  - lia.
  - injection E as <-.
    destruct (except_outcome_terminal e (function_calls_made s0))
      as (_ & _ & N & _).
    rewrite N in K. discriminate.
Qed.

End Counting.

(** ** Invocations *)

Section Invocations.

Variable write : nat -> Printed -> option Exc.
Variable llm : nat -> list Content -> ProviderReply.
Variable api : nat -> HttpRequest -> HttpReply.



End Invocations.

(** ** Replies that are not tool requests *)

Section Replies.

Variable llm : nat -> list Content -> ProviderReply.
Variable api : nat -> HttpRequest -> HttpReply.

(** X3.  Only the first part of the first candidate is looked at.  When it holds
    no function call, whatever the other parts and candidates hold, the
    call returns the final answer with the response's text: no tool is
    executed, nothing is recorded and no request is sent in that pass. *)
Theorem first_part_decides (user_message : string) (verbose : bool) (s : State)
        (k : nat) (s1 : State) (response : GenerateContentResponse)
        (candidate : Candidate) (others : list Candidate)
        (model_content : Content) (part : Part) (more : list Part) :
  continues accepts llm api k verbose (start user_message verbose s) = Some s1 ->
  reply_in llm s1 = ProviderReturns response ->
  candidates response = Some (candidate :: others) ->
  content candidate = Some model_content ->
  parts model_content = Some (part :: more) ->
  part_function_call part = None ->
  forall fuel, k < fuel ->
    fst (chat_with_gemini accepts llm api fuel user_message verbose s)
    = Ret (Some (PyDict [ ("response", py_opt_str (text response));
                          ("function_calls",
                           PyList (function_calls_made s1)) ]))
    /\ http_log (snd (chat_with_gemini accepts llm api fuel user_message verbose s))
       = http_log s1
    /\ messages (snd (chat_with_gemini accepts llm api fuel user_message verbose s))
       = messages s1.
Proof.
  intros C R Hc Hn Hp Hf fuel Hk.
  replace fuel with (k + S (fuel - S k)) by lia.
  rewrite (continues_chat llm api user_message verbose _ k s s1 C).
  unfold guarded_loop, try_except. rewrite while_true_S.
  unfold reply_in in R.
  unfold turn, bind, call_model. rewrite R. simpl. rewrite Hc. simpl.
  unfold content_of. rewrite Hn. simpl. rewrite Hp. simpl. rewrite Hf.
  destruct verbose; simpl; auto.
Qed.

(** The outcome of the pass started in [s1] when the provider's reply
    cannot be read: the exception the pass raises is answered by the
    [except Exception] clause. *)
Lemma unreadable_reply (user_message : string) (verbose : bool) (s : State)
      (k : nat) (s1 : State) (e : Exc) (t : State) :
  continues accepts llm api k verbose (start user_message verbose s) = Some s1 ->
  turn accepts llm api verbose s1 = (Raise e, t) ->
  function_calls_made t = function_calls_made s1 ->
  forall fuel, k < fuel ->
    fst (chat_with_gemini accepts llm api fuel user_message verbose s)
    = Ret (Some (except_outcome e (function_calls_made s1))).
Proof.
  intros C T Hc fuel Hk.
  replace fuel with (k + S (fuel - S k)) by lia.
  rewrite (continues_chat llm api user_message verbose _ k s s1 C).
  rewrite (guarded_loop_raise llm api verbose _ s1 t e T), Hc. reflexivity.
Qed.

(** X4.  A response whose candidates are missing or empty, whose first
    candidate has no content, or whose content has parts missing or empty,
    ends the call with the terminal error of the exception the subscript or
    the attribute access raises, and the invocations recorded so far. *)
Theorem empty_response_is_terminal (user_message : string) (verbose : bool)
        (s : State) (k : nat) (s1 : State) (response : GenerateContentResponse) :
  continues accepts llm api k verbose (start user_message verbose s) = Some s1 ->
  reply_in llm s1 = ProviderReturns response ->
  forall fuel, k < fuel ->
    (candidates response = Some [] ->
     fst (chat_with_gemini accepts llm api fuel user_message verbose s)
     = Ret (Some (PyDict
                    [ ("error",
                       PyStr "Unexpected error: list index out of range");
                      ("function_calls", PyList (function_calls_made s1)) ])))
    /\ (candidates response = None ->
        fst (chat_with_gemini accepts llm api fuel user_message verbose s)
        = Ret (Some (PyDict
                       [ ("error",
                          PyStr "Unexpected error: 'NoneType' object is not subscriptable");
                         ("function_calls", PyList (function_calls_made s1)) ])))
    /\ (forall candidate others,
          candidates response = Some (candidate :: others) ->
          content candidate = None ->
          fst (chat_with_gemini accepts llm api fuel user_message verbose s)
          = Ret (Some (PyDict
                         [ ("error",
                            PyStr "Unexpected error: 'NoneType' object has no attribute 'parts'");
                           ("function_calls",
                            PyList (function_calls_made s1)) ])))
    /\ (forall candidate others model_content,
          candidates response = Some (candidate :: others) ->
          content candidate = Some model_content ->
          parts model_content = Some [] ->
          fst (chat_with_gemini accepts llm api fuel user_message verbose s)
          = Ret (Some (PyDict
                         [ ("error",
                            PyStr "Unexpected error: list index out of range");
                           ("function_calls",
                            PyList (function_calls_made s1)) ])))
    /\ (forall candidate others model_content,
          candidates response = Some (candidate :: others) ->
          content candidate = Some model_content ->
          parts model_content = None ->
          fst (chat_with_gemini accepts llm api fuel user_message verbose s)
          = Ret (Some (PyDict
                         [ ("error",
                            PyStr "Unexpected error: 'NoneType' object is not subscriptable");
                           ("function_calls",
                            PyList (function_calls_made s1)) ]))).
Proof.
  intros C R fuel Hk. unfold reply_in in R.
  split; [|split; [|split; [|split]]].
  - intros Hc.
    apply (unreadable_reply user_message verbose s k s1
             (mkExc IndexError "list index out of range") (called s1) C); auto.
    unfold turn, bind, call_model. rewrite R. simpl. rewrite Hc. reflexivity.
  - intros Hc.
    apply (unreadable_reply user_message verbose s k s1
             (mkExc TypeError "'NoneType' object is not subscriptable")
             (called s1) C); auto.
    unfold turn, bind, call_model. rewrite R. simpl. rewrite Hc. reflexivity.
  - intros candidate others Hc Hn.
    apply (unreadable_reply user_message verbose s k s1
             (mkExc AttributeError "'NoneType' object has no attribute 'parts'")
             (called s1) C); auto.
    unfold turn, bind, call_model. rewrite R. simpl. rewrite Hc. simpl.
    unfold content_of. rewrite Hn. reflexivity.
  - intros candidate others model_content Hc Hn Hp.
    apply (unreadable_reply user_message verbose s k s1
             (mkExc IndexError "list index out of range") (called s1) C); auto.
    unfold turn, bind, call_model. rewrite R. simpl. rewrite Hc. simpl.
    unfold content_of. rewrite Hn. simpl. rewrite Hp. reflexivity.
  - intros candidate others model_content Hc Hn Hp.
    apply (unreadable_reply user_message verbose s k s1
             (mkExc TypeError "'NoneType' object is not subscriptable")
             (called s1) C); auto.
    unfold turn, bind, call_model. rewrite R. simpl. rewrite Hc. simpl.
    unfold content_of. rewrite Hn. simpl. rewrite Hp. reflexivity.
Qed.

(** X5.  The rate-limit test is applied to a [ClientError] only.  Any other
    exception the provider raises, whatever its text, gives the mapping of
    the [except Exception] clause, without [error_details]. *)
Theorem other_provider_errors (user_message : string) (verbose : bool)
        (s : State) (k : nat) (s1 : State) (e : Exc) :
  continues accepts llm api k verbose (start user_message verbose s) = Some s1 ->
  reply_in llm s1 = ProviderRaises e ->
  is_ClientError e = false ->
  forall fuel, k < fuel ->
    fst (chat_with_gemini accepts llm api fuel user_message verbose s)
    = Ret (Some (PyDict [ ("error", PyStr ("Unexpected error: " ++ exc_str e));
                          ("function_calls",
                           PyList (function_calls_made s1)) ])).
Proof.
  intros C R N fuel Hk.
  rewrite (unreadable_reply user_message verbose s k s1 e _ C
             (turn_raises accepts llm api verbose s1 e R) eq_refl fuel Hk).
  unfold except_outcome. rewrite N. reflexivity.
Qed.

(** X6.  Each call starts its conversation anew: the turns and the invocations
    a state holds from an earlier call play no part, and the first
    conversation sent to the provider is the user's turn alone. *)
Theorem conversation_starts_anew (fuel : nat) (user_message : string)
        (verbose : bool) (s : State) :
  chat_with_gemini accepts llm api fuel user_message verbose s
  = chat_with_gemini accepts llm api fuel user_message verbose
      (mkState [] [] (llm_log s) (http_log s) (stdout s))
  /\ (0 < fuel ->
      exists rest,
        llm_log (snd (chat_with_gemini accepts llm api fuel user_message verbose s))
        = (llm_log s
           ++ [mkContent "user" (Some [mkPart (Some user_message) None None])]
              :: rest)%list).
Proof.
  split; [rewrite !chat_with_gemini_run; reflexivity|].
  intros Hf. rewrite chat_with_gemini_run.
  destruct (guarded_loop accepts llm api fuel verbose (start user_message verbose s))
    as [r s'] eqn:G.
  destruct (guarded_loop_spec llm api fuel verbose _ _ _ G)
    as (r0 & s0 & W & _ & _ & Hl & _).
  simpl. rewrite Hl. destruct fuel as [|fuel]; [lia|].
  rewrite while_true_S in W.
  destruct (turn accepts llm api verbose (start user_message verbose s))
    as [r1 s1] eqn:T.
  destruct (turn_spec accepts llm api verbose _ _ _ T) as (L & _).
  assert (M : exists rest, llm_log s0 = (llm_log s1 ++ rest)%list).
  { destruct r1 as [[o|]|e].
    - injection W as <- <-. exists []. symmetry. apply app_nil_r.
    - set (P := fun t : State => exists rest, llm_log t = (llm_log s1 ++ rest)%list).
      apply (while_true_invariant accepts llm api P verbose) with (fuel := fuel)
        (s := s1) (r := r0); [|exists []; symmetry; apply app_nil_r|exact W].
      intros t r2 t' (rest & E) T2.
      destruct (turn_spec accepts llm api verbose _ _ _ T2) as (L2 & _).
      exists (rest ++ [messages t])%list. rewrite L2, E, app_assoc. reflexivity.
    - injection W as <- <-. exists []. symmetry. apply app_nil_r. }
  destruct M as (rest & ->). rewrite L. simpl. exists rest.
  rewrite <- app_assoc. reflexivity.
Qed.

End Replies.

(** ** Failures of the camera API *)

Section Failures.

Variable llm : nat -> list Content -> ProviderReply.
Variable api : nat -> HttpRequest -> HttpReply.

(** What the [except RequestException] clause of a handler returns. *)
Lemma caught_request_exception (echo : Dict) (e : Exc) :
  is_RequestException e = true ->
  caught echo e
  = Ret (PyDict (("success", PyBool false) :: ("error", PyStr (exc_str e)) :: echo)).
Proof. unfold caught. intros ->. reflexivity. Qed.

(** X7.  A [RequestException] at any of the three steps of a handler (the
    request, the status check, the decoding of the body) does not end the
    conversation: the pass appends the result turn carrying
    [success = False] and the exception's text, and the loop goes on. *)
Theorem transport_failure_is_reported (verbose : bool) (s : State)
        (model_content : Content) (function_call : FunctionCall)
        (f : PyFunction) (e : Exc) :
  tool_request (reply_in llm s) = Some (model_content, function_call) ->
  registry_get available_functions (fc_name function_call) = Some f ->
  binds_exactly f (fc_args function_call) ->
  is_RequestException e = true ->
  (api (length (http_log s)) (request_of f (fc_args function_call)) = GetRaises e
   \/ (exists r,
          api (length (http_log s)) (request_of f (fc_args function_call))
          = GetReturns r
          /\ (raise_for_status r = Some e
              \/ (raise_for_status r = None /\ json r = inl e)))) ->
  exists s',
    turn accepts llm api verbose s = (Ret None, s')
    /\ messages s'
       = (messages s
          ++ [model_content;
              function_response_turn (fc_name function_call)
                (PyDict (("success", PyBool false)
                         :: ("error", PyStr (exc_str e))
                         :: echo_of f (fc_args function_call)))])%list
    /\ (forall fuel,
           guarded_loop accepts llm api (S fuel) verbose s
           = guarded_loop accepts llm api fuel verbose s').
Proof.
  intros Q R B Re A.
  destruct B as (kwargs & Ka & Kb).
  assert (B : binds_exactly f (fc_args function_call))
    by (exists kwargs; auto).
  assert (X : fst (execute_function_call accepts api function_call verbose
                     (executing function_call s))
              = Ret (PyDict (("success", PyBool false)
                             :: ("error", PyStr (exc_str e))
                             :: echo_of f (fc_args function_call)))).
  { rewrite execute_function_call_fst. unfold execute_result. rewrite R.
    apply expand_keywords_ok in B. rewrite B. simpl.
    unfold handler_result.
    destruct A as [-> | (r & -> & [St | (St & J)])].
    - apply caught_request_exception, Re.
    - rewrite St. apply caught_request_exception, Re.
    - rewrite St, J. apply caught_request_exception, Re. }
  destruct (turn accepts llm api verbose s) as [r s'] eqn:T.
  pose proof (turn_spec accepts llm api verbose s _ _ T) as (_ & _ & Sp).
  pose proof T as T'.
  rewrite (turn_request accepts llm api verbose s _ _ kwargs Q Ka) in T'.
  destruct (execute_function_call accepts api function_call verbose
              (executing function_call s)) as [r1 s1].
  simpl in X. subst r1. injection T' as <- _.
  destruct Sp as (ct & fc & payload & Q' & X' & M & _).
  rewrite Q in Q'. injection Q' as <- <-.
  rewrite execute_function_call_fst in X'. unfold execute_result in X'.
  rewrite R in X'.
  pose proof B as B'. apply expand_keywords_ok in B'. rewrite B' in X'.
  simpl in X'.
  assert (P : payload = PyDict (("success", PyBool false)
                                :: ("error", PyStr (exc_str e))
                                :: echo_of f (fc_args function_call))).
  { unfold handler_result in X'.
    destruct A as [G | (r & G & [St | (St & J)])]; rewrite G in X'.
    - rewrite (caught_request_exception _ e Re) in X'. congruence.
    - rewrite St, (caught_request_exception _ e Re) in X'. congruence.
    - rewrite St, J, (caught_request_exception _ e Re) in X'. congruence. }
  exists s'. split; [reflexivity|]. split.
  - rewrite M, P. reflexivity.
  - intros fuel. apply guarded_loop_continue, T.
Qed.

(** X8.  No [RequestException] leaves [execute_function_call]: what it raises
    is the [TypeError] of a call whose arguments do not bind, or an
    exception of another class from the camera API or from [len]. *)
Theorem no_request_exception_escapes (function_call : FunctionCall)
        (verbose : bool) (s : State) (e : Exc) :
  fst (execute_function_call accepts api function_call verbose s) = Raise e ->
  is_RequestException e = false
  /\ exists f,
       registry_get available_functions (fc_name function_call) = Some f
       /\ (binds_exactly f (fc_args function_call)
           \/ exc_class e = TypeError).
Proof.
  rewrite execute_function_call_fst. unfold execute_result.
  destruct (registry_get available_functions (fc_name function_call)) as [f|];
    [|discriminate].
  destruct (expand_keywords (fn_name f) (fn_params f) (fc_args function_call))
    as [e'|[]] eqn:B.
  - intros [= ->]. pose proof (expand_keywords_raises _ _ _ _ B) as Cl.
    split; [unfold is_RequestException; rewrite Cl; reflexivity|].
    exists f. auto.
  - apply expand_keywords_ok in B. intros H.
    assert (C : forall x, caught (echo_of f (fc_args function_call)) x = Raise e ->
                  is_RequestException e = false).
    { intros x. unfold caught. destruct (is_RequestException x) eqn:Rx;
        [discriminate|]. intros [= <-]. exact Rx. }
    split; [|exists f; auto].
    unfold handler_result in H.
    destruct (api _ _) as [r|x]; [|apply (C x H)].
    destruct (raise_for_status r) as [x|]; [apply (C x H)|].
    destruct (json r) as [x|cameras]; [apply (C x H)|].
    destruct (py_len cameras) as [x|count]; [apply (C x H)|discriminate].
Qed.

(** X9.  A body that has no length ([null], a number, a boolean) is not
    handled: [len] raises a [TypeError], which leaves the handler and
    [execute_function_call], and the call ends with the terminal error of
    the [except Exception] clause, the invocation recorded. *)
Theorem unsized_body_is_terminal (user_message : string) (verbose : bool)
        (s : State) (k : nat) (s1 : State) (model_content : Content)
        (function_call : FunctionCall) (f : PyFunction) (r : HttpResponse)
        (cameras : PyVal) (e : Exc) :
  continues accepts llm api k verbose (start user_message verbose s) = Some s1 ->
  tool_request (reply_in llm s1) = Some (model_content, function_call) ->
  registry_get available_functions (fc_name function_call) = Some f ->
  binds_exactly f (fc_args function_call) ->
  api (length (http_log s1)) (request_of f (fc_args function_call))
  = GetReturns r ->
  raise_for_status r = None ->
  json r = inr cameras ->
  py_len cameras = inl e ->
  exc_class e = TypeError
  /\ forall fuel, k < fuel ->
       fst (chat_with_gemini accepts llm api fuel user_message verbose s)
       = Ret (Some (PyDict
                      [ ("error", PyStr ("Unexpected error: " ++ exc_str e));
                        ("function_calls",
                         PyList (function_calls_made s1
                                 ++ [call_record function_call])) ])).
Proof.
  intros C Q R B G St J L.
  assert (Cl : exc_class e = TypeError)
    by (destruct cameras; simpl in L; try discriminate;
        injection L as <-; reflexivity).
  split; [exact Cl|]. intros fuel Hk.
  destruct B as (kwargs & Ka & Kb).
  assert (B : binds_exactly f (fc_args function_call))
    by (exists kwargs; auto).
  pose proof (turn_request accepts llm api verbose s1 _ _ kwargs Q Ka) as T.
  pose proof (execute_function_call_fst api function_call verbose
                (executing function_call s1)) as F.
  pose proof (execute_function_call_snd api function_call verbose
                (executing function_call s1)) as (_ & Hc & _).
  unfold execute_result in F. rewrite R in F.
  apply expand_keywords_ok in B. rewrite B in F. simpl in F.
  rewrite G in F. unfold handler_result in F. rewrite St, J, L in F.
  unfold caught, is_RequestException in F. rewrite Cl in F.
  destruct (execute_function_call accepts api function_call verbose
              (executing function_call s1)) as [r1 t].
  simpl in F, Hc. subst r1.
  replace fuel with (k + S (fuel - S k)) by lia.
  rewrite (continues_chat llm api user_message verbose _ k s s1 C).
  rewrite (guarded_loop_raise llm api verbose _ s1 t e T), Hc.
  unfold except_outcome, is_ClientError. rewrite Cl. reflexivity.
Qed.

End Failures.

(** ** The web front end *)

Section WebProperties.

Variable llm : nat -> list Content -> ProviderReply.
Variable api : nat -> HttpRequest -> HttpReply.

Lemma except_outcome_error (e : Exc) (calls : list PyVal) :
  exists d error,
    except_outcome e calls = PyDict d /\ dict_get d "error" = Some (PyStr error).
Proof.
  unfold except_outcome, rate_limited_outcome, error_outcome.
  destruct (is_ClientError e); [destruct (is_rate_limit (exc_str e))|];
    eexists; eexists; split; reflexivity.
Qed.

(** [/chat] on a body whose message is not blank: the reply is the outcome
    of [chat_with_gemini] on the stripped message, traced to nobody, under
    the status the outcome's [error] field decides. *)
Lemma chat_forward (d : Dict) (m : string) (fuel : nat) (s : State) :
  dict_get d "message" = Some (PyStr m) ->
  strip m <> EmptyString ->
  exists o,
    fst (chat_with_gemini accepts llm api fuel (strip m) false s) = Ret o
    /\ chat accepts llm api (inr (PyDict d)) fuel s
       = (Ret (option_map (fun outcome => mkReply outcome (status_for outcome)) o),
          snd (chat_with_gemini accepts llm api fuel (strip m) false s)).
Proof.
  intros Hm Hs. unfold chat, try_except, bind, lift, get_message, str_strip.
  simpl. rewrite Hm. simpl.
  destruct (strip m) as [|a rest] eqn:St; [congruence|].
  destruct (chat_with_gemini accepts llm api fuel (String a rest) false s)
    as [r s'] eqn:G.
  destruct (chat_with_gemini_result llm api fuel _ false s _ _ G)
    as [-> | [(t & ->) | (e & ->)]]; simpl.
  - exists None. auto.
  - eexists. split; [reflexivity|]. reflexivity.
  - destruct (except_outcome_error e (function_calls_made s'))
      as (d' & error & E & K).
    eexists. split; [reflexivity|]. rewrite E. simpl. rewrite K. simpl.
    unfold status_for. simpl. rewrite K. reflexivity.
Qed.


(** A request that carries no question is answered at once, 400 or 500,
    with an error. *)
Lemma chat_without_question (request_json : Exc + PyVal) (fuel : nat) (s : State) :
  question_of request_json = None ->
  exists text status,
    fst (chat accepts llm api request_json fuel s)
    = Ret (Some (mkReply (PyDict [("error", PyStr text)]) status))
    /\ (status = 400 \/ status = 500)%Z.
Proof.
  unfold question_of, chat, try_except, bind, lift, get_message, str_strip,
    attribute_error.
  destruct request_json as [e|data]; [intros _; simpl; eauto|].
  destruct data as [| | | | |l|d]; try solve [intros _; simpl; eauto].
  simpl. destruct (dict_get d "message") as [v|]; [|intros _; simpl; eauto].
  destruct v as [| | | |m| |]; try solve [intros _; simpl; eauto].
  simpl. destruct (strip m) as [|a rest]; [|discriminate].
  intros _. simpl. eauto.
Qed.

(** A request that carries one is an object whose message is a string that
    is not blank. *)
Lemma question_of_some (request_json : Exc + PyVal) (user_message : string) :
  question_of request_json = Some user_message ->
  exists d m,
    request_json = inr (PyDict d)
    /\ dict_get d "message" = Some (PyStr m)
    /\ strip m = user_message
    /\ strip m <> EmptyString.
Proof.
  unfold question_of.
  destruct request_json as [e|[| | | | |l|d]]; try discriminate.
  destruct (dict_get d "message") as [[| | | |m| |]|] eqn:Hm; try discriminate.
  destruct (strip m) as [|a rest] eqn:St; [discriminate|].
  intros [= <-]. exists d, m. rewrite St. repeat split; auto. discriminate.
Qed.

(** X10.  A request without a message, or with a message that is empty once
    stripped, is answered 400 at once: the provider is not called, no
    request is sent and nothing is printed. *)
Theorem chat_blank_message (d : Dict) (fuel : nat) (s : State) :
  dict_get d "message" = None
  \/ (exists m, dict_get d "message" = Some (PyStr m) /\ strip m = EmptyString) ->
  chat accepts llm api (inr (PyDict d)) fuel s
  = (Ret (Some (mkReply (PyDict [("error", PyStr "Message is required")]) 400)),
     s).
Proof.
  unfold chat, try_except, bind, lift, get_message, str_strip.
  intros [Hm | (m & Hm & St)]; simpl; rewrite Hm; simpl.
  - reflexivity.
  - rewrite St. reflexivity.
Qed.

(** X11.  A request that cannot be read is answered 500 with the text of the
    exception, which is printed; the provider is not called.  So it is when
    [request.json] raises, when the body is not an object, and when the
    message is not a string. *)
Theorem chat_bad_request (fuel : nat) (s : State) :
  (forall e,
      chat accepts llm api (inl e) fuel s
      = (Ret (Some (mkReply (PyDict [("error", PyStr (exc_str e))]) 500)),
         mkState (messages s) (function_calls_made s) (llm_log s) (http_log s)
                 (stdout s ++ [PrintLine ("Error: " ++ exc_str e)])))
  /\ (forall data,
        (forall d, data <> PyDict d) ->
        chat accepts llm api (inr data) fuel s
        = (Ret (Some (mkReply
                        (PyDict [("error",
                                  PyStr ("'" ++ type_name data
                                         ++ "' object has no attribute 'get'"))])
                        500)),
           mkState (messages s) (function_calls_made s) (llm_log s) (http_log s)
                   (stdout s
                    ++ [PrintLine ("Error: '" ++ type_name data
                                   ++ "' object has no attribute 'get'")])))
  /\ (forall d v,
        dict_get d "message" = Some v ->
        (forall m, v <> PyStr m) ->
        chat accepts llm api (inr (PyDict d)) fuel s
        = (Ret (Some (mkReply
                        (PyDict [("error",
                                  PyStr ("'" ++ type_name v
                                         ++ "' object has no attribute 'strip'"))])
                        500)),
           mkState (messages s) (function_calls_made s) (llm_log s) (http_log s)
                   (stdout s
                    ++ [PrintLine ("Error: '" ++ type_name v
                                   ++ "' object has no attribute 'strip'")]))).
Proof.
  unfold chat, try_except, bind, lift, get_message, str_strip, attribute_error.
  split; [|split].
  - intros e. reflexivity.
  - intros data N. destruct data; try reflexivity. exfalso. eapply N; eauto.
  - intros d v Hm N. simpl. rewrite Hm.
    destruct v; try reflexivity. exfalso. eapply N; eauto.
Qed.

(** X12.  A message that is not blank is passed on, stripped, to
    [chat_with_gemini] without tracing, and the outcome is the body of the
    reply: under status 200 when it has no [error], under 429 when its
    [error] holds the words rate limit in any case, under 500 otherwise. *)
Theorem chat_forwards (d : Dict) (m : string) (fuel : nat) (s : State)
        (outcome : PyVal) :
  dict_get d "message" = Some (PyStr m) ->
  strip m <> EmptyString ->
  fst (chat_with_gemini accepts llm api fuel (strip m) false s) = Ret (Some outcome) ->
  exists status,
    chat accepts llm api (inr (PyDict d)) fuel s
    = (Ret (Some (mkReply outcome status)),
       snd (chat_with_gemini accepts llm api fuel (strip m) false s))
    /\ (field outcome "error" = None -> status = 200%Z)
    /\ (forall error,
          field outcome "error" = Some (PyStr error) ->
          status = if contains (lower error) "rate limit" then 429%Z else 500%Z).
Proof.
  intros Hm Hs G.
  destruct (chat_forward d m fuel s Hm Hs) as (o & E & C).
  rewrite G in E. injection E as <-. simpl in C.
  exists (status_for outcome). split; [exact C|].
  unfold status_for. split.
  - intros ->. reflexivity.
  - intros error ->. reflexivity.
Qed.

(** X13.  [/chat] raises nothing.  Its status is 200, 400, 429 or 500, and it is
    200 exactly when the body has no [error].  A request that carries no
    question is answered at once; one that does is answered as soon as the
    reply the provider gives is not a tool request, or a pass raises. *)
Theorem chat_status (request_json : Exc + PyVal) (fuel : nat) (s : State) :
  (forall e, fst (chat accepts llm api request_json fuel s) <> Raise e)
  /\ (forall reply,
        fst (chat accepts llm api request_json fuel s) = Ret (Some reply) ->
        (reply_status reply = 200 \/ reply_status reply = 400
         \/ reply_status reply = 429 \/ reply_status reply = 500)%Z
        /\ (reply_status reply = 200%Z
            <-> has_key (reply_body reply) "error" = false))
  /\ (question_of request_json = None ->
      exists reply, fst (chat accepts llm api request_json fuel s) = Ret (Some reply))
  /\ (forall user_message k s1,
        question_of request_json = Some user_message ->
        k < fuel ->
        continues accepts llm api k false (start user_message false s) = Some s1 ->
        tool_request (reply_in llm s1) = None
        \/ (exists e t, turn accepts llm api false s1 = (Raise e, t)) ->
        exists reply, fst (chat accepts llm api request_json fuel s) = Ret (Some reply)).
Proof.
  destruct (question_of request_json) as [q|] eqn:Qo.
  - destruct (question_of_some request_json q Qo) as (d & m & -> & Hm & St & Hs).
    destruct (chat_forward d m fuel s Hm Hs) as (o & E & C).
    rewrite C. simpl. split; [discriminate|]. split; [|split; [discriminate|]].
    + intros reply R. destruct o as [outcome|]; [|discriminate].
      injection R as <-. simpl.
      destruct (chat_with_gemini accepts llm api fuel (strip m) false s)
        as [r s'] eqn:G.
      simpl in E. subst r.
      destruct (chat_with_gemini_result llm api fuel _ _ _ _ _ G)
        as [X | [(t & X) | (e & X)]]; [discriminate| |]; injection X as ->.
      * unfold status_for. simpl. split; [lia|]. split; reflexivity.
      * destruct (except_outcome_error e (function_calls_made s'))
          as (d' & error & Eo & K).
        unfold status_for, has_key, field, dict_has. rewrite Eo, K.
        destruct (contains (lower error) "rate limit");
          (split; [lia|split; [lia|discriminate]]).
    + intros user_message k s1 [= <-] Hk Cn Stop. rewrite <- St in Cn.
      assert (N : exists r t, turn accepts llm api false s1 = (r, t)
                              /\ r <> Ret None).
      { destruct Stop as [Q|(e & t & T)].
        - destruct (turn_stop accepts llm api false s1 Q) as (r & out & T & _ & N).
          exists r. eexists. split; [exact T|]. intros ->. exact N.
        - exists (Raise e), t. split; [exact T|discriminate]. }
      destruct N as (r & t & T & N).
      destruct (chat_with_gemini_ends llm api (strip m) false s k s1 r t Cn T N)
        as (outcome & s' & A & _).
      rewrite (A fuel Hk) in E. simpl in E. injection E as <-. simpl. eauto.
  - destruct (chat_without_question request_json fuel s Qo)
      as (text & status & E & Hst).
    rewrite E. split; [discriminate|]. split; [|split; [eauto|discriminate]].
    intros reply [= <-]. simpl. split; [lia|]. split; [lia|discriminate].
Qed.

(** X14.  The status of a [ClientError] of the provider.  An error the test of
    line 263 takes for a rate limit is answered 429 with the rate-limit
    mapping.  Any other is answered with the generic mapping: under 500,
    unless its text holds the words rate limit, in which case it too is
    answered 429. *)
Theorem chat_client_error_status (d : Dict) (m : string) (s : State) (k : nat)
        (s1 : State) (e : Exc) :
  dict_get d "message" = Some (PyStr m) ->
  strip m <> EmptyString ->
  continues accepts llm api k false (start (strip m) false s) = Some s1 ->
  reply_in llm s1 = ProviderRaises e ->
  is_ClientError e = true ->
  forall fuel, k < fuel ->
    (is_rate_limit (exc_str e) = true ->
     fst (chat accepts llm api (inr (PyDict d)) fuel s)
     = Ret (Some (mkReply
                    (PyDict [ ("error", PyStr rate_limit_message);
                              ("error_details", PyStr (exc_str e));
                              ("function_calls",
                               PyList (function_calls_made s1)) ])
                    429)))
    /\ (is_rate_limit (exc_str e) = false ->
        fst (chat accepts llm api (inr (PyDict d)) fuel s)
        = Ret (Some (mkReply
                       (PyDict [ ("error",
                                  PyStr ("Gemini API Error: " ++ exc_str e));
                                 ("function_calls",
                                  PyList (function_calls_made s1)) ])
                       (if contains (lower ("Gemini API Error: " ++ exc_str e))
                                    "rate limit"
                        then 429 else 500)))).
Proof.
  intros Hm Hs C R Ce fuel Hk.
  destruct (chat_forward d m fuel s Hm Hs) as (o & E & V).
  assert (F : fst (chat_with_gemini accepts llm api fuel (strip m) false s)
              = Ret (Some (except_outcome e (function_calls_made s1)))).
  { replace fuel with (k + S (fuel - S k)) by lia.
    rewrite (continues_chat llm api (strip m) false _ k s s1 C).
    rewrite (guarded_loop_raise llm api false _ s1 _ e
               (turn_raises accepts llm api false s1 e R)).
    reflexivity. }
  rewrite F in E. injection E as <-. rewrite V. simpl.
  unfold except_outcome. rewrite Ce.
  split; intros ->; reflexivity.
Qed.

End WebProperties.

(** ** The command-line front end *)

Section CommandLineProperties.

Variable llm : nat -> list Content -> ProviderReply.
Variable api : nat -> HttpRequest -> HttpReply.
Variable keyboard : nat -> Keyboard.

Lemma then_say {A} (p : Printed) (k : unit -> Cmd A) (c : Console) :
  then_ (say accepts p) k c
  = k tt (mkConsole (mkState (messages (world c)) (function_calls_made (world c))
                             (llm_log (world c)) (http_log (world c))
                             (stdout (world c) ++ [p]))
                    (keys_read c) (prompts c)).
Proof. reflexivity. Qed.

(** A question asked from the console ends with an outcome or runs on; it
    reads no key. *)
Lemma ask_flow (fuel : nat) (user_message : string) (c : Console) :
  keys_read (snd (ask accepts llm api fuel user_message c)) = keys_read c
  /\ prompts (snd (ask accepts llm api fuel user_message c)) = prompts c
  /\ world (snd (ask accepts llm api fuel user_message c))
     = snd (chat_with_gemini accepts llm api fuel user_message true (world c))
  /\ (fst (ask accepts llm api fuel user_message c) = Runs
      \/ exists d, fst (ask accepts llm api fuel user_message c) = Done (PyDict d)
                   /\ fst (chat_with_gemini accepts llm api fuel user_message true (world c))
                      = Ret (Some (PyDict d))).
Proof.
  unfold ask.
  destruct (chat_with_gemini accepts llm api fuel user_message true (world c))
    as [r w] eqn:G.
  destruct (chat_with_gemini_result llm api fuel _ _ _ _ _ G)
    as [-> | [(t & ->) | (e & ->)]]; simpl; repeat split; eauto.
  destruct (except_outcome_error e (function_calls_made w)) as (d & x & -> & _).
  eauto.
Qed.

(** X15.  The loop of [run_interactive_mode] raises nothing and lets no interrupt
    through.  When it ends, the last key it read was an interrupt or a line
    that asks to quit. *)
Theorem interactive_loop_ends (fuel : nat) :
  forall passes c,
    (forall e, fst (interactive_loop accepts llm api keyboard fuel passes c) <> Fails e)
    /\ fst (interactive_loop accepts llm api keyboard fuel passes c) <> Interrupts
    /\ keys_read c <= keys_read (snd (interactive_loop accepts llm api keyboard fuel passes c))
    /\ (fst (interactive_loop accepts llm api keyboard fuel passes c) = Done tt ->
        exists n,
          keys_read (snd (interactive_loop accepts llm api keyboard fuel passes c)) = S n
          /\ keys_read c <= n
          /\ (keyboard n = Interrupted
              \/ exists line,
                   keyboard n = Typed line
                   /\ asks_to_quit (strip line) = true)).
Proof.
  induction passes as [|passes IH]; intros c.
  - simpl. split; [discriminate|]. split; [discriminate|].
    split; [lia|discriminate].
  - simpl. unfold interactive_body, then_, input.
    destruct (keyboard (keys_read c)) as [line| |] eqn:K; simpl.
    + destruct (asks_to_quit (strip line)) eqn:Q; simpl.
      * split; [discriminate|]. split; [discriminate|]. split; [lia|].
        intros _. exists (keys_read c).
        split; [reflexivity|]. split; [lia|]. right. exists line. auto.
      * destruct (strip line) as [|a rest] eqn:St; simpl.
        -- match goal with
           | |- context [interactive_loop accepts llm api keyboard fuel passes ?c1] =>
               destruct (IH c1) as (I1 & I2 & I3 & I4)
           end.
           simpl in I3. split; [exact I1|]. split; [exact I2|]. split; [lia|].
           intros D. destruct (I4 D) as (n & E & L & W). simpl in L.
           exists n. split; [exact E|]. split; [lia|exact W].
        -- set (c1 := mkConsole (world c) (S (keys_read c))
                                (prompts c
                                 ++ [(length (stdout (world c)), "You: ")])).
           destruct (ask_flow fuel (String a rest) c1) as (A1 & _ & _ & A4).
           destruct (ask accepts llm api fuel (String a rest) c1) as [f c2].
           simpl in A1, A4.
           destruct A4 as [-> | (d & -> & _)]; simpl.
           ++ split; [discriminate|]. split; [discriminate|].
              split; [lia|discriminate].
           ++ destruct (IH c2) as (I1 & I2 & I3 & I4).
              split; [exact I1|]. split; [exact I2|]. split; [lia|].
              intros D. destruct (I4 D) as (n & E & L & W).
              exists n. split; [exact E|]. split; [lia|exact W].
    + match goal with
      | |- context [interactive_loop accepts llm api keyboard fuel passes ?c1] =>
          destruct (IH c1) as (I1 & I2 & I3 & I4)
      end.
      simpl in I3. split; [exact I1|]. split; [exact I2|]. split; [lia|].
      intros D. destruct (I4 D) as (n & E & L & W). simpl in L.
      exists n. split; [exact E|]. split; [lia|exact W].
    + split; [discriminate|]. split; [discriminate|]. split; [lia|].
      intros _. exists (keys_read c).
      split; [reflexivity|]. split; [lia|]. left. exact K.
Qed.


(** X16.  At the end of the input [run_interactive_mode] does not end: the
    [EOFError] of [input()] is answered by the [except Exception] clause,
    which prints it, and the loop asks again.  Every pass reads one key and
    prints one line; the provider is not called. *)
Theorem interactive_loop_at_end_of_input (fuel : nat) :
  forall passes c,
    (forall n, keys_read c <= n -> keyboard n = EndOfInput) ->
    fst (interactive_loop accepts llm api keyboard fuel passes c) = Runs
    /\ keys_read (snd (interactive_loop accepts llm api keyboard fuel passes c))
       = keys_read c + passes
    /\ length (stdout (world (snd (interactive_loop accepts llm api keyboard fuel passes c))))
       = length (stdout (world c)) + passes
    /\ llm_log (world (snd (interactive_loop accepts llm api keyboard fuel passes c)))
       = llm_log (world c).
Proof.
  induction passes as [|passes IH]; intros c E.
  - simpl. repeat split; lia.
  - simpl. unfold interactive_body, then_, input.
    rewrite (E (keys_read c) (le_n _)). simpl.
    match goal with
    | |- context [interactive_loop accepts llm api keyboard fuel passes ?c1] =>
        destruct (IH c1) as (I1 & I2 & I3 & I4)
    end.
    + simpl. intros n Hn. apply E. lia.
    + simpl in I2, I3, I4. rewrite length_app in I3. simpl in I3.
      split; [exact I1|]. split; [lia|]. split; [lia|exact I4].
Qed.

(** X17.  Blank lines, lines that ask to quit, the end of the input and interrupts
    never reach the provider or the camera API. *)
Theorem interactive_loop_without_question (fuel : nat) :
  forall passes c,
    (forall n, keys_read c <= n -> no_question (keyboard n)) ->
    llm_log (world (snd (interactive_loop accepts llm api keyboard fuel passes c)))
    = llm_log (world c)
    /\ http_log (world (snd (interactive_loop accepts llm api keyboard fuel passes c)))
       = http_log (world c).
Proof.
  induction passes as [|passes IH]; intros c E.
  - simpl. auto.
  - simpl. unfold interactive_body, then_, input.
    pose proof (E (keys_read c) (le_n _)) as N.
    destruct (keyboard (keys_read c)) as [line| |]; simpl.
    + destruct (asks_to_quit (strip line)) eqn:Q; simpl; [auto|].
      destruct N as [N|N]; [congruence|]. rewrite N. simpl.
      match goal with
      | |- context [interactive_loop accepts llm api keyboard fuel passes ?c1] =>
          destruct (IH c1) as (I1 & I2)
      end; auto.
      simpl. intros n Hn. apply E. lia.
    + match goal with
      | |- context [interactive_loop accepts llm api keyboard fuel passes ?c1] =>
          destruct (IH c1) as (I1 & I2)
      end; auto.
      simpl. intros n Hn. apply E. lia.
    + auto.
Qed.

(** X18.  A line that is neither blank nor a request to quit is passed, stripped,
    to [chat_with_gemini] with tracing; whatever the outcome, an error as
    well as an answer, the loop goes on to the next line. *)
Theorem interactive_loop_question (fuel passes : nat) (c : Console)
        (line : string) (outcome : PyVal) :
  keyboard (keys_read c) = Typed line ->
  asks_to_quit (strip line) = false ->
  strip line <> EmptyString ->
  fst (chat_with_gemini accepts llm api fuel (strip line) true (world c))
  = Ret (Some outcome) ->
  interactive_loop accepts llm api keyboard fuel (S passes) c
  = interactive_loop accepts llm api keyboard fuel passes
      (mkConsole (snd (chat_with_gemini accepts llm api fuel (strip line) true (world c)))
                 (S (keys_read c))
                 (prompts c ++ [(length (stdout (world c)), "You: ")])).
Proof.
  intros K Q N G. simpl. unfold interactive_body, then_, input.
  rewrite K. simpl. rewrite Q.
  destruct (strip line) as [|a rest]; [congruence|].
  unfold ask. simpl.
  destruct (chat_with_gemini accepts llm api fuel (String a rest) true (world c))
    as [r w].
  simpl in G. subst r. reflexivity.
Qed.

(** The bound on the keys [examples_from] reads: one between two examples,
    none after the last, none after an error. *)
Lemma examples_from_keys (fuel total : nat) :
  forall examples i c,
    total < i + length examples ->
    keys_read c <= keys_read (snd (examples_from accepts llm api keyboard fuel i total examples c))
    /\ keys_read (snd (examples_from accepts llm api keyboard fuel i total examples c))
       + 1 <= keys_read c + Nat.max 1 (length examples).
Proof.
  induction examples as [|example rest IH]; intros i c H.
  - simpl. lia.
  - simpl examples_from. unfold then_, say. simpl.
    match goal with
    | |- context [ask accepts llm api fuel example ?c1] =>
        destruct (ask_flow fuel example c1) as (A1 & _ & _ & A4);
        destruct (ask accepts llm api fuel example c1) as [f c2]
    end.
    simpl in A1, A4. destruct A4 as [-> | (d & -> & _)]; simpl; [lia|].
    destruct (dict_has d "error"); simpl; [lia|].
    destruct (i <? total)%nat eqn:L; simpl.
    + apply Nat.ltb_lt in L. unfold input.
      change (length (example :: rest)) with (S (length rest)) in *.
      destruct (keyboard (keys_read c2)); simpl; try lia.
      match goal with
      | |- context [examples_from accepts llm api keyboard fuel (S i) total rest ?c3] =>
          destruct (IH (S i) c3) as (I1 & I2)
      end; [lia|].
      simpl keys_read in I1, I2. lia.
    + apply Nat.ltb_ge in L.
      change (length (example :: rest)) with (S (length rest)) in *.
      destruct (IH (S i) c2) as (I1 & I2); [lia|]. lia.
Qed.

(** X19.  [run_predefined_examples] asks for the Enter key three times at most:
    between two of its four examples, not after the last. *)
Theorem run_predefined_examples_keys (fuel : nat) (c : Console) :
  keys_read c <= keys_read (snd (run_predefined_examples accepts llm api keyboard fuel c))
  /\ keys_read (snd (run_predefined_examples accepts llm api keyboard fuel c))
     <= keys_read c + 3.
Proof.
  assert (E : exists f c2,
             run_predefined_examples accepts llm api keyboard fuel c = (f, c2)
             /\ keys_read c <= keys_read c2
             /\ keys_read c2 <= keys_read c + 3).
  { unfold run_predefined_examples. rewrite !then_say. unfold then_ at 1.
    match goal with
    | |- context [examples_from accepts llm api keyboard fuel 1 (length EXAMPLES)
                                EXAMPLES ?c1] =>
        destruct (examples_from_keys fuel (length EXAMPLES) EXAMPLES 1 c1)
          as (I1 & I2);
        [lia|];
        destruct (examples_from accepts llm api keyboard fuel 1 (length EXAMPLES)
                                EXAMPLES c1) as [f c2]
    end.
    change (length EXAMPLES) with 4 in I2.
    cbn [keys_read snd] in I1, I2.
    destruct f; [rewrite !then_say; unfold say, print, accepts|..];
      eexists; eexists; (split; [reflexivity|]);
      cbn [keys_read snd fst world stdout length]; lia. }
  destruct E as (f & c2 & -> & H1 & H2). simpl. auto.
Qed.

(** X20.  The examples stop at the first outcome that is an error: the examples
    after it are not sent, no key is asked for, and the closing banner is
    printed all the same. *)
Theorem run_predefined_examples_stop (fuel i total : nat) (example : string)
        (rest : list string) (c : Console) (d : Dict) :
  let c1 :=
    mkConsole
      (mkState (messages (world c)) (function_calls_made (world c))
               (llm_log (world c)) (http_log (world c))
               (stdout (world c)
                ++ [PrintLine (nl ++ str_repeat "#" 60);
                    PrintLine ("EXAMPLE " ++ nat_str i ++ "/" ++ nat_str total);
                    PrintLine (str_repeat "#" 60 ++ nl)]))
      (keys_read c) (prompts c) in
  let after := snd (chat_with_gemini accepts llm api fuel example true (world c1)) in
  fst (chat_with_gemini accepts llm api fuel example true (world c1))
  = Ret (Some (PyDict d)) ->
  dict_has d "error" = true ->
  examples_from accepts llm api keyboard fuel i total (example :: rest) c
  = (Done tt,
     mkConsole
       (mkState (messages after) (function_calls_made after)
                (llm_log after) (http_log after)
                (stdout after
                 ++ [PrintLine (nl ++ "⚠️ Stopping examples due to error." ++ nl)]))
       (keys_read c) (prompts c)).
Proof.
  intros c1 after G E. subst after c1.
  simpl examples_from. unfold then_, say, ask. simpl.
  rewrite <- !app_assoc. simpl.
  destruct (chat_with_gemini accepts llm api fuel example true _) as [r w].
  simpl in G. subst r. simpl. rewrite E. reflexivity.
Qed.

(** X21.  One pass of the menu of [main].  Choice 3 ends the program; a choice
    that is none of 1, 2, 3 is refused and the menu shown again; neither
    calls the provider.  The end of the input and an interrupt at the menu
    are not caught: they leave [main]. *)
Theorem main_loop_choice (fuel passes : nat) (c : Console) :
  let shown :=
    mkState (messages (world c)) (function_calls_made (world c))
            (llm_log (world c)) (http_log (world c))
            (stdout (world c)
             ++ [PrintLine (nl ++ "Choose an option:");
                 PrintLine "1. Run predefined examples";
                 PrintLine "2. Interactive mode";
                 PrintLine "3. Exit"]) in
  let asked :=
    (prompts c
     ++ [(length (stdout shown), (nl ++ "Enter choice (1-3): ")%string)])%list in
  (forall line,
      keyboard (keys_read c) = Typed line ->
      strip line = "3" ->
      main_loop accepts llm api keyboard fuel (S passes) c
      = (Done tt,
         mkConsole
           (mkState (messages shown) (function_calls_made shown)
                    (llm_log shown) (http_log shown)
                    (stdout shown ++ [PrintLine (nl ++ "👋 Goodbye!")]))
           (S (keys_read c)) asked))
  /\ (forall line,
        keyboard (keys_read c) = Typed line ->
        strip line <> "1" -> strip line <> "2" -> strip line <> "3" ->
        main_loop accepts llm api keyboard fuel (S passes) c
        = main_loop accepts llm api keyboard fuel passes
            (mkConsole
               (mkState (messages shown) (function_calls_made shown)
                        (llm_log shown) (http_log shown)
                        (stdout shown
                         ++ [PrintLine "❌ Invalid choice. Please enter 1, 2, or 3."]))
               (S (keys_read c)) asked))
  /\ (keyboard (keys_read c) = EndOfInput ->
      main_loop accepts llm api keyboard fuel (S passes) c
      = (Fails end_of_file, mkConsole shown (S (keys_read c)) asked))
  /\ (keyboard (keys_read c) = Interrupted ->
      main_loop accepts llm api keyboard fuel (S passes) c
      = (Interrupts, mkConsole shown (S (keys_read c)) asked)).
Proof.
  intros shown asked. subst shown asked.
  assert (Menu : forall key,
             keyboard (keys_read c) = key ->
             main_loop accepts llm api keyboard fuel (S passes) c
             = match key with
               | Typed line =>
                   (if String.eqb (strip line) "1" then
                      then_ (run_predefined_examples accepts llm api keyboard fuel)
                            (fun _ => main_loop accepts llm api keyboard fuel passes)
                    else if String.eqb (strip line) "2" then
                      then_ (run_interactive_mode accepts llm api keyboard fuel)
                            (fun _ => main_loop accepts llm api keyboard fuel passes)
                    else if String.eqb (strip line) "3" then
                      say accepts (PrintLine (nl ++ "👋 Goodbye!"))
                    else
                      then_ (say accepts (PrintLine
                                    "❌ Invalid choice. Please enter 1, 2, or 3."))
                            (fun _ => main_loop accepts llm api keyboard fuel passes))
               | EndOfInput => fun c' => (Fails end_of_file, c')
               | Interrupted => fun c' => (Interrupts, c')
               end
                 (mkConsole
                    (mkState (messages (world c)) (function_calls_made (world c))
                             (llm_log (world c)) (http_log (world c))
                             (stdout (world c)
                              ++ [PrintLine (nl ++ "Choose an option:");
                                  PrintLine "1. Run predefined examples";
                                  PrintLine "2. Interactive mode";
                                  PrintLine "3. Exit"]))
                    (S (keys_read c))
                    (prompts c
                     ++ [(length (stdout (world c)
                                  ++ [PrintLine (nl ++ "Choose an option:");
                                      PrintLine "1. Run predefined examples";
                                      PrintLine "2. Interactive mode";
                                      PrintLine "3. Exit"]),
                          (nl ++ "Enter choice (1-3): ")%string)]))).
  { intros key K. simpl main_loop. rewrite !then_say.
    unfold then_ at 1. unfold input at 1.
    cbn [world keys_read prompts messages function_calls_made llm_log http_log
         stdout].
    rewrite <- !app_assoc. cbn [app]. rewrite K.
    destruct key; reflexivity. }
  split; [|split; [|split]].
  - intros line K E. rewrite (Menu _ K), E.
    rewrite (proj2 (String.eqb_neq "3" "1")) by discriminate.
    rewrite (proj2 (String.eqb_neq "3" "2")) by discriminate.
    rewrite String.eqb_refl. reflexivity.
  - intros line K N1 N2 N3. rewrite (Menu _ K).
    apply String.eqb_neq in N1, N2, N3. rewrite N1, N2, N3.
    rewrite then_say. reflexivity.
  - intros K. rewrite (Menu _ K). reflexivity.
  - intros K. rewrite (Menu _ K). reflexivity.
Qed.

End CommandLineProperties.

(** ** Declarations and registry *)

Section Declarations.

Variable api : nat -> HttpRequest -> HttpReply.

(** X22.  The declarations and the registry agree: a declared tool is
    registered, and its properties and its required names are the parameters
    of the registered function; a registered function is declared.  So an
    invocation that follows a declaration, naming exactly its required
    parameters with values of any kind, is bound: one request is sent, and
    [execute_function_call] raises no [TypeError] for the arguments. *)
Theorem declared_invocation_binds (declaration : FunctionDeclaration)
        (kwargs : Dict) :
  In declaration get_cameras_tool ->
  (forall k, In k (dict_keys kwargs) <-> In k (decl_required declaration)) ->
  exists f,
    registry_get available_functions (decl_name declaration) = Some f
    /\ fn_name f = decl_name declaration
    /\ fn_params f = decl_required declaration
    /\ map param_name (decl_properties declaration) = fn_params f
    /\ bind_keywords (fn_name f) (fn_params f) kwargs = inr tt
    /\ (forall verbose s,
           http_log (snd (execute_function_call accepts api
                            (mkFunctionCall (decl_name declaration) (Some kwargs))
                            verbose s))
           = (http_log s ++ [request_of f (Some kwargs)])%list)
    /\ (forall g name,
           registry_get available_functions name = Some g ->
           exists d, In d get_cameras_tool /\ decl_name d = name
                     /\ decl_required d = fn_params g).
Proof.
  intros D B.
  assert (Conv : forall g name,
             registry_get available_functions name = Some g ->
             exists d, In d get_cameras_tool /\ decl_name d = name
                       /\ decl_required d = fn_params g).
  { intros g name. unfold registry_get, available_functions.
    destruct (String.eqb_spec name "get_cameras_by_zipcode") as [->|_].
    - intros [= <-]. eexists. split; [left; reflexivity|]. split; reflexivity.
    - destruct (String.eqb_spec name "search_cameras_by_street") as [->|_];
        [|discriminate].
      intros [= <-]. eexists. split; [right; left; reflexivity|].
      split; reflexivity. }
  assert (Bound : forall f,
             registry_get available_functions (decl_name declaration) = Some f ->
             fn_params f = decl_required declaration ->
             bind_keywords (fn_name f) (fn_params f) kwargs = inr tt
             /\ (forall verbose s,
                    http_log (snd (execute_function_call accepts api
                                     (mkFunctionCall (decl_name declaration) (Some kwargs))
                                     verbose s))
                    = (http_log s ++ [request_of f (Some kwargs)])%list)).
  { intros f R P.
    assert (K : bind_keywords (fn_name f) (fn_params f) kwargs = inr tt).
    { apply bind_keywords_ok. rewrite P. exact B. }
    split; [exact K|]. intros verbose s.
    destruct (execute_function_call_snd api
                (mkFunctionCall (decl_name declaration) (Some kwargs)) verbose s)
      as (_ & _ & _ & H & _).
    rewrite H. unfold execute_requests, expand_keywords.
    simpl fc_name. simpl fc_args. rewrite R, K. reflexivity. }
  destruct D as [<-|[<-|[]]].
  - exists fn_get_cameras_by_zipcode.
    destruct (Bound fn_get_cameras_by_zipcode eq_refl eq_refl) as (K & H).
    repeat split; auto.
  - exists fn_search_cameras_by_street.
    destruct (Bound fn_search_cameras_by_street eq_refl eq_refl) as (K & H).
    repeat split; auto.
Qed.

End Declarations.

(** ** The further properties on the scenarios *)

Module MoreChecks.
Import Scenario Cases.



Lemma first_part_decides_witness :
  fst (chat_with_gemini accepts talks_first two_cameras 1 question false idle)
  = Ret (Some (PyDict [ ("response", PyStr "Let me look.");
                        ("function_calls", PyList []) ]))
  /\ http_log (snd (chat_with_gemini accepts talks_first two_cameras 1 question false idle))
     = []
  /\ messages (snd (chat_with_gemini accepts talks_first two_cameras 1 question false idle))
     = [mkContent "user" (Some [mkPart (Some question) None None])].
Proof.
  apply (first_part_decides talks_first two_cameras question false idle 0
           (start question false idle) text_then_call
           (mkCandidate
              (Some (mkContent "model"
                       (Some [mkPart (Some "Let me look.") None None;
                              mkPart None (Some zipcode_call) None]))))
           []
           (mkContent "model"
              (Some [mkPart (Some "Let me look.") None None;
                     mkPart None (Some zipcode_call) None]))
           (mkPart (Some "Let me look.") None None)
           [mkPart None (Some zipcode_call) None]
           eq_refl eq_refl eq_refl eq_refl eq_refl eq_refl 1 (le_n 1)).
Defined.

Lemma empty_response_is_terminal_witness :
  fst (chat_with_gemini accepts blocked two_cameras 1 question false idle)
  = Ret (Some (PyDict [ ("error",
                         PyStr "Unexpected error: list index out of range");
                        ("function_calls", PyList []) ]))
  /\ fst (chat_with_gemini accepts no_candidates two_cameras 1 question false idle)
     = Ret (Some (PyDict
                    [ ("error",
                       PyStr "Unexpected error: 'NoneType' object is not subscriptable");
                      ("function_calls", PyList []) ]))
  /\ fst (chat_with_gemini accepts no_parts two_cameras 1 question false idle)
     = Ret (Some (PyDict
                    [ ("error",
                       PyStr "Unexpected error: 'NoneType' object is not subscriptable");
                      ("function_calls", PyList []) ])).
Proof.
  split; [|split].
  - apply (proj1 (empty_response_is_terminal blocked two_cameras question false
                    idle 0 (start question false idle) (mkResponse (Some []) None)
                    eq_refl eq_refl 1 (le_n 1))).
    reflexivity.
  - apply (proj1 (proj2 (empty_response_is_terminal no_candidates two_cameras
                           question false idle 0 (start question false idle)
                           (mkResponse None None) eq_refl eq_refl 1 (le_n 1)))).
    reflexivity.
  - apply (proj2 (proj2 (proj2 (proj2
             (empty_response_is_terminal no_parts two_cameras question false
                idle 0 (start question false idle)
                (mkResponse (Some [mkCandidate (Some (mkContent "model" None))])
                            None)
                eq_refl eq_refl 1 (le_n 1)))))
             (mkCandidate (Some (mkContent "model" None))) []
             (mkContent "model" None) eq_refl eq_refl eq_refl).
Defined.

Lemma other_provider_errors_witness :
  fst (chat_with_gemini accepts unavailable two_cameras 1 question false idle)
  = Ret (Some (PyDict
                 [ ("error",
                    PyStr ("Unexpected error: " ++ exc_str server_error));
                   ("function_calls", PyList []) ])).
Proof.
  apply (other_provider_errors unavailable two_cameras question false idle 0
           (start question false idle) server_error
           eq_refl eq_refl eq_refl 1 (le_n 1)).
Defined.

Lemma transport_failure_is_reported_witness :
  exists s',
    turn accepts one_tool timeout false (start question false idle) = (Ret None, s')
    /\ messages s'
       = (messages (start question false idle)
          ++ [mkContent "model" (Some [mkPart None (Some zipcode_call) None]);
              function_response_turn "get_cameras_by_zipcode"
                (PyDict [ ("success", PyBool false);
                          ("error", PyStr "Read timed out. (read timeout=10)");
                          ("zipcode", PyStr "10036") ])])%list
    /\ (forall fuel,
           guarded_loop accepts one_tool timeout (S fuel) false (start question false idle)
           = guarded_loop accepts one_tool timeout fuel false s').
Proof.
  apply (transport_failure_is_reported one_tool timeout false
           (start question false idle)
           (mkContent "model" (Some [mkPart None (Some zipcode_call) None]))
           zipcode_call fn_get_cameras_by_zipcode
           (mkExc RequestException "Read timed out. (read timeout=10)")
           eq_refl eq_refl).
  - eexists. split; [reflexivity|]. intros k. simpl. tauto.
  - reflexivity.
  - left. reflexivity.
Defined.

Lemma no_request_exception_escapes_witness :
  is_RequestException
    (mkExc TypeError
       "get_cameras_by_zipcode() missing 1 required positional argument: 'zipcode'")
  = false
  /\ exists f,
       registry_get available_functions (fc_name bare_call) = Some f
       /\ (binds_exactly f (fc_args bare_call)
           \/ exc_class
                (mkExc TypeError
                   "get_cameras_by_zipcode() missing 1 required positional argument: 'zipcode'")
              = TypeError).
Proof.
  apply (no_request_exception_escapes two_cameras bare_call false idle).
  reflexivity.
Defined.

Lemma unsized_body_is_terminal_witness :
  fst (chat_with_gemini accepts one_tool null_body 1 question false idle)
  = Ret (Some (PyDict
                 [ ("error",
                    PyStr "Unexpected error: object of type 'NoneType' has no len()");
                   ("function_calls", PyList [call_record zipcode_call]) ])).
Proof.
  apply (proj2 (unsized_body_is_terminal one_tool null_body question false idle
                  0 (start question false idle)
                  (mkContent "model" (Some [mkPart None (Some zipcode_call) None]))
                  zipcode_call fn_get_cameras_by_zipcode
                  (mkHttpResponse None (inr PyNone)) PyNone
                  (mkExc TypeError "object of type 'NoneType' has no len()")
                  eq_refl eq_refl eq_refl
                  ltac:(eexists; split; [reflexivity|]; intros k; simpl; tauto)
                  eq_refl eq_refl eq_refl eq_refl)
               1 (le_n 1)).
Defined.

Lemma chat_blank_message_witness :
  chat accepts one_tool two_cameras (inr (PyDict blank_request)) 3 idle
  = (Ret (Some (mkReply (PyDict [("error", PyStr "Message is required")]) 400)),
     idle).
Proof.
  apply (chat_blank_message one_tool two_cameras blank_request 3 idle).
  right. exists "   ". split; reflexivity.
Defined.

Lemma chat_forwards_witness :
  exists status,
    chat accepts one_tool two_cameras (inr (PyDict padded_request)) 3 idle
    = (Ret (Some (mkReply
                    (PyDict
                       [ ("response", PyStr "There are 2 cameras in 10036.");
                         ("function_calls", PyList [call_record zipcode_call]) ])
                    status)),
       snd (chat_with_gemini accepts one_tool two_cameras 3
              (strip "  Show me all speed cameras in zipcode 10036  ") false idle))
    /\ (field (PyDict
                 [ ("response", PyStr "There are 2 cameras in 10036.");
                   ("function_calls", PyList [call_record zipcode_call]) ])
              "error" = None -> status = 200%Z)
    /\ (forall error,
          field (PyDict
                   [ ("response", PyStr "There are 2 cameras in 10036.");
                     ("function_calls", PyList [call_record zipcode_call]) ])
                "error" = Some (PyStr error) ->
          status = if contains (lower error) "rate limit" then 429%Z else 500%Z).
Proof.
  apply (chat_forwards one_tool two_cameras padded_request
           "  Show me all speed cameras in zipcode 10036  " 3 idle).
  - reflexivity.
  - discriminate.
  - reflexivity.
Defined.

Lemma chat_client_error_status_witness :
  fst (chat accepts throttling two_cameras (inr (PyDict padded_request)) 1 idle)
  = Ret (Some (mkReply
                 (PyDict
                    [ ("error",
                       PyStr "Gemini API Error: 400 Rate limit reached for this model.");
                      ("function_calls", PyList []) ])
                 429)).
Proof.
  apply (proj2 (chat_client_error_status throttling two_cameras padded_request
                  "  Show me all speed cameras in zipcode 10036  " idle 0
                  (start question false idle) throttled
                  eq_refl ltac:(discriminate) eq_refl eq_refl eq_refl
                  1 (le_n 1))).
  reflexivity.
Defined.

Lemma interactive_loop_at_end_of_input_witness :
  fst (interactive_loop accepts one_tool two_cameras no_keys 3 7 console) = Runs
  /\ keys_read (snd (interactive_loop accepts one_tool two_cameras no_keys 3 7 console))
     = 0 + 7
  /\ length (stdout (world (snd (interactive_loop accepts one_tool two_cameras no_keys
                                   3 7 console))))
     = 0 + 7
  /\ llm_log (world (snd (interactive_loop accepts one_tool two_cameras no_keys
                            3 7 console)))
     = [].
Proof.
  apply (interactive_loop_at_end_of_input one_tool two_cameras no_keys 3 7
           console).
  intros n _. reflexivity.
Defined.

Lemma interactive_loop_without_question_witness :
  llm_log (world (snd (interactive_loop accepts one_tool two_cameras blank_then_quit
                         3 5 console)))
  = []
  /\ http_log (world (snd (interactive_loop accepts one_tool two_cameras blank_then_quit
                             3 5 console)))
     = [].
Proof.
  apply (interactive_loop_without_question one_tool two_cameras blank_then_quit
           3 5 console).
  intros [|n] _; simpl; [right|left]; reflexivity.
Defined.

Lemma interactive_loop_question_witness :
  interactive_loop accepts one_tool two_cameras question_then_quit 3 (S 4) console
  = interactive_loop accepts one_tool two_cameras question_then_quit 3 4
      (mkConsole
         (snd (chat_with_gemini accepts one_tool two_cameras 3
                 (strip " Show me all speed cameras in zipcode 10036 ") true
                 (world console)))
         (S (keys_read console))
         (prompts console ++ [(length (stdout (world console)), "You: ")])).
Proof.
  apply (interactive_loop_question one_tool two_cameras question_then_quit 3 4
           console " Show me all speed cameras in zipcode 10036 "
           (PyDict [ ("response", PyStr "There are 2 cameras in 10036.");
                     ("function_calls", PyList [call_record zipcode_call]) ])).
  - reflexivity.
  - reflexivity.
  - discriminate.
  - reflexivity.
Defined.

Lemma run_predefined_examples_stop_witness :
  fst (examples_from accepts out_of_quota two_cameras no_keys 3 1 4 EXAMPLES console)
  = Done tt
  /\ keys_read (snd (examples_from accepts out_of_quota two_cameras no_keys 3 1 4
                       EXAMPLES console))
     = 0
  /\ length (llm_log (world (snd (examples_from accepts out_of_quota two_cameras no_keys
                                    3 1 4 EXAMPLES console))))
     = 1.
Proof.
  unfold EXAMPLES.
  rewrite (run_predefined_examples_stop out_of_quota two_cameras no_keys 3 1 4
             "Show me all speed cameras in zipcode 10036"
             [ "Are there any cameras on Broadway in zipcode 10001?";
               "What speed cameras are in the 90212 area code?";
               "Find cameras on Market St in San Francisco's 94103 zipcode" ]
             console
             [ ("error", PyStr rate_limit_message);
               ("error_details",
                PyStr "429 RESOURCE_EXHAUSTED. Quota exceeded for the day.");
               ("function_calls", PyList []) ]
             eq_refl eq_refl).
  repeat split.
Defined.


Lemma declared_invocation_binds_witness :
  exists f,
    registry_get available_functions "search_cameras_by_street" = Some f
    /\ fn_name f = "search_cameras_by_street"
    /\ fn_params f = ["street"; "zipcode"]
    /\ map param_name
           [ mkParameter "street" "STRING"
                         "Street name to search for using standard abbreviations (e.g., '5th Ave' not '5th Avenue', 'Broadway', 'Market St' not 'Market Street', 'Wilshire Blvd' not 'Wilshire Boulevard')";
             mkParameter "zipcode" "STRING" "5-digit US zipcode where to search" ]
       = fn_params f
    /\ bind_keywords (fn_name f) (fn_params f)
                     [("zipcode", PyInt 10001); ("street", PyStr "Broadway")]
       = inr tt.
Proof.
  destruct (declared_invocation_binds two_cameras
              (mkDeclaration
                 "search_cameras_by_street"
                 "Search for speed cameras by street name within a specific zipcode. Use this when the user asks about cameras on a particular street. IMPORTANT: Always use standard street abbreviations: Ave (not Avenue), St (not Street), Blvd (not Boulevard), Dr (not Drive), Rd (not Road), Ln (not Lane), Ct (not Court), Pl (not Place)."
                 [ mkParameter "street" "STRING"
                               "Street name to search for using standard abbreviations (e.g., '5th Ave' not '5th Avenue', 'Broadway', 'Market St' not 'Market Street', 'Wilshire Blvd' not 'Wilshire Boulevard')";
                   mkParameter "zipcode" "STRING"
                               "5-digit US zipcode where to search" ]
                 ["street"; "zipcode"])
              [("zipcode", PyInt 10001); ("street", PyStr "Broadway")]
              (or_intror (or_introl eq_refl))
              ltac:(intros k; simpl; tauto))
    as (f & R & N & P & M & K & _).
  exists f. repeat split; assumption.
Defined.

End MoreChecks.
